(** * NetSuite -> Supabase wholesale sync: a shallow embedding

    The development follows the three sync scripts

      - [scripts/sync-netsuite-wholesale.py]      (offset pagination, collect then upsert)
      - [scripts/sync-netsuite-wholesale-v2.py]   (offset pagination, streaming upsert)
      - [scripts/sync-netsuite-h1-2025.py]        (watermark pagination on the row id)

    Python values are modelled as a small tagged union, dictionaries as
    [gmap string value], exceptions as an error result, and the network
    as a deterministic oracle over the trace of events performed so far. *)

From Stdlib Require Import ZArith List String Ascii Bool Lia SpecFloat Sorted Permutation.
From Stdlib Require Import DecimalString.
From stdpp Require Import base option list sorting strings gmap.

Local Open Scope string_scope.
Local Open Scope list_scope.
Local Open Scope Z_scope.

(** ** Python values and exceptions *)

Module Py.

(** The values a JSON row of the source can hold (spec, data model: a
    mapping from column name to a primitive value).  A Python [float] is
    an IEEE-754 binary64 number, here [spec_float]. *)
Inductive value : Type :=
| VNone
| VBool (b : bool)
| VInt (z : Z)
| VFloat (f : spec_float)
| VStr (s : string).

Inductive exn : Type :=
| KeyError (key : string)
| TypeError
| ValueError
| OverflowError
| AttributeError
| JSONDecodeError
| RequestException.

(** Outcome of evaluating an expression: a value or a raised exception. *)
Inductive result (A : Type) : Type :=
| Ok (a : A)
| Raise (e : exn).
Arguments Ok {A} a.
Arguments Raise {A} e.

Definition rbind {A B} (r : result A) (k : A -> result B) : result B :=
  match r with
  | Ok a => k a
  | Raise e => Raise e
  end.

(** [for x in xs: out.append(f x)], stopping at the first exception. *)
Fixpoint rmap {A B} (f : A -> result B) (xs : list A) : result (list B) :=
  match xs with
  | [] => Ok []
  | x :: xs' =>
      rbind (f x) (fun y => rbind (rmap f xs') (fun ys => Ok (y :: ys)))
  end.

Definition float_is_zero (f : spec_float) : bool :=
  match f with
  | S754_zero _ => true
  | _ => false
  end.

(** Truth value testing: [None], [False], numeric zero and the empty
    string are false, everything else is true. *)
Definition truthy (v : value) : bool :=
  match v with
  | VNone => false
  | VBool b => b
  | VInt z => negb (z =? 0)
  | VFloat f => negb (float_is_zero f)
  | VStr s => negb (String.eqb s EmptyString)
  end.

(** A value that is present and equal to [0], [0.0] or the empty
    string. *)
Definition zero_or_empty (v : value) : bool :=
  match v with
  | VInt 0 => true
  | VFloat (S754_zero _) => true
  | VStr EmptyString => true
  | _ => false
  end.

(** [d.get(k)]: the value under [k], [None] when the key is absent. *)
Definition dict_get (d : gmap string value) (k : string) : value :=
  default VNone (d !! k).

(** [d.get(k, dflt)]. *)
Definition dict_get_default (d : gmap string value) (k : string) (dflt : value) : value :=
  default dflt (d !! k).

(** [d[k]]: raises [KeyError] when the key is absent. *)
Definition dict_item (d : gmap string value) (k : string) : result value :=
  match d !! k with
  | Some v => Ok v
  | None => Raise (KeyError k)
  end.

(** Ordering of values, as the operator [>] decides it: numbers (with
    [bool] as 0/1) compare exactly, strings lexicographically, anything
    else raises [TypeError]. *)
Inductive num : Type :=
| NZ (z : Z)
| NF (f : spec_float).

Definition num_of (v : value) : option num :=
  match v with
  | VBool b => Some (NZ (if b then 1 else 0))
  | VInt z => Some (NZ z)
  | VFloat f => Some (NF f)
  | _ => None
  end.

Definition float_cmp_Z (f : spec_float) (z : Z) : option comparison :=
  match f with
  | S754_nan => None
  | S754_infinity s => Some (if s then Lt else Gt)
  | S754_zero _ => Some (0 ?= z)
  | S754_finite s m e =>
      let v := if s then Z.neg m else Z.pos m in
      if 0 <=? e then Some (v * 2 ^ e ?= z) else Some (v ?= z * 2 ^ (- e))
  end.

Definition num_cmp (a b : num) : option comparison :=
  match a, b with
  | NZ x, NZ y => Some (x ?= y)
  | NF f, NF g => SFcompare f g
  | NF f, NZ y => float_cmp_Z f y
  | NZ x, NF g => CompOpp <$> float_cmp_Z g x
  end.

(** [x > y] *)
Definition value_gt (x y : value) : result bool :=
  match x, y with
  | VStr a, VStr b => Ok (String.ltb b a)
  | _, _ =>
      match num_of x, num_of y with
      | Some a, Some b =>
          Ok (match num_cmp a b with Some Gt => true | _ => false end)
      | _, _ => Raise TypeError
      end
  end.

(** The scan of [max]: keep the first element, replace it by every later
    element that is greater. *)
Fixpoint max_from (best : value) (rest : list value) : result value :=
  match rest with
  | [] => Ok best
  | x :: rest' =>
      rbind (value_gt x best) (fun g => max_from (if g then x else best) rest')
  end.

(** [max(iterable)]: [ValueError] on an empty iterable. *)
Definition py_max (vs : list value) : result value :=
  match vs with
  | [] => Raise ValueError
  | v :: vs' => max_from v vs'
  end.

(** [max(f(t) for t in items)]: the generator is consumed one element
    at a time, so each element is read and then compared with the best
    so far before the next one is read. *)
Fixpoint max_of_from {A} (f : A -> result value) (best : value) (rest : list A)
    : result value :=
  match rest with
  | [] => Ok best
  | t :: rest' =>
      rbind (f t) (fun x =>
      rbind (value_gt x best) (fun g => max_of_from f (if g then x else best) rest'))
  end.

Definition max_of {A} (f : A -> result value) (items : list A) : result value :=
  match items with
  | [] => Raise ValueError
  | t :: rest => rbind (f t) (fun v => max_of_from f v rest)
  end.

(** [min(iterable)]: the same scan with [<]. *)
Fixpoint min_from (best : value) (rest : list value) : result value :=
  match rest with
  | [] => Ok best
  | x :: rest' =>
      rbind (value_gt best x) (fun l => min_from (if l then x else best) rest')
  end.

Definition py_min (vs : list value) : result value :=
  match vs with
  | [] => Raise ValueError
  | v :: vs' => min_from v vs'
  end.

Section Builtins.

  (** Parsing of numeric literals by [float(str)] and [int(str)] belongs
      to the interpreter; [None] stands for [ValueError]. *)
Variable float_of_string : string -> option spec_float.
Variable int_of_string : string -> option Z.

  (** [float(int)]: round to nearest even in binary64, [OverflowError]
      when the integer is out of range. *)
Definition float_of_Z (z : Z) : result spec_float :=
    match binary_normalize 53 1024 z 0 false with
    | S754_infinity _ => Raise OverflowError
    | f => Ok f
    end.

Definition py_float (v : value) : result spec_float :=
    match v with
    | VNone => Raise TypeError
    | VBool b => float_of_Z (if b then 1 else 0)
    | VInt z => float_of_Z z
    | VFloat f => Ok f
    | VStr s =>
        match float_of_string s with
        | Some f => Ok f
        | None => Raise ValueError
        end
    end.

  (** [int(float)] truncates toward zero. *)
Definition Z_of_float (f : spec_float) : result Z :=
    match f with
    | S754_zero _ => Ok 0
    | S754_infinity _ => Raise OverflowError
    | S754_nan => Raise ValueError
    | S754_finite s m e =>
        let mag := if 0 <=? e then Z.pos m * 2 ^ e else Z.pos m / 2 ^ (- e) in
        Ok (if s then - mag else mag)
    end.

Definition py_int (v : value) : result Z :=
    match v with
    | VNone => Raise TypeError
    | VBool b => Ok (if b then 1 else 0)
    | VInt z => Ok z
    | VFloat f => Z_of_float f
    | VStr s =>
        match int_of_string s with
        | Some z => Ok z
        | None => Raise ValueError
        end
    end.

End Builtins.

End Py.
Import Py.

Declare Scope result_scope.
Delimit Scope result_scope with result.
Notation "'let!' x ':=' e 'in' k" := (rbind e (fun x => k))
  (at level 10, x name, e at level 100, k at level 200) : result_scope.
Local Open Scope result_scope.

Abbreviation row := (gmap string value).

(** ** Destination records and the row transforms *)

Module Txn.
  (** A record of [ns_wholesale_transactions]. *)
Record record : Type := mk {
    ns_transaction_id : value;
    tran_id : value;
    transaction_type : value;
    tran_date : value;
    foreign_total : option spec_float;
    status : value;
    ns_customer_id : value
  }.
End Txn.

Module Line.
  (** A record of [ns_wholesale_line_items]. *)
Record record : Type := mk {
    ns_line_id : value;
    ns_transaction_id : value;
    ns_item_id : value;
    sku : value;
    quantity : Z;
    rate : option spec_float;
    net_amount : option spec_float;
    foreign_amount : option spec_float;
    item_type : value
  }.
End Line.

Module Cust.
  (** A record of [ns_wholesale_customers]. *)
Record record : Type := mk {
    ns_id : value;
    entityid : value;
    companyname : value;
    altname : value;
    email : value;
    phone : value;
    category : value;
    isinactive : value;
    datecreated : value;
    firstsaledate : value;
    lastsaledate : value;
    parent : value;
    url : value
  }.
End Cust.

Inductive dest_record : Type :=
| TxnRecord (r : Txn.record)
| LineRecord (r : Line.record)
| CustRecord (r : Cust.record).

(** What the interpreter contributes to the transforms. *)
Record interp : Type := {
  float_of_string : string -> option spec_float;
  int_of_string : string -> option Z;
  (* [base64.b64encode(hmac.new(key, msg, hashlib.sha256).digest()).decode()] *)
  hmac_sha256_b64 : string -> string -> string
}.

Module Transform.
Section WithInterp.
Context (I : interp).

  (** [float(d[k]) if d.get(k) else None] *)
Definition float_or_none (d : row) (k : string) : result (option spec_float) :=
    if truthy (dict_get d k) then
      let! v := dict_item d k in
      let! f := py_float (float_of_string I) v in
      Ok (Some f)
    else Ok None.

  (** [int(d[k]) if d.get(k) else 0] *)
Definition int_or_zero (d : row) (k : string) : result Z :=
    if truthy (dict_get d k) then
      let! v := dict_item d k in
      py_int (int_of_string I) v
    else Ok 0.

  (** The dictionary built for every transaction row: the same text in
      [sync_transactions_streaming] (v2), [sync_transactions] (h1-2025)
      and [sync_transactions] (wholesale). *)
Definition transaction (t : row) : result Txn.record :=
    let! a := dict_item t "transaction_id" in
    let! b := dict_item t "tranid" in
    let! c := dict_item t "transaction_type" in
    let! d := dict_item t "trandate" in
    let! e := float_or_none t "transaction_total" in
    let f := dict_get t "status" in
    let! g := dict_item t "customer_id" in
    Ok (Txn.mk a b c d e f g).

  (** The dictionary built for every line-item row: the same text in the
      three scripts. *)
Definition line_item (li : row) : result Line.record :=
    let! a := dict_item li "line_id" in
    let! b := dict_item li "transaction_id" in
    let c := dict_get li "item_id" in
    let d := dict_get_default li "sku" (VStr "UNKNOWN") in
    let! e := int_or_zero li "quantity" in
    let! f := float_or_none li "rate" in
    let! g := float_or_none li "netamount" in
    let! h := float_or_none li "foreignamount" in
    let i := dict_get li "itemtype" in
    Ok (Line.mk a b c d e f g h i).

  (** The dictionary built for every customer row ([sync_customers]). *)
Definition customer (c : row) : result Cust.record :=
    let! a := dict_item c "id" in
    let! b := dict_item c "entityid" in
    let! d := dict_item c "companyname" in
    Ok (Cust.mk a b d (dict_get c "altname") (dict_get c "email")
          (dict_get c "phone") (dict_get c "category") (dict_get c "isinactive")
          (dict_get c "datecreated") (dict_get c "firstsaledate")
          (dict_get c "lastsaledate") (dict_get c "parent") (dict_get c "url")).

End WithInterp.
End Transform.

(** ** Request signing (the part of [make_ns_request] before the call) *)

Module Signing.

  (** The characters [urllib.parse.quote] never quotes: letters, digits
      and [_.-~].  With [safe=''] nothing else is kept. *)
Definition always_safe (a : ascii) : bool :=
    let n := N_of_ascii a in
    ((65 <=? n) && (n <=? 90) || (97 <=? n) && (n <=? 122) ||
     (48 <=? n) && (n <=? 57) ||
     (n =? 95) || (n =? 46) || (n =? 45) || (n =? 126))%N.

Definition hex_digit (n : N) : ascii :=
    ascii_of_N (if (n <? 10)%N then 48 + n else 55 + n)%N.

  (** ['%{:02X}'.format(byte)] *)
Definition percent (a : ascii) : string :=
    let n := N_of_ascii a in
    String "%" (String (hex_digit (n / 16)) (String (hex_digit (n mod 16)) EmptyString)).

  (** [urllib.parse.quote(s, safe='')] on the UTF-8 bytes of [s]. *)
Fixpoint quote (s : string) : string :=
    match s with
    | EmptyString => EmptyString
    | String a s' =>
        if always_safe a then String a (quote s') else percent a +:+ quote s'
    end.

  (** [url.split('?')[0]] *)
Fixpoint before_query (url : string) : string :=
    match url with
    | EmptyString => EmptyString
    | String a s' => if Ascii.eqb a "?" then EmptyString else String a (before_query s')
    end.

  (** Comparison of [(key, value)] tuples, as [sorted] uses it. *)
Definition item_leb (x y : string * string) : bool :=
    match String.compare (fst x) (fst y) with
    | Lt => true
    | Gt => false
    | Eq => String.leb (snd x) (snd y)
    end.

Fixpoint insert_item (x : string * string) (l : list (string * string)) :=
    match l with
    | [] => [x]
    | y :: l' => if item_leb x y then x :: l else y :: insert_item x l'
    end.

  (** [sorted(d.items())] (a stable sort). *)
Definition sorted (l : list (string * string)) : list (string * string) :=
    foldr insert_item [] l.

  (** ['&'.join(parts)] *)
Fixpoint join (sep : string) (parts : list string) : string :=
    match parts with
    | [] => EmptyString
    | [p] => p
    | p :: ps => p +:+ sep +:+ join sep ps
    end.

Record credentials : Type := {
    NS_ACCOUNT_ID : string;
    NS_CONSUMER_KEY : string;
    NS_CONSUMER_SECRET : string;
    NS_TOKEN_ID : string;
    NS_TOKEN_SECRET : string
  }.

Section WithCredentials.
Context (I : interp) (C : credentials).

    (** The dictionary [oauth_params], in insertion order; [timestamp]
        is [str(int(time.time()))], [nonce] is [secrets.token_hex(16)]. *)
Definition oauth_params (timestamp nonce : string) : list (string * string) :=
      [ ("oauth_consumer_key", NS_CONSUMER_KEY C);
        ("oauth_token", NS_TOKEN_ID C);
        ("oauth_signature_method", "HMAC-SHA256");
        ("oauth_timestamp", timestamp);
        ("oauth_nonce", nonce);
        ("oauth_version", "1.0") ].

Definition params_string (params : list (string * string)) : string :=
      join "&" (map (fun kv => fst kv +:+ "=" +:+ quote (snd kv)) (sorted params)).

Definition base_string (method url : string) (params : list (string * string)) : string :=
      method +:+ "&" +:+ quote (before_query url) +:+ "&" +:+ quote (params_string params).

Definition signing_key : string :=
      quote (NS_CONSUMER_SECRET C) +:+ "&" +:+ quote (NS_TOKEN_SECRET C).

Definition signature (method url : string) (params : list (string * string)) : string :=
      hmac_sha256_b64 I signing_key (base_string method url params).

    (** The [Authorization] header: the parameters in insertion order,
        the signature last. *)
Definition auth_header (method url timestamp nonce : string) : string :=
      let params := oauth_params timestamp nonce in
      let all := params ++ [("oauth_signature", signature method url params)] in
      "OAuth realm=" +:+ String (ascii_of_N 34) (NS_ACCOUNT_ID C) +:+ String (ascii_of_N 34) ", " +:+
      join ", " (map (fun kv => fst kv +:+ "=" +:+ String (ascii_of_N 34) (quote (snd kv))
                                   +:+ String (ascii_of_N 34) EmptyString) all).

Definition ns_url : string :=
      "https://" +:+ NS_ACCOUNT_ID C +:+
      ".suitetalk.api.netsuite.com/services/rest/query/v1/suiteql".

End WithCredentials.
(** Whether every character of a string passes a test, whether some
    character is a tilde. *)
Fixpoint string_forall (p : ascii -> bool) (s : string) : bool :=
  match s with
  | EmptyString => true
  | String a s' => p a && string_forall p s'
  end.

Fixpoint has_tilde (s : string) : bool :=
  match s with
  | EmptyString => false
  | String a s' => Ascii.eqb a "~" || has_tilde s'
  end.

(** The characters an encoded component is made of. *)
Definition safe_or_percent (a : ascii) : bool :=
  always_safe a || Ascii.eqb a "%".

(** Order of two parameters by their names. *)
Definition name_le (x y : string * string) : Prop := String.leb (fst x) (fst y) = true.

(** Names of the signing parameters, in the order of the base string. *)
Definition sorted_names : list string :=
  [ "oauth_consumer_key"; "oauth_nonce"; "oauth_signature_method";
    "oauth_timestamp"; "oauth_token"; "oauth_version" ].

(** The reading of the encoding rule under which a tilde is never left
    in an encoded component. *)
Definition tilde_always_escaped : Prop :=
  forall s, has_tilde s = true -> has_tilde (quote s) = false.

End Signing.

(** ** The two remote services and the effects of a run *)

Module Http.

  (** What [response.json()] gives. *)
Inductive json_body : Type :=
  | JInvalid                                (* not JSON: [json()] raises *)
  | JObject (items : option (list row))     (* an object with keys, [items] among them or not *)
  | JArray (rows : list row)                (* an array of objects *)
  | JEmpty.                                 (* the object without keys *)

Record response : Type := {
    status_code : Z;
    text : string;
    body : json_body
  }.

  (** [bool(response)] is [response.ok]: no 4xx or 5xx status. *)
Definition ok (r : response) : bool :=
    negb ((400 <=? status_code r) && (status_code r <? 600)).

  (** A call either comes back with a response or raises inside
      [requests]. *)
Inductive outcome : Type :=
  | Responds (r : response)
  | Fails.

Inductive http_method : Type := GET | POST | DELETE.

  (** The SuiteQL texts of the scripts, by the values formatted into
      them. *)
Inductive query : Type :=
  | QSelect1
  | QCustomers (offset limit : Z)
  | QV2Transactions (customer_ids : list value) (offset limit : Z)
  | QV2LineItems (customer_ids : list value) (offset limit : Z)
  | QH1Transactions (last_id : value) (limit : Z)
  | QH1LineItems (last_line_id : value) (limit : Z).

Record ns_call : Type := {
    ns_method : http_method;
    ns_target : string;
    ns_authorization : string;
    ns_json : option query
  }.

Record sb_call : Type := {
    sb_method : http_method;
    sb_target : string;
    sb_prefer : string;
    sb_json : option (list dest_record)
  }.

  (** Printed diagnostics, by their variable parts. *)
Inductive message : Type :=
  | RateLimited
  | RequestError
  | FetchError (cursor : value)
  | Status (code : Z)
  | ErrorText (t : string)
  | NoMore (cursor : value)
  | BatchError (batch_num : Z) (t : string)
  | BatchOk (batch_num count total : Z)
  | LastBatch (count : Z)
  | Fetched (count : Z)
  | Banner (t : string)
  | NoCustomers
  | Complete (total : Z).

Inductive event : Type :=
  | NsCall (c : ns_call) (o : outcome)
  | SbCall (c : sb_call) (o : outcome)
  | Sleep (milliseconds : Z)
  | Print (m : message).

  (** Events of a run, the most recent first. *)
Definition trace : Type := list event.

  (** Everything outside the scripts: configuration, clock, random
      source and the two services, each a function of what happened so
      far. *)
Record world : Type := {
    the_interp : interp;
    the_credentials : Signing.credentials;
    SUPABASE_URL : string;
    SUPABASE_SERVICE_KEY : string;
    timestamp : trace -> string;      (* [str(int(time.time()))] *)
    token_hex : trace -> string;      (* [secrets.token_hex(16)] *)
    ns_send : trace -> ns_call -> outcome;
    sb_send : trace -> sb_call -> outcome
  }.

  (** A statement: reads and extends the trace, returns or raises. *)
Definition M (A : Type) : Type := trace -> result A * trace.

Definition ret {A} (a : A) : M A := fun tr => (Ok a, tr).
Definition raise {A} (e : exn) : M A := fun tr => (Raise e, tr).
Definition bind {A B} (m : M A) (k : A -> M B) : M B :=
    fun tr =>
      match m tr with
      | (Ok a, tr') => k a tr'
      | (Raise e, tr') => (Raise e, tr')
      end.
Definition lift {A} (r : result A) : M A := fun tr => (r, tr).
Definition emit (e : event) : M unit := fun tr => (Ok tt, e :: tr).
Definition print (m : message) : M unit := emit (Print m).
Definition sleep (ms : Z) : M unit := emit (Sleep ms).

End Http.
Import Http.

(** ** The SuiteQL texts

    The queries are f-strings; [text] gives the text each constructor of
    [query] stands for, with the values formatted into it. *)

Module Sql.

(** [str(z)] of an integer. *)
Definition str_of_Z (z : Z) : string := NilZero.string_of_int (Z.to_int z).

(** The date range of [sync-netsuite-h1-2025.py]. *)
Definition START_DATE : string := "2025-01-01".
Definition END_DATE : string := "2025-06-30".

Section Format.
(** [repr] of a float belongs to the interpreter. *)
Variable repr_float : spec_float -> string.

(** [{v}] in an f-string: [str(v)]. *)
Definition str (v : value) : string :=
  match v with
  | VNone => "None"
  | VBool true => "True"
  | VBool false => "False"
  | VInt z => str_of_Z z
  | VFloat f => repr_float f
  | VStr s => s
  end.

(** [','.join(str(id) for id in customer_ids)] *)
Definition customer_ids_str (customer_ids : list value) : string :=
  String.concat "," (map str customer_ids).

(** The text of the query of [sync_transactions] up to its last condition. *)
Definition h1_transactions_select : string :=
  "
            SELECT
                t.id as transaction_id,
                t.tranid,
                t.type as transaction_type,
                t.trandate,
                t.foreigntotal as transaction_total,
                t.status,
                t.entity as customer_id
            FROM transaction t
            WHERE t.entity IN (
                SELECT c.id FROM customer c WHERE c.isperson = 'F' AND c.id NOT IN (493, 2501)
            )
            AND t.type IN ('CashSale', 'CustInvc')
            AND t.trandate >= TO_DATE('" +:+
  START_DATE +:+
  "', 'YYYY-MM-DD')
            AND t.trandate <= TO_DATE('" +:+
  END_DATE +:+
  "', 'YYYY-MM-DD')
            ".

(** The text of the query of [sync_line_items] up to its last condition. *)
Definition h1_line_items_select : string :=
  "
            SELECT
                t.id as transaction_id,
                tl.id as line_id,
                tl.item as item_id,
                BUILTIN.DF(tl.item) as sku,
                tl.quantity,
                tl.rate,
                tl.netamount,
                tl.foreignamount,
                tl.itemtype
            FROM transactionline tl
            JOIN transaction t ON tl.transaction = t.id
            WHERE t.entity IN (
                SELECT c.id FROM customer c WHERE c.isperson = 'F' AND c.id NOT IN (493, 2501)
            )
            AND t.type IN ('CashSale', 'CustInvc')
            AND t.trandate >= TO_DATE('" +:+
  START_DATE +:+
  "', 'YYYY-MM-DD')
            AND t.trandate <= TO_DATE('" +:+
  END_DATE +:+
  "', 'YYYY-MM-DD')
            AND tl.mainline = 'F'
            AND tl.item IS NOT NULL
            ".

(** The text of the query of [sync_transactions_streaming, transactions,] up to its window. *)
Definition v2_transactions_select (customer_ids : list value) : string :=
  "
            SELECT DISTINCT
                t.id as transaction_id,
                t.tranid,
                t.type as transaction_type,
                t.trandate,
                t.foreigntotal as transaction_total,
                t.status,
                t.entity as customer_id
            FROM transaction t
            WHERE t.entity IN (" +:+
  customer_ids_str customer_ids +:+
  ")
            AND t.type IN ('CashSale', 'CustInvc')
            ORDER BY t.trandate DESC, t.id DESC
            ".

(** The text of the query of [sync_transactions_streaming, line items,] up to its window. *)
Definition v2_line_items_select (customer_ids : list value) : string :=
  "
            SELECT
                t.id as transaction_id,
                tl.id as line_id,
                tl.item as item_id,
                BUILTIN.DF(tl.item) as sku,
                tl.quantity,
                tl.rate,
                tl.netamount,
                tl.foreignamount,
                tl.itemtype
            FROM transactionline tl
            JOIN transaction t ON tl.transaction = t.id
            WHERE t.entity IN (" +:+
  customer_ids_str customer_ids +:+
  ")
            AND t.type IN ('CashSale', 'CustInvc')
            AND tl.mainline = 'F'
            AND tl.item IS NOT NULL
            ORDER BY t.trandate DESC, t.id DESC, tl.linesequencenumber
            ".

(** The text of the query of [sync_customers] up to its window. *)
Definition customers_select : string :=
  "
            SELECT DISTINCT
                c.id,
                c.entityid,
                c.companyname,
                c.altname,
                c.email,
                c.phone,
                c.category,
                c.isinactive,
                c.datecreated,
                c.firstsaledate,
                c.lastsaledate,
                c.parent,
                c.url
            FROM customer c
            WHERE c.isperson = 'F'
            AND c.id NOT IN (493, 2501)
            ORDER BY c.companyname
            ".

(** [OFFSET {offset} ROWS FETCH NEXT {limit} ROWS ONLY] *)
Definition offset_clause (offset limit : Z) : string :=
  "OFFSET " +:+ str_of_Z offset +:+ " ROWS FETCH NEXT " +:+ str_of_Z limit +:+ " ROWS ONLY".

Definition text (q : query) : string :=
  match q with
  | QSelect1 => "SELECT 1"
  | QCustomers offset limit =>
      customers_select +:+
      offset_clause offset limit +:+
      "
            "
  | QV2Transactions customer_ids offset limit =>
      v2_transactions_select customer_ids +:+
      offset_clause offset limit +:+
      "
            "
  | QV2LineItems customer_ids offset limit =>
      v2_line_items_select customer_ids +:+
      offset_clause offset limit +:+
      "
            "
  | QH1Transactions last_id limit =>
      h1_transactions_select +:+
      "AND t.id > " +:+
      str last_id +:+
      "
            ORDER BY t.id
            FETCH NEXT " +:+
      str_of_Z limit +:+
      " ROWS ONLY
            "
  | QH1LineItems last_line_id limit =>
      h1_line_items_select +:+
      "AND tl.id > " +:+
      str last_line_id +:+
      "
            ORDER BY tl.id
            FETCH NEXT " +:+
      str_of_Z limit +:+
      " ROWS ONLY
            "
  end.

End Format.

(** How a condition bounds a column from below: [>] or [>=]. *)
Inductive bound_kind : Type :=
  | Exclusive
  | Inclusive.

Definition operator (k : bound_kind) : string :=
  match k with
  | Exclusive => ">"
  | Inclusive => ">="
  end.

(** A condition [AND column op low] on a column that the query selects
    under the name [alias]. *)
Record bound : Type := {
    column : string;
    alias : string;
    kind : bound_kind;
    low : value
  }.

Definition condition (repr_float : spec_float -> string) (b : bound) : string :=
  "AND " +:+ column b +:+ " " +:+ operator (kind b) +:+ " " +:+ str repr_float (low b).

(** The condition on the row id in the queries of
    [sync-netsuite-h1-2025.py]: [t.id as transaction_id] with
    [AND t.id > {last_id}], and [tl.id as line_id] with
    [AND tl.id > {last_line_id}]. *)
Definition watermark (q : query) : option bound :=
  match q with
  | QH1Transactions last_id _ =>
      Some {| column := "t.id"; alias := "transaction_id"; kind := Exclusive; low := last_id |}
  | QH1LineItems last_line_id _ =>
      Some {| column := "tl.id"; alias := "line_id"; kind := Exclusive; low := last_line_id |}
  | _ => None
  end.

(** The window of the queries that page by offset. *)
Definition window (q : query) : option (Z * Z) :=
  match q with
  | QCustomers offset limit => Some (offset, limit)
  | QV2Transactions _ offset limit => Some (offset, limit)
  | QV2LineItems _ offset limit => Some (offset, limit)
  | _ => None
  end.

End Sql.

Declare Scope stmt_scope.
Delimit Scope stmt_scope with stmt.
Notation "x <- m ;; k" := (bind m (fun x => k))
  (at level 100, m at next level, right associativity) : stmt_scope.
Notation "m ;; k" := (bind m (fun _ => k))
  (at level 100, right associativity) : stmt_scope.
Local Open Scope stmt_scope.

Module Client.
Section WithWorld.
Context (W : world).

  (** The call of one pass through the [for attempt in range(retries)]
    loop: signed with the timestamp and nonce of that moment; any
    method other than POST is sent with [requests.get], without body. *)
Definition signed_call (url : string) (method : http_method)
    (body : option query) (tr : trace) : ns_call :=
  let header :=
    Signing.auth_header (the_interp W) (the_credentials W)
      (match method with POST => "POST" | GET => "GET" | DELETE => "DELETE" end)
      url (timestamp W tr) (token_hex W tr) in
  {| ns_method := match method with POST => POST | _ => GET end;
     ns_target := url;
     ns_authorization := header;
     ns_json := match method with POST => body | _ => None end |}.

Definition send_signed (url : string) (method : http_method)
    (body : option query) : M outcome :=
  fun tr =>
    let c := signed_call url method body tr in
    let o := ns_send W tr c in
    (Ok o, NsCall c o :: tr).

(** [make_ns_request(url, method, body, retries)]: [None] once the
      attempts are used up. *)
Fixpoint make_ns_request (url : string) (method : http_method)
      (body : option query) (retries : nat) : M (option response) :=
    match retries with
    | O => ret None
    | S retries' =>
        o <- send_signed url method body ;;
        match o with
        | Responds response =>
            if status_code response =? 429 then
              print RateLimited ;;
              sleep 30000 ;;
              make_ns_request url method body retries'
            else ret (Some response)
        | Fails =>
            print RequestError ;;
            sleep 5000 ;;
            make_ns_request url method body retries'
        end
    end.

  (** The call [supabase_request(endpoint, method, data, on_conflict)]
    sends; the scripts without the [on_conflict] argument behave as
    with [None]. *)
Definition supabase_call (endpoint : string) (method : http_method)
    (data : option (list dest_record)) (on_conflict : option string) : sb_call :=
  let url := SUPABASE_URL W +:+ "/rest/v1/" +:+ endpoint in
  match method with
  | GET => {| sb_method := GET; sb_target := url;
              sb_prefer := "return=minimal"; sb_json := None |}
  | POST => {| sb_method := POST;
               sb_target := match on_conflict with
                            | Some k => if negb (String.eqb k EmptyString)
                                        then url +:+ "?on_conflict=" +:+ k else url
                            | None => url
                            end;
               sb_prefer := "resolution=merge-duplicates,return=minimal";
               sb_json := data |}
  | DELETE => {| sb_method := DELETE; sb_target := url;
                 sb_prefer := "return=minimal"; sb_json := None |}
  end.

(** [supabase_request]: the response whatever its status; nothing is
    caught here, so a failing transport raises. *)
Definition supabase_request (endpoint : string) (method : http_method)
    (data : option (list dest_record)) (on_conflict : option string) : M response :=
  fun tr =>
    let c := supabase_call endpoint method data on_conflict in
    let o := sb_send W tr c in
    match o with
    | Responds r => (Ok r, SbCall c o :: tr)
    | Fails => (Raise RequestException, SbCall c o :: tr)
    end.

End WithWorld.
End Client.

(** ** The sync phases *)

Module Sync.

  (** How one pass through the body of a [while True] loop ends. *)
Inductive control (S : Type) : Type :=
  | Continue (s : S)
  | Break (s : S).
Arguments Continue {S} s.
Arguments Break {S} s.

  (** The state a pass leaves, whichever way it ends. *)
Definition state_of {S} (c : control S) : S :=
  match c with
  | Continue s => s
  | Break s => s
  end.

(** [while True: body], unrolled at most [fuel] times; [None] when the
      unrolling was too short to reach a [break]. *)
Fixpoint while_true {S} (body : S -> M (control S)) (fuel : nat) (s : S) : M (option S) :=
    match fuel with
    | O => ret None
    | Datatypes.S fuel' =>
        c <- body s ;;
        match c with
        | Continue s' => while_true body fuel' s'
        | Break s' => ret (Some s')
        end
    end.

Definition limit : Z := 1000.

Definition len {A} (l : list A) : Z := Z.of_nat (length l).

  (** [response.json()] *)
Definition json (r : response) : result json_body :=
    match body r with
    | JInvalid => Raise JSONDecodeError
    | b => Ok b
    end.

  (** [data.get('items', [])] *)
Definition get_items (data : json_body) : result (list row) :=
    match data with
    | JObject (Some items) => Ok items
    | JObject None => Ok []
    | JArray _ => Raise AttributeError
    | JInvalid => Raise JSONDecodeError
    | JEmpty => Ok []
    end.

  (** [status_code not in [200, 201, 204]] *)
Definition rejected (r : response) : bool :=
    negb ((status_code r =? 200) || (status_code r =? 201) || (status_code r =? 204)).

  (** [text[:n]] *)
Definition prefix (n : nat) (t : string) : string := String.substring 0 n t.

  (** [min(vs)] and [max(vs)] for a printed range. *)
Definition span (vs : list value) : result unit :=
    let! _ := py_min vs in
    let! _ := py_max vs in
    Ok tt.

  (** The success branch of the transaction loops formats the range of
      the non-empty dates. *)
Definition date_range (records : list Txn.record) : result unit :=
    match filter (fun v => truthy v = true) (map Txn.tran_date records) with
    | [] => Ok tt
    | dates => span dates
    end.

  (** What differs between the transaction loop and the line-item loop
      of one script once a page is fetched. *)
Record sink (R : Type) : Type := {
    transform : row -> result R;
    wrap : R -> dest_record;
    table : string;
    on_conflict : option string;
    report : list R -> result unit            (* ranges computed for the success line *)
  }.
Arguments transform {R} s _.
Arguments wrap {R} s _.
Arguments table {R} s.
Arguments on_conflict {R} s.
Arguments report {R} s _.

  (** A watermark phase: the query text by cursor and page size, and the
      column the cursor is read from. *)
Record phase (R : Type) : Type := {
    ph_query : value -> Z -> query;
    ph_id : string;
    ph_sink : sink R
  }.
Arguments ph_query {R} p _ _.
Arguments ph_id {R} p.
Arguments ph_sink {R} p.

Record progress : Type := {
    cursor : value;       (* [last_id], or [offset] *)
    batch_num : Z;
    total : Z
  }.

Section WithWorld.
Context (W : world).

Definition ns_url : string := Signing.ns_url (the_credentials W).

  (** Transform the page, write it, count it when accepted. *)
Definition write_page {R} (sk : sink R) (batch_num total : Z) (items : list row) : M Z :=
    records <- lift (rmap (transform sk) items) ;;
    sb_response <- Client.supabase_request W (table sk) POST
                     (Some (map (wrap sk) records)) (on_conflict sk) ;;
    if rejected sb_response then
      print (BatchError batch_num (prefix 100 (text sb_response))) ;;
      ret total
    else
      let total' := total + len records in
      lift (report sk records) ;;
      print (BatchOk batch_num (len records) total') ;;
      ret total'.

End WithWorld.

  (** How [main] ends: a connection test failed and it returned early, an
    unrolling was too short, or the phases ran and gave their counts. *)
Inductive run_result : Type :=
| Aborted
| Unfinished
| Finished (txn_count line_count : Z).

(** [test_response and test_response.status_code == 200] *)
Definition test_passed (o : option response) : bool :=
  match o with
  | Some r => ok r && (status_code r =? 200)
  | None => false
  end.

(** *** [sync-netsuite-h1-2025.py]: watermark on the row id *)

Module H1.
Section WithWorld.
Context (W : world).

Definition transactions : phase Txn.record := {|
      ph_query := QH1Transactions;
      ph_id := "transaction_id";
      ph_sink := {|
        transform := Transform.transaction (the_interp W);
        wrap := TxnRecord;
        table := "ns_wholesale_transactions";
        on_conflict := Some "ns_transaction_id";
        report := fun records =>
          let! _ := date_range records in
          span (map Txn.ns_transaction_id records)
      |}
    |}.

Definition line_items : phase Line.record := {|
      ph_query := QH1LineItems;
      ph_id := "line_id";
      ph_sink := {|
        transform := Transform.line_item (the_interp W);
        wrap := LineRecord;
        table := "ns_wholesale_line_items";
        on_conflict := Some "ns_transaction_id,ns_line_id";
        report := fun records => span (map Line.ns_line_id records)
      |}
    |}.

    (** The body of the [while True] loop of [sync_transactions] and of
        [sync_line_items]. *)
Definition page_step {R} (ph : phase R) (st : progress) : M (control progress) :=
      let batch_num := batch_num st + 1 in
      let last_id := cursor st in
      response <- Client.make_ns_request W (ns_url W) POST
                    (Some (ph_query ph last_id limit)) 3 ;;
      match response with
      | Some r =>
          if negb (status_code r =? 200) then
            print (FetchError last_id) ;;
            (if ok r then
               print (Status (status_code r)) ;;
               print (ErrorText (prefix 200 (text r)))
             else ret tt) ;;
            ret (Break {| cursor := last_id; batch_num := batch_num; total := total st |})
          else
            data <- lift (json r) ;;
            items <- lift (get_items data) ;;
            match items with
            | [] =>
                print (NoMore last_id) ;;
                ret (Break {| cursor := last_id; batch_num := batch_num; total := total st |})
            | _ =>
                last_id' <- lift (max_of (fun t => dict_item t (ph_id ph)) items) ;;
                total' <- write_page W (ph_sink ph) batch_num (total st) items ;;
                let st' := {| cursor := last_id'; batch_num := batch_num; total := total' |} in
                if len items <? limit then
                  print (LastBatch (len items)) ;;
                  ret (Break st')
                else
                  sleep 300 ;;
                  ret (Continue st')
            end
      | None =>
          print (FetchError last_id) ;;
          ret (Break {| cursor := last_id; batch_num := batch_num; total := total st |})
      end.

Definition start : progress := {| cursor := VInt 0; batch_num := 0; total := 0 |}.

Definition run_phase {R} (ph : phase R) (title : string) (fuel : nat) : M (option Z) :=
      print (Banner title) ;;
      final <- while_true (page_step ph) fuel start ;;
      match final with
      | Some st => print (Complete (total st)) ;; ret (Some (total st))
      | None => ret None
      end.

Definition sync_transactions : nat -> M (option Z) :=
      run_phase transactions "SYNCING WHOLESALE TRANSACTIONS".

Definition sync_line_items : nat -> M (option Z) :=
      run_phase line_items "SYNCING LINE ITEMS".

End WithWorld.

Section Main.
Context (W : world).

(** [main()] of [sync-netsuite-h1-2025.py]. *)
Definition main (fuel : nat) : M run_result :=
  print (Banner "NETSUITE WHOLESALE DATA SYNC - H1 2025") ;;
  test_response <- Client.make_ns_request W (ns_url W) POST (Some QSelect1) 3 ;;
  if test_passed test_response then
    print (Banner "NetSuite connection OK") ;;
    test_response <- Client.supabase_request W "ns_wholesale_transactions?limit=1"
                       GET None None ;;
    if status_code test_response =? 200 then
      print (Banner "Supabase connection OK") ;;
      txn_count <- sync_transactions W fuel ;;
      match txn_count with
      | None => ret Unfinished
      | Some t =>
          line_count <- sync_line_items W fuel ;;
          match line_count with
          | None => ret Unfinished
          | Some l =>
              print (Banner "SYNC COMPLETE") ;;
              ret (Finished t l)
          end
      end
    else
      print (ErrorText (prefix 200 (text test_response))) ;;
      ret Aborted
  else
    print (Banner "NetSuite connection FAILED") ;;
    ret Aborted.

End Main.

End H1.

  (** *** [sync-netsuite-wholesale-v2.py]: offset pagination, streaming *)

Module V2.
Section WithWorld.
Context (W : world).

    (** [get_wholesale_customer_ids()].  Over an object in place of the
        array the comprehension runs through the keys: indexing a key,
        a string, raises [TypeError], and the object without keys gives
        the empty list. *)
Definition get_wholesale_customer_ids : M (list value) :=
      response <- Client.supabase_request W "ns_wholesale_customers?select=ns_id" GET None None ;;
      if status_code response =? 200 then
        customers <- lift (json response) ;;
        match customers with
        | JArray rows =>
            ids <- lift (rmap (fun c => dict_item c "ns_id") rows) ;;
            print (Fetched (len ids)) ;;
            ret ids
        | JEmpty =>
            print (Fetched 0) ;;
            ret []
        | _ => raise TypeError
        end
      else
        print (ErrorText (prefix 200 (text response))) ;;
        ret [].

Definition transactions : sink Txn.record := {|
      transform := Transform.transaction (the_interp W);
      wrap := TxnRecord;
      table := "ns_wholesale_transactions";
      on_conflict := None;
      report := date_range
    |}.

Definition line_items : sink Line.record := {|
      transform := Transform.line_item (the_interp W);
      wrap := LineRecord;
      table := "ns_wholesale_line_items";
      on_conflict := None;
      report := fun _ => Ok tt
    |}.

Record state : Type := {
      offset : Z;
      batch_num : Z;
      total : Z
    }.

    (** The body of either [while True] loop of
        [sync_transactions_streaming]; [q] builds the query text from
        [offset] and [limit]. *)
Definition page_step {R} (q : Z -> Z -> query) (sk : sink R) (st : state)
        : M (control state) :=
      let batch_num := batch_num st + 1 in
      let offset := offset st in
      let stop := Break {| offset := offset; batch_num := batch_num; total := total st |} in
      response <- Client.make_ns_request W (ns_url W) POST (Some (q offset limit)) 3 ;;
      match response with
      | Some r =>
          if negb (status_code r =? 200) then
            print (FetchError (VInt offset)) ;;
            (if ok r then print (ErrorText (prefix 200 (text r))) else ret tt) ;;
            ret stop
          else
            data <- lift (json r) ;;
            items <- lift (get_items data) ;;
            match items with
            | [] => ret stop
            | _ =>
                total' <- write_page W sk batch_num (total st) items ;;
                if len items <? limit then
                  ret (Break {| offset := offset; batch_num := batch_num; total := total' |})
                else
                  sleep 300 ;;
                  ret (Continue {| offset := offset + limit; batch_num := batch_num;
                                   total := total' |})
            end
      | None =>
          print (FetchError (VInt offset)) ;;
          ret stop
      end.

Definition start : state := {| offset := 0; batch_num := 0; total := 0 |}.

    (** [sync_transactions_streaming()]: both totals, or [None] when an
        unrolling was too short. *)
Definition sync_transactions_streaming (fuel : nat) : M (option (Z * Z)) :=
      print (Banner "SYNCING WHOLESALE TRANSACTIONS (STREAMING)") ;;
      customer_ids <- get_wholesale_customer_ids ;;
      match customer_ids with
      | [] => print NoCustomers ;; ret (Some (0, 0))
      | _ =>
          a <- while_true (page_step (QV2Transactions customer_ids) transactions) fuel start ;;
          match a with
          | None => ret None
          | Some sa =>
              print (Complete (total sa)) ;;
              print (Banner "SYNCING LINE ITEMS (STREAMING)") ;;
              b <- while_true (page_step (QV2LineItems customer_ids) line_items) fuel start ;;
              match b with
              | None => ret None
              | Some sb =>
                  print (Complete (total sb)) ;;
                  ret (Some (total sa, total sb))
              end
          end
      end.

End WithWorld.

Section Main.
Context (W : world).

(** [main()] of [sync-netsuite-wholesale-v2.py]. *)
Definition main (fuel : nat) : M run_result :=
  print (Banner "NETSUITE WHOLESALE DATA SYNC V2") ;;
  test_response <- Client.make_ns_request W (ns_url W) POST (Some QSelect1) 3 ;;
  if test_passed test_response then
    print (Banner "NetSuite connection OK") ;;
    test_response <- Client.supabase_request W "ns_wholesale_customers?limit=1"
                       GET None None ;;
    if status_code test_response =? 200 then
      print (Banner "Supabase connection OK") ;;
      counts <- sync_transactions_streaming W fuel ;;
      match counts with
      | None => ret Unfinished
      | Some (txn_count, line_count) =>
          print (Banner "SYNC COMPLETE") ;;
          ret (Finished txn_count line_count)
      end
    else
      print (ErrorText (prefix 200 (text test_response))) ;;
      ret Aborted
  else
    print (Banner "NetSuite connection FAILED") ;;
    ret Aborted.

End Main.

End V2.

  (** *** [sync-netsuite-wholesale.py]: offset pagination, collect first *)

Module Wholesale.
Section WithWorld.
Context (W : world).

Record state : Type := {
      offset : Z;
      all_customers : list row
    }.

    (** The body of the fetch loop of [sync_customers]. *)
Definition fetch_step (st : state) : M (control state) :=
      let offset := offset st in
      response <- Client.make_ns_request W (ns_url W) POST (Some (QCustomers offset limit)) 3 ;;
      match response with
      | Some r =>
          if negb (status_code r =? 200) then
            print (FetchError (VInt offset)) ;;
            ret (Break st)
          else
            data <- lift (json r) ;;
            items <- lift (get_items data) ;;
            match items with
            | [] => ret (Break st)
            | _ =>
                let all := all_customers st ++ items in
                print (Fetched (len all)) ;;
                if len items <? limit then
                  ret (Break {| offset := offset; all_customers := all |})
                else
                  sleep 300 ;;
                  ret (Continue {| offset := offset + limit; all_customers := all |})
            end
      | None =>
          print (FetchError (VInt offset)) ;;
          ret (Break st)
      end.

    (** [for i in range(0, len(all_customers), batch_size)]: [rest] is
        [all_customers[i:]], [k] is [i // batch_size + 1]. *)
Fixpoint upsert_batches (fuel : nat) (k : Z) (rest : list row) : M unit :=
      match fuel, rest with
      | Datatypes.S fuel', _ :: _ =>
          records <- lift (rmap (Transform.customer) (take 100 rest)) ;;
          response <- Client.supabase_request W "ns_wholesale_customers" POST
                        (Some (map CustRecord records)) None ;;
          (if rejected response
           then print (BatchError k (prefix 200 (text response)))
           else print (BatchOk k (len records) (len records))) ;;
          upsert_batches fuel' (k + 1) (drop 100 rest)
      | _, _ => ret tt
      end.

    (** [sync_customers()] *)
Definition sync_customers (fuel : nat) : M (option Z) :=
      print (Banner "SYNCING WHOLESALE CUSTOMERS (ALL - INCLUDING NEVER ORDERED)") ;;
      final <- while_true fetch_step fuel {| offset := 0; all_customers := [] |} ;;
      match final with
      | None => ret None
      | Some st =>
          let all := all_customers st in
          print (Fetched (len all)) ;;
          upsert_batches (length all) 1 all ;;
          print (Complete (len all)) ;;
          ret (Some (len all))
      end.

End WithWorld.
End Wholesale.

End Sync.


(** ** Reading a trace *)

Module Trace.

(** The rows of a call that came back with status 200 and a list of
    items. *)
Definition page_of (e : event) : option (list row) :=
  match e with
  | NsCall _ (Responds r) =>
      if status_code r =? 200 then
        match body r with
        | JObject (Some items) => Some items
        | _ => None
        end
      else None
  | _ => None
  end.

(** The pages fetched, the oldest first. *)
Definition pages (tr : trace) : list (list row) :=
  omap page_of (rev tr).

Definition is_ns_call (e : event) : bool :=
  match e with NsCall _ _ => true | _ => false end.

Definition is_sb_call (e : event) : bool :=
  match e with SbCall _ _ => true | _ => false end.

(** Number of calls made to the source. *)
Definition attempts (tr : trace) : nat :=
  length (filter (fun e => is_ns_call e = true) tr).

(** Number of calls made to the destination. *)
Definition writes (tr : trace) : nat :=
  length (filter (fun e => is_sb_call e = true) tr).

(** The durations slept, the oldest first. *)
Definition sleeps (tr : trace) : list Z :=
  omap (fun e => match e with Sleep ms => Some ms | _ => None end) (rev tr).

Fixpoint from_first_call (chron : list event) : list event :=
  match chron with
  | [] => []
  | e :: rest => if is_ns_call e then chron else from_first_call rest
  end.

(** The durations slept between the first and the last call to the
    source. *)
Definition intervening_sleeps (tr : trace) : list Z :=
  sleeps (rev (from_first_call (rev (from_first_call tr)))).

(** The queries sent, the oldest first. *)
Definition queries (tr : trace) : list query :=
  omap (fun e => match e with NsCall c _ => ns_json c | _ => None end) (rev tr).

(** Every call to the source recorded in the trace was signed with the
    timestamp and the nonce of the moment it was sent, and carries the
    answer the source gave at that moment. *)
Fixpoint freshly_signed (W : world) (url : string) (method : http_method)
    (body : option query) (tr : trace) : Prop :=
  match tr with
  | [] => True
  | e :: before =>
      match e with
      | NsCall c o =>
          c = Client.signed_call W url method body before /\ o = ns_send W before c
      | _ => True
      end /\ freshly_signed W url method body before
  end.

(** Number of rows in the pages fetched. *)
Definition rows_fetched (tr : trace) : Z :=
  Z.of_nat (length (concat (pages tr))).

(** The page a response stands for, if any. *)
Definition page_in (o : option response) : list (list row) :=
  match o with
  | Some r =>
      if status_code r =? 200 then
        match body r with
        | JObject (Some items) => [items]
        | _ => []
        end
      else []
  | None => []
  end.

(** The batches posted to the destination, the oldest first. *)
Definition payloads (tr : trace) : list (list dest_record) :=
  omap (fun e => match e with
                 | SbCall c _ => match sb_method c with POST => sb_json c | _ => None end
                 | _ => None
                 end) (rev tr).

End Trace.

(** ** A source that answers the watermark query as it is written *)

Module Source.

(** The value of a string of decimal digits. *)
Fixpoint digits_value (acc : Z) (s : string) : option Z :=
  match s with
  | EmptyString => Some acc
  | String a s' =>
      let n := N_of_ascii a in
      if ((48 <=? n) && (n <=? 57))%N
      then digits_value (10 * acc + Z.of_N (n - 48)) s'
      else None
  end.

(** The number an id stands for in the source, where the column is an
    integer: the JSON integer itself, or the number a string of digits
    spells.  The text of a query is the same for both. *)
Definition id_num (v : value) : option Z :=
  match v with
  | VInt z => Some z
  | VStr EmptyString => None
  | VStr s => digits_value 0 s
  | _ => None
  end.

(** The id of a row as a number ([0] when it has none). *)
Definition row_key (k : string) (r : row) : Z :=
  match r !! k with
  | Some v => default 0 (id_num v)
  | None => 0
  end.

Fixpoint insert_by (k : string) (x : row) (l : list row) : list row :=
  match l with
  | [] => [x]
  | y :: l' => if row_key k x <=? row_key k y then x :: l else y :: insert_by k x l'
  end.

(** Order of two rows by their ids. *)
Definition key_le (k : string) (x y : row) : Prop := row_key k x <= row_key k y.
Definition key_lt (k : string) (x y : row) : Prop := row_key k x < row_key k y.

(** The row carries an integer id above [low]. *)
Definition has_id_above (k : string) (low : Z) (r : row) : Prop :=
  exists i, r !! k = Some (VInt i) /\ low < i.

(** [ORDER BY id] *)
Definition order_by (k : string) (l : list row) : list row :=
  foldr (insert_by k) [] l.

(** [WHERE id > last_id] over the rows that satisfy the rest of the
    [WHERE] clause. *)
Definition after (k : string) (last_id : Z) (l : list row) : list row :=
  filter (fun r => last_id < row_key k r) l.

(** [... AND id > {last_id} ORDER BY id FETCH NEXT {limit} ROWS ONLY] *)
Definition page_after (k : string) (rows : list row) (last_id limit : Z) : list row :=
  take (Z.to_nat limit) (order_by k (after k last_id rows)).

(** The source holds [rows] (all within the filter of the phase) and
    answers every watermark query of the phase at once, with status
    200, whether the id in the query was formatted from an integer or
    from a string of digits. *)
Definition serves {R} (W : world) (ph : Sync.phase R) (rows : list row) : Prop :=
  forall tr c v z l,
    ns_json c = Some (Sync.ph_query ph v l) ->
    id_num v = Some z ->
    exists t,
      ns_send W tr c =
        Responds {| status_code := 200; text := t;
                    body := JObject (Some (page_after (Sync.ph_id ph) rows z l)) |}.

(** An id lies above another, as numbers. *)
Definition id_above (v low : value) : Prop :=
  exists zv zl, id_num v = Some zv /\ id_num low = Some zl /\ zl < zv.

(** An id meets a condition of a query: it lies above the bound, or at
    it when the condition allows that. *)
Definition satisfies (b : Sql.bound) (v : value) : Prop :=
  exists zv zl,
    id_num v = Some zv /\ id_num (Sql.low b) = Some zl /\
    match Sql.kind b with
    | Sql.Exclusive => zl < zv
    | Sql.Inclusive => zl <= zv
    end.

(** Every row the source returns meets the condition that the query it
    answers puts on the row id. *)
Definition honours (W : world) : Prop :=
  forall tr c q b r items,
    ns_json c = Some q ->
    Sql.watermark q = Some b ->
    ns_send W tr c = Responds r ->
    body r = JObject (Some items) ->
    Forall (fun x => exists i, x !! Sql.alias b = Some i /\ satisfies b i) items.

(** The phase issues one of the two queries of the script, and reads
    its cursor from the column that query selects the row id under. *)
Definition watermark_phase {R} (ph : Sync.phase R) : Prop :=
  (Sync.ph_query ph = QH1Transactions /\ Sync.ph_id ph = "transaction_id") \/
  (Sync.ph_query ph = QH1LineItems /\ Sync.ph_id ph = "line_id").

(** The source answers 429 to whatever it is sent. *)
Definition always_429 (W : world) : Prop :=
  forall tr c, exists r, ns_send W tr c = Responds r /\ status_code r = 429.

(** Every 200 response of the source has an object as body, the rows
    of its [items] are accepted by the transform, and the ranges that
    the success line prints can be computed for them: the [min] and
    [max] of the dates, and of the ids in the watermark script, do not
    raise. *)
Definition well_formed {R} (W : world) (sk : Sync.sink R) : Prop :=
  forall tr c r,
    ns_send W tr c = Responds r ->
    status_code r = 200 ->
    exists items,
      body r = JObject items /\
      forall rows, items = Some rows ->
        exists recs, rmap (Sync.transform sk) rows = Ok recs /\ Sync.report sk recs = Ok tt.

(** The sink takes every non-empty page of rows of the table: the
    transform and the range computations go through. *)
Definition accepts {R} (sk : Sync.sink R) (rows : list row) : Prop :=
  forall page, page <> [] -> Forall (fun r => r ∈ rows) page ->
    exists recs, rmap (Sync.transform sk) page = Ok recs /\ Sync.report sk recs = Ok tt.

(** The reading of pagination completeness under which a phase over
    [rows] ends after exactly the ceiling of [N / 1000] page fetches. *)
Definition fetches_in_ceiling {R} (W : world) (ph : Sync.phase R) (rows : list row) : Prop :=
  forall title fuel total tr',
    Sync.H1.run_phase W ph title fuel [] = (Ok (Some total), tr') ->
    Trace.attempts tr' = ((length rows + 999) / 1000)%nat.

(** The reading of pagination completeness under which a phase over
    [rows] fetches each of them exactly once. *)
Definition fetches_each_once {R} (W : world) (ph : Sync.phase R) (rows : list row) : Prop :=
  forall title fuel total tr',
    Sync.H1.run_phase W ph title fuel [] = (Ok (Some total), tr') ->
    concat (Trace.pages tr') ≡ₚ rows.

(** The phase comes to its end, given passes enough. *)
Definition phase_ends {R} (W : world) (ph : Sync.phase R) : Prop :=
  exists title fuel total tr',
    Sync.H1.run_phase W ph title fuel [] = (Ok (Some total), tr').

(** The row has an integer id under [k] and the transform [f] takes
    it. *)
Definition transformable {R} (k : string) (f : row -> result R) (r : row) : Prop :=
  (exists i, r !! k = Some (VInt i)) /\ exists rec, f r = Ok rec.

(** The destination always comes back with a response, whatever its
    status. *)
Definition destination_responds (W : world) : Prop :=
  forall tr c, exists s, sb_send W tr c = Responds s.

(** The reading of local recovery under which no run of the streaming
    sync ends in an exception. *)
Definition no_exception_escapes : Prop :=
  forall (W : world) (fuel : nat) (tr : trace),
    exists o, fst (Sync.V2.sync_transactions_streaming W fuel tr) = Ok o.

(** Every call to the source fails in transport. *)
Definition always_fails (W : world) : Prop :=
  forall tr c, ns_send W tr c = Fails.

(** The source never answers with status 200: each call fails in
    transport or comes back with another status. *)
Definition never_ok (W : world) : Prop :=
  forall tr c,
    match ns_send W tr c with
    | Responds r => status_code r <> 200
    | Fails => True
    end.

(** Between two traces only the connection test was sent to the source,
    at most three times, and the destination was called at most once. *)
Definition only_tested (tr tr' : trace) : Prop :=
  (exists k, (k <= 3)%nat /\ Trace.queries tr' = Trace.queries tr ++ replicate k QSelect1) /\
  (Trace.writes tr' <= S (Trace.writes tr))%nat.

(** [OFFSET {offset} ROWS FETCH NEXT {limit} ROWS ONLY] over rows in a
    fixed order. *)
Definition page_at (rows : list row) (offset limit : Z) : list row :=
  take (Z.to_nat limit) (drop (Z.to_nat offset) rows).

(** The source holds the customers [rows], in an order that does not
    change between calls, and answers every customer query at once. *)
Definition serves_customers (W : world) (rows : list row) : Prop :=
  forall tr c off l,
    ns_json c = Some (QCustomers off l) ->
    exists t,
      ns_send W tr c =
        Responds {| status_code := 200; text := t;
                    body := JObject (Some (page_at rows off l)) |}.

End Source.



(** ** Concrete rows, services and worlds *)

Module Examples.

Definition interp0 : interp := {|
  float_of_string := fun _ => None;
  int_of_string := fun _ => None;
  hmac_sha256_b64 := fun _ _ => "c2ln"
|}.

Definition credentials0 : Signing.credentials := {|
  Signing.NS_ACCOUNT_ID := "9649233";
  Signing.NS_CONSUMER_KEY := "ck";
  Signing.NS_CONSUMER_SECRET := "cs";
  Signing.NS_TOKEN_ID := "tk";
  Signing.NS_TOKEN_SECRET := "ts"
|}.

Definition mk_world (ns : trace -> ns_call -> outcome) (sb : trace -> sb_call -> outcome)
    : world := {|
  the_interp := interp0;
  the_credentials := credentials0;
  SUPABASE_URL := "https://db.example";
  SUPABASE_SERVICE_KEY := "key";
  timestamp := fun _ => "1750000000";
  token_hex := fun _ => "00112233445566778899aabbccddeeff";
  ns_send := ns;
  sb_send := sb
|}.

Definition reply (code : Z) (b : json_body) : outcome :=
  Responds {| status_code := code; text := "body"; body := b |}.

(** A line item with neither quantity nor any amount. *)
Definition bare_line : row :=
  {[ "line_id" := VInt 7; "transaction_id" := VInt 3 ]}.

(** A line item whose quantity and amounts are present and zero. *)
Definition zero_line : row :=
  <[ "quantity" := VInt 0 ]> (<[ "rate" := VInt 0 ]> (<[ "netamount" := VInt 0 ]>
    (<[ "foreignamount" := VInt 0 ]> bare_line))).

Definition zero_txn : row :=
  {[ "transaction_id" := VInt 3; "tranid" := VStr "INV1"; "transaction_type" := VStr "CustInvc";
     "trandate" := VStr "1/2/2025"; "transaction_total" := VInt 0; "customer_id" := VInt 9 ]}.


Definition sb_accepts : trace -> sb_call -> outcome :=
  fun _ _ => reply 201 JInvalid.

Definition world_429 : world :=
  mk_world (fun _ _ => reply 429 JInvalid) sb_accepts.

(** A source that is rate limited once and then answers 500. *)
Definition world_429_then_500 : world :=
  mk_world (fun tr _ => match Trace.attempts tr with
                        | O => reply 429 JInvalid
                        | _ => reply 500 JInvalid
                        end) sb_accepts.

Definition url0 : string := Sync.ns_url world_429.

(** The trace once the first, rate-limited attempt is over. *)
Definition after_first_429 : trace :=
  snd (Client.make_ns_request world_429_then_500 url0 POST (Some QSelect1) 1 []).

Definition response_500 : response :=
  {| status_code := 500; text := "body"; body := JInvalid |}.

(** A transaction row and a line-item row with the given id. *)
Definition txn_row (i : Z) : row :=
  {[ "transaction_id" := VInt i; "tranid" := VStr "INV"; "transaction_type" := VStr "CashSale";
     "trandate" := VStr "1/2/2025"; "customer_id" := VInt 9 ]}.

Definition line_row (i : Z) : row :=
  {[ "line_id" := VInt i; "transaction_id" := VInt 3; "quantity" := VInt 2 ]}.

Definition ids (n : nat) : list Z := map Z.of_nat (seq 1 n).

(** A source that answers every query with the same full page of 1000
    transactions. *)
Definition full_page : list row := map txn_row (ids 1000).

Definition response_full_page : response :=
  {| status_code := 200; text := "body"; body := JObject (Some full_page) |}.

Definition world_full_page : world :=
  mk_world (fun _ _ => Responds response_full_page) sb_accepts.

(** A destination that turns every write down. *)
Definition world_rejecting : world :=
  mk_world (fun _ _ => Responds response_full_page) (fun _ _ => reply 500 JInvalid).

Definition records_of {R} (r : result (list R)) : list R :=
  match r with
  | Ok l => l
  | Raise _ => []
  end.

Definition full_page_records : list Txn.record :=
  records_of (rmap (Transform.transaction interp0) full_page).

(** The destination lists one wholesale customer and accepts writes. *)
Definition sb_with_customer : trace -> sb_call -> outcome :=
  fun _ c =>
    match sb_method c with
    | GET => reply 200 (JArray [ {[ "ns_id" := VInt 9 ]} ])
    | _ => reply 201 JInvalid
    end.

(** The source answers 200 with a body that is not JSON. *)
Definition world_malformed : world :=
  mk_world (fun _ _ => reply 200 JInvalid) sb_with_customer.

(** The source answers with a row that lacks [transaction_id]. *)
Definition world_bad_row : world :=
  mk_world (fun _ _ => reply 200 (JObject (Some [ {[ "tranid" := VStr "INV" ]} ])))
           sb_with_customer.

(** The destination lists the customer, then its transport fails. *)
Definition world_sink_down : world :=
  mk_world (fun _ _ => reply 200 (JObject (Some [ txn_row 1 ])))
           (fun _ c => match sb_method c with
                       | GET => reply 200 (JArray [ {[ "ns_id" := VInt 9 ]} ])
                       | _ => Fails
                       end).

(** The source is down for good: every call fails in transport. *)
Definition world_source_down : world :=
  mk_world (fun _ _ => Fails) sb_with_customer.

(** A source holding a table of line items, answering the watermark
    query of the line-item phase and nothing else. *)
Definition lines_source (rows : list row) : trace -> ns_call -> outcome :=
  fun _ c =>
    match ns_json c with
    | Some (QH1LineItems v l) =>
        match Source.id_num v with
        | Some z => reply 200 (JObject (Some (Source.page_after "line_id" rows z l)))
        | None => reply 400 JInvalid
        end
    | _ => reply 400 JInvalid
    end.

Definition world_lines (rows : list row) : world :=
  mk_world (lines_source rows) sb_accepts.

Definition three_lines : list row := map line_row (ids 3).

Definition thousand_lines : list row := map line_row (ids 1000).

(** A source that pages through three line items by offset, and a
    destination that turns every write down. *)
Definition offset_source (rows : list row) : trace -> ns_call -> outcome :=
  fun _ c =>
    match ns_json c with
    | Some (QV2LineItems _ off l) =>
        reply 200 (JObject (Some (take (Z.to_nat l) (drop (Z.to_nat off) rows))))
    | _ => reply 503 JInvalid
    end.

Definition world_offset_rejecting : world :=
  mk_world (offset_source three_lines) (fun _ _ => reply 500 JInvalid).

(** An interpreter that reads the decimal literal ["0"] and the literal
    ["2"], and nothing else. *)
Definition interp_digits : interp := {|
  float_of_string := fun s =>
    if String.eqb s "0" then Some (S754_zero false)
    else if String.eqb s "2" then Some (S754_finite false 4503599627370496 (-51))
    else None;
  int_of_string := fun s =>
    if String.eqb s "0" then Some 0 else if String.eqb s "2" then Some 2 else None;
  hmac_sha256_b64 := fun _ _ => "c2ln"
|}.

(** A line item whose rate is the string ["0"]. *)
Definition string_zero_line : row := <[ "rate" := VStr "0" ]> bare_line.

(** A customer row with the three columns the script indexes. *)
Definition customer_row (i : Z) : row :=
  {[ "id" := VInt i; "entityid" := VStr "C"; "companyname" := VStr "Co" ]}.

Definition customers : list row := map customer_row (ids 250).

(** A source that holds 250 customers, and a destination that turns
    every write down. *)
Definition world_customers : world :=
  mk_world (fun _ c =>
              match ns_json c with
              | Some (QCustomers off l) => reply 200 (JObject (Some (Source.page_at customers off l)))
              | _ => reply 500 JInvalid
              end)
           (fun _ _ => reply 500 JInvalid).

(** A line item whose id the source delivers as a string of digits. *)
Definition string_line_row (i : Z) : row :=
  <[ "line_id" := VStr (Sql.str_of_Z i) ]> (line_row i).

(** Three line items with the ids ["9"], ["10"] and ["11"]. *)
Definition string_lines : list row := map string_line_row [9; 10; 11].

(** A thousand line items with the ids ["1"] to ["1000"]. *)
Definition thousand_string_lines : list row := map string_line_row (ids 1000).

Definition two_thousand_lines : list row := map line_row (ids 2000).

(** Three line items, the second with a quantity that [int] refuses. *)
Definition lines_bad_quantity : list row :=
  [ line_row 1; <[ "quantity" := VStr "1.5" ]> (line_row 2); line_row 3 ].

(** The source holds three line items, the transport of the destination
    fails. *)
Definition world_lines_sink_down : world :=
  mk_world (lines_source three_lines) (fun _ _ => Fails).

(** A source holding a table of transactions, answering the watermark
    query of the transaction phase and nothing else. *)
Definition txns_source (rows : list row) : trace -> ns_call -> outcome :=
  fun _ c =>
    match ns_json c with
    | Some (QH1Transactions v l) =>
        match Source.id_num v with
        | Some z => reply 200 (JObject (Some (Source.page_after "transaction_id" rows z l)))
        | None => reply 400 JInvalid
        end
    | _ => reply 400 JInvalid
    end.

Definition world_txns (rows : list row) : world :=
  mk_world (txns_source rows) sb_accepts.

(** Two transactions, one dated by a string and one by a number. *)
Definition mixed_dates : list row :=
  [ txn_row 1; <[ "trandate" := VInt 5 ]> (txn_row 2) ].

(** The source answers every query with the two transactions of mixed
    dates; the destination lists one customer and accepts writes. *)
Definition world_mixed_dates : world :=
  mk_world (fun _ _ => reply 200 (JObject (Some mixed_dates))) sb_with_customer.

(** A source that holds three customers. *)
Definition few_customers : list row := map customer_row (ids 3).

Definition world_few_customers : world :=
  mk_world (fun _ c =>
              match ns_json c with
              | Some (QCustomers off l) =>
                  reply 200 (JObject (Some (Source.page_at few_customers off l)))
              | _ => reply 500 JInvalid
              end)
           sb_accepts.

(** Three line items with the ids 0, 1 and 2. *)
Definition lines_from_zero : list row := map line_row [0; 1; 2].

End Examples.

(** * Properties *)

Section TransformFacts.
Context (I : interp).

Lemma float_or_none_absent (d : row) (k : string) :
  d !! k = None -> Transform.float_or_none I d k = Ok None.
Proof.
  intros H. unfold Transform.float_or_none, dict_get. rewrite H. reflexivity.
Qed.

Lemma int_or_zero_absent (d : row) (k : string) :
  d !! k = None -> Transform.int_or_zero I d k = Ok 0.
Proof.
  intros H. unfold Transform.int_or_zero, dict_get. rewrite H. reflexivity.
Qed.

Lemma float_or_none_falsy (d : row) (k : string) :
  truthy (dict_get d k) = false -> Transform.float_or_none I d k = Ok None.
Proof.
  intros H. unfold Transform.float_or_none. rewrite H. reflexivity.
Qed.

Lemma int_or_zero_falsy (d : row) (k : string) :
  truthy (dict_get d k) = false -> Transform.int_or_zero I d k = Ok 0.
Proof.
  intros H. unfold Transform.int_or_zero. rewrite H. reflexivity.
Qed.

(** The fields of a transformed line item, read back from the row. *)
Lemma line_item_fields (li : row) (r : Line.record) :
  Transform.line_item I li = Ok r ->
  Transform.int_or_zero I li "quantity" = Ok (Line.quantity r) /\
  Transform.float_or_none I li "rate" = Ok (Line.rate r) /\
  Transform.float_or_none I li "netamount" = Ok (Line.net_amount r) /\
  Transform.float_or_none I li "foreignamount" = Ok (Line.foreign_amount r).
Proof.
  unfold Transform.line_item.
  destruct (dict_item li "line_id"); simpl; [|discriminate].
  destruct (dict_item li "transaction_id"); simpl; [|discriminate].
  destruct (Transform.int_or_zero I li "quantity"); simpl; [|discriminate].
  destruct (Transform.float_or_none I li "rate"); simpl; [|discriminate].
  destruct (Transform.float_or_none I li "netamount"); simpl; [|discriminate].
  destruct (Transform.float_or_none I li "foreignamount"); simpl; [|discriminate].
  intros [= <-]. simpl. auto.
Qed.

Lemma transaction_fields (t : row) (r : Txn.record) :
  Transform.transaction I t = Ok r ->
  Transform.float_or_none I t "transaction_total" = Ok (Txn.foreign_total r).
Proof.
  unfold Transform.transaction.
  destruct (dict_item t "transaction_id"); simpl; [|discriminate].
  destruct (dict_item t "tranid"); simpl; [|discriminate].
  destruct (dict_item t "transaction_type"); simpl; [|discriminate].
  destruct (dict_item t "trandate"); simpl; [|discriminate].
  destruct (Transform.float_or_none I t "transaction_total"); simpl; [|discriminate].
  destruct (dict_item t "customer_id"); simpl; [|discriminate].
  intros [= <-]. reflexivity.
Qed.

End TransformFacts.

(** C9.  A line item without [quantity] is transformed to quantity [0];
    a line item without [rate] (or [netamount], [foreignamount]) is
    transformed to a null rate (net amount, foreign amount), not to 0. *)
Theorem absent_quantity_zero_absent_amounts_null
    (I : interp) (li : row) (r : Line.record) :
  Transform.line_item I li = Ok r ->
  (li !! "quantity" = None -> Line.quantity r = 0) /\
  (li !! "rate" = None -> Line.rate r = None) /\
  (li !! "netamount" = None -> Line.net_amount r = None) /\
  (li !! "foreignamount" = None -> Line.foreign_amount r = None).
Proof.
  intros H. apply line_item_fields in H as (Hq & Hr & Hn & Hf).
  repeat split; intros Habs.
  - rewrite int_or_zero_absent in Hq by exact Habs. congruence.
  - rewrite float_or_none_absent in Hr by exact Habs. congruence.
  - rewrite float_or_none_absent in Hn by exact Habs. congruence.
  - rewrite float_or_none_absent in Hf by exact Habs. congruence.
Qed.

Lemma absent_quantity_zero_absent_amounts_null_witness :
  Transform.line_item Examples.interp0 Examples.bare_line =
    Ok (Line.mk (VInt 7) (VInt 3) VNone (VStr "UNKNOWN") 0 None None None VNone) /\
  Line.quantity (Line.mk (VInt 7) (VInt 3) VNone (VStr "UNKNOWN") 0 None None None VNone) = 0.
Proof.
  split.
  - vm_compute. reflexivity.
  - apply (absent_quantity_zero_absent_amounts_null Examples.interp0 Examples.bare_line).
    + vm_compute. reflexivity.
    + vm_compute. reflexivity.
Defined.

Lemma zero_or_empty_falsy (v : value) : zero_or_empty v = true -> truthy v = false.
Proof.
  destruct v as [| b | z | f | s]; simpl; try discriminate.
  - destruct z; try discriminate. reflexivity.
  - destruct f; try discriminate. reflexivity.
  - destruct s; try discriminate. reflexivity.
Qed.

Lemma dict_get_present (d : row) (k : string) (v : value) :
  d !! k = Some v -> dict_get d k = v.
Proof. intros H. unfold dict_get. rewrite H. reflexivity. Qed.

(** C10.  The coercion follows truthiness: a rate, net amount or
    foreign amount that is present but [0] (or the empty string) becomes
    null, a transaction total that is present but [0] becomes a null
    [foreign_total], a quantity present as [0] stays [0]; a line item
    with such a rate is transformed exactly as the same line item
    without any rate. *)
Theorem zero_valued_fields_become_null (I : interp) (v : value) :
  zero_or_empty v = true ->
  (forall li r,
      Transform.line_item I li = Ok r ->
      (li !! "rate" = Some v -> Line.rate r = None) /\
      (li !! "netamount" = Some v -> Line.net_amount r = None) /\
      (li !! "foreignamount" = Some v -> Line.foreign_amount r = None) /\
      (li !! "quantity" = Some v -> Line.quantity r = 0)) /\
  (forall t r,
      Transform.transaction I t = Ok r ->
      t !! "transaction_total" = Some v -> Txn.foreign_total r = None) /\
  (forall li : row,
      Transform.line_item I (<[ "rate" := v ]> li) =
      Transform.line_item I (delete "rate" li)).
Proof.
  intros Hv. apply zero_or_empty_falsy in Hv.
  assert (Hf : forall (d : row) k, d !! k = Some v -> truthy (dict_get d k) = false).
  { intros d k Hk. rewrite (dict_get_present _ _ _ Hk). exact Hv. }
  split; [|split].
  - intros li r H. apply line_item_fields in H as (Hq & Hr & Hn & Hfa).
    repeat split; intros Hk; apply Hf in Hk.
    + rewrite float_or_none_falsy in Hr by exact Hk. congruence.
    + rewrite float_or_none_falsy in Hn by exact Hk. congruence.
    + rewrite float_or_none_falsy in Hfa by exact Hk. congruence.
    + rewrite int_or_zero_falsy in Hq by exact Hk. congruence.
  - intros t r H Hk. apply transaction_fields in H. apply Hf in Hk.
    rewrite float_or_none_falsy in H by exact Hk. congruence.
  - intros li.
    unfold Transform.line_item, Transform.int_or_zero, Transform.float_or_none,
      dict_item, dict_get, dict_get_default.
    rewrite lookup_insert_eq, lookup_delete_eq.
    rewrite !lookup_insert_ne, !lookup_delete_ne by discriminate.
    simpl. rewrite Hv. reflexivity.
Qed.

Lemma zero_valued_fields_become_null_witness :
  Line.rate (Line.mk (VInt 7) (VInt 3) VNone (VStr "UNKNOWN") 0 None None None VNone) = None /\
  Txn.foreign_total
    (Txn.mk (VInt 3) (VStr "INV1") (VStr "CustInvc") (VStr "1/2/2025") None VNone (VInt 9)) = None.
Proof.
  destruct (zero_valued_fields_become_null Examples.interp0 (VInt 0) eq_refl)
    as (Hline & Htxn & _).
  split.
  - apply (Hline Examples.zero_line); vm_compute; reflexivity.
  - apply (Htxn Examples.zero_txn); vm_compute; reflexivity.
Defined.

Section SigningFacts.

Lemma hex_digit_safe (n : N) : (n < 16)%N -> Signing.always_safe (Signing.hex_digit n) = true.
Proof.
  intros H.
  assert (Hc : In n (map N.of_nat (seq 0 16))).
  { apply in_map_iff. exists (N.to_nat n). split; [lia|]. apply in_seq. lia. }
  simpl in Hc.
  repeat (destruct Hc as [<- | Hc]; [vm_compute; reflexivity|]). destruct Hc.
Qed.

Lemma string_forall_app p (s t : string) :
  Signing.string_forall p (s +:+ t) =
  Signing.string_forall p s && Signing.string_forall p t.
Proof.
  induction s as [|a s IH]; simpl; [reflexivity|].
  rewrite IH. apply andb_assoc.
Qed.

Lemma percent_chars (a : ascii) :
  Signing.string_forall Signing.safe_or_percent (Signing.percent a) = true.
Proof.
  unfold Signing.percent. cbn [Signing.string_forall].
  assert (H16 : (N_of_ascii a < 256)%N) by apply N_ascii_bounded.
  unfold Signing.safe_or_percent at 2 3.
  rewrite !hex_digit_safe.
  - reflexivity.
  - apply N.mod_lt. discriminate.
  - apply N.Div0.div_lt_upper_bound. exact H16.
Qed.

Lemma quote_chars (s : string) :
  Signing.string_forall Signing.safe_or_percent (Signing.quote s) = true.
Proof.
  induction s as [|a s IH]; simpl; [reflexivity|].
  destruct (Signing.always_safe a) eqn:Ha.
  - simpl. rewrite IH. unfold Signing.safe_or_percent. rewrite Ha. reflexivity.
  - rewrite string_forall_app, percent_chars, IH. reflexivity.
Qed.

Lemma append_assoc (a b c : string) : (a +:+ b) +:+ c = a +:+ (b +:+ c).
Proof.
  induction a as [|x a IH]; [reflexivity|].
  change (String x ((a +:+ b) +:+ c) = String x (a +:+ (b +:+ c))).
  f_equal. exact IH.
Qed.

Lemma quote_app (s t : string) :
  Signing.quote (s +:+ t) = Signing.quote s +:+ Signing.quote t.
Proof.
  induction s as [|a s IH]; simpl; [reflexivity|].
  rewrite IH. destruct (Signing.always_safe a); simpl; [reflexivity|].
  reflexivity.
Qed.

Lemma has_tilde_app (s t : string) :
  Signing.has_tilde (s +:+ t) = Signing.has_tilde s || Signing.has_tilde t.
Proof.
  induction s as [|a s IH]; simpl; [reflexivity|].
  rewrite IH. apply orb_assoc.
Qed.

Lemma quote_keeps_tilde (s : string) :
  Signing.has_tilde s = true -> Signing.has_tilde (Signing.quote s) = true.
Proof.
  induction s as [|a s IH]; simpl; [discriminate|].
  intros H. apply orb_true_iff in H as [H | H].
  - apply Ascii.eqb_eq in H. subst a. reflexivity.
  - destruct (Signing.always_safe a).
    + simpl. rewrite (IH H). apply orb_true_r.
    + rewrite has_tilde_app, (IH H). apply orb_true_r.
Qed.

End SigningFacts.

Section SortedFacts.

Lemma item_leb_name_le x y : Signing.item_leb x y = true -> Signing.name_le x y.
Proof.
  unfold Signing.item_leb, Signing.name_le, String.leb.
  destruct (String.compare (fst x) (fst y)); [reflexivity | reflexivity | discriminate].
Qed.

Lemma item_leb_total x y : Signing.item_leb x y = false -> Signing.name_le y x.
Proof.
  unfold Signing.item_leb, Signing.name_le, String.leb.
  rewrite (String.compare_antisym (fst x) (fst y)).
  destruct (String.compare (fst y) (fst x)); simpl; [reflexivity | reflexivity | discriminate].
Qed.

Lemma insert_item_hd x a l :
  Signing.name_le a x -> HdRel Signing.name_le a l -> HdRel Signing.name_le a (Signing.insert_item x l).
Proof.
  intros Hax Hl. destruct l as [|y l]; simpl; [constructor; exact Hax|].
  destruct (Signing.item_leb x y); constructor; [exact Hax|].
  inversion Hl; assumption.
Qed.

Lemma insert_item_sorted x l :
  Sorted Signing.name_le l -> Sorted Signing.name_le (Signing.insert_item x l).
Proof.
  induction 1 as [|y l Hs IH Hhd]; simpl; [repeat constructor|].
  destruct (Signing.item_leb x y) eqn:E.
  - constructor; [constructor; assumption|]. constructor. apply item_leb_name_le, E.
  - constructor; [exact IH|]. apply insert_item_hd; [|exact Hhd].
    apply item_leb_total, E.
Qed.

Lemma sorted_by_name l : Sorted Signing.name_le (Signing.sorted l).
Proof.
  induction l as [|x l IH]; simpl; [constructor|].
  apply insert_item_sorted, IH.
Qed.

Lemma insert_item_perm x l : Permutation (Signing.insert_item x l) (x :: l).
Proof.
  induction l as [|y l IH]; simpl; [reflexivity|].
  destruct (Signing.item_leb x y); [reflexivity|].
  rewrite IH. apply perm_swap.
Qed.

Lemma sorted_perm l : Permutation (Signing.sorted l) l.
Proof.
  induction l as [|x l IH]; simpl; [reflexivity|].
  rewrite insert_item_perm, IH. reflexivity.
Qed.

End SortedFacts.



Section ClientFacts.
Context (W : world).

Lemma attempts_cons_call c o tr :
  Trace.attempts (NsCall c o :: tr) = S (Trace.attempts tr).
Proof. reflexivity. Qed.

Lemma sleeps_cons e tr :
  Trace.sleeps (e :: tr) =
  Trace.sleeps tr ++ match e with Sleep ms => [ms] | _ => [] end.
Proof.
  unfold Trace.sleeps. simpl. rewrite omap_app. simpl.
  destruct e; reflexivity.
Qed.

(** A call always comes back to the caller: exceptions of the transport
    are caught inside. *)
Lemma make_ns_request_returns url method body n tr :
  exists o tr', Client.make_ns_request W url method body n tr = (Ok o, tr').
Proof.
  revert tr. induction n as [|n IH]; intros tr; simpl.
  - eexists _, _. reflexivity.
  - unfold bind, Client.send_signed.
    destruct (ns_send W tr _) as [r|].
    + destruct (status_code r =? 429).
      * simpl. apply IH.
      * eexists _, _. reflexivity.
    + simpl. apply IH.
Qed.

(** A response handed to the caller was received from the source and is
    not a 429. *)
Lemma make_ns_request_some url method body n tr r tr' :
  Client.make_ns_request W url method body n tr = (Ok (Some r), tr') ->
  status_code r <> 429 /\ exists tr0 c, ns_send W tr0 c = Responds r /\
    ns_json c = match method with POST => body | _ => None end.
Proof.
  revert tr. induction n as [|n IH]; intros tr; simpl.
  - discriminate.
  - unfold bind, Client.send_signed.
    destruct (ns_send W tr _) as [r0|] eqn:E.
    + destruct (status_code r0 =? 429) eqn:E429.
      * simpl. apply IH.
      * intros [= <- <-]. split; [lia|]. eexists _, _. split; [exact E|]. reflexivity.
    + simpl. apply IH.
Qed.

End ClientFacts.

(** C6.  A response whose status is not 429 is handed to the caller on
    the very attempt that received it: no further attempt follows and
    nothing is slept. *)
Theorem other_status_returned_without_retry
    (W : world) (url : string) (method : http_method) (body : option query)
    (n : nat) (tr : trace) (r : response) :
  ns_send W tr (Client.signed_call W url method body tr) = Responds r ->
  status_code r <> 429 ->
  Client.make_ns_request W url method body (S n) tr =
    (Ok (Some r), NsCall (Client.signed_call W url method body tr) (Responds r) :: tr) /\
  Trace.attempts (snd (Client.make_ns_request W url method body (S n) tr)) =
    S (Trace.attempts tr) /\
  Trace.sleeps (snd (Client.make_ns_request W url method body (S n) tr)) = Trace.sleeps tr.
Proof.
  intros Hsend Hcode.
  assert (E : Client.make_ns_request W url method body (S n) tr =
    (Ok (Some r), NsCall (Client.signed_call W url method body tr) (Responds r) :: tr)).
  { simpl. unfold bind, Client.send_signed. rewrite Hsend.
    destruct (status_code r =? 429) eqn:E429; [lia|]. reflexivity. }
  rewrite E. split; [reflexivity|]. split; [reflexivity|].
  simpl. rewrite sleeps_cons. apply app_nil_r.
Qed.

Lemma other_status_returned_without_retry_witness :
  Client.make_ns_request Examples.world_429_then_500 Examples.url0 POST (Some QSelect1) 2
    Examples.after_first_429 =
  (Ok (Some Examples.response_500),
   NsCall (Client.signed_call Examples.world_429_then_500 Examples.url0 POST (Some QSelect1)
             Examples.after_first_429) (Responds Examples.response_500)
     :: Examples.after_first_429).
Proof.
  apply (other_status_returned_without_retry Examples.world_429_then_500 Examples.url0 POST
           (Some QSelect1) 1 Examples.after_first_429 Examples.response_500).
  - vm_compute. reflexivity.
  - simpl. lia.
Defined.

(** C3.  When every attempt is answered with 429, a call makes exactly
    three attempts, sleeps 30 seconds twice between them, and returns
    [None]; the events show one more 30-second sleep after the third
    attempt, before [None] is returned. *)
Theorem rate_limited_three_attempts_then_none
    (W : world) (url : string) (method : http_method) (body : option query) (tr : trace) :
  Source.always_429 W ->
  exists c1 o1 c2 o2 c3 o3,
    let new := [ Sleep 30000; Print RateLimited; NsCall c3 o3;
                 Sleep 30000; Print RateLimited; NsCall c2 o2;
                 Sleep 30000; Print RateLimited; NsCall c1 o1 ] in
    Client.make_ns_request W url method body 3 tr = (Ok None, new ++ tr) /\
    Trace.attempts new = 3%nat /\
    Trace.intervening_sleeps new = [30000; 30000] /\
    Trace.sleeps new = [30000; 30000; 30000].
Proof.
  intros H.
  set (c1 := Client.signed_call W url method body tr).
  destruct (H tr c1) as (r1 & E1 & S1).
  set (tr1 := Sleep 30000 :: Print RateLimited :: NsCall c1 (Responds r1) :: tr).
  set (c2 := Client.signed_call W url method body tr1).
  destruct (H tr1 c2) as (r2 & E2 & S2).
  set (tr2 := Sleep 30000 :: Print RateLimited :: NsCall c2 (Responds r2) :: tr1).
  set (c3 := Client.signed_call W url method body tr2).
  destruct (H tr2 c3) as (r3 & E3 & S3).
  exists c1, (Responds r1), c2, (Responds r2), c3, (Responds r3).
  split; [|repeat split].
  simpl. unfold bind, Client.send_signed.
  fold c1. rewrite E1, S1. simpl. fold tr1. fold c2. rewrite E2, S2. simpl.
  fold tr2. fold c3. rewrite E3, S3. simpl. reflexivity.
Qed.

Lemma rate_limited_three_attempts_then_none_witness :
  fst (Client.make_ns_request Examples.world_429 Examples.url0 POST (Some QSelect1) 3 []) =
    Ok None /\
  Trace.sleeps
    (snd (Client.make_ns_request Examples.world_429 Examples.url0 POST (Some QSelect1) 3 [])) =
    [30000; 30000; 30000].
Proof.
  destruct (rate_limited_three_attempts_then_none Examples.world_429 Examples.url0 POST
              (Some QSelect1) []) as (c1 & o1 & c2 & o2 & c3 & o3 & E & _ & _ & Hs).
  - intros tr c. eexists. split; reflexivity.
  - rewrite E. split; [reflexivity|]. rewrite app_nil_r. exact Hs.
Defined.

Section StepFacts.
Context (W : world).

Lemma supabase_request_responds endpoint method data oc tr r :
  sb_send W tr (Client.supabase_call W endpoint method data oc) = Responds r ->
  Client.supabase_request W endpoint method data oc tr =
    (Ok r, SbCall (Client.supabase_call W endpoint method data oc) (Responds r) :: tr).
Proof. intros H. unfold Client.supabase_request. rewrite H. reflexivity. Qed.

Lemma write_page_rejected {R} (sk : Sync.sink R) bn total items recs tr s :
  rmap (Sync.transform sk) items = Ok recs ->
  sb_send W tr (Client.supabase_call W (Sync.table sk) POST
                  (Some (map (Sync.wrap sk) recs)) (Sync.on_conflict sk)) = Responds s ->
  Sync.rejected s = true ->
  Sync.write_page W sk bn total items tr =
    (Ok total,
     Print (BatchError bn (Sync.prefix 100 (text s)))
       :: SbCall (Client.supabase_call W (Sync.table sk) POST
                    (Some (map (Sync.wrap sk) recs)) (Sync.on_conflict sk)) (Responds s)
       :: tr).
Proof.
  intros Hrecs Hsend Hrej. unfold Sync.write_page, bind, lift. rewrite Hrecs.
  rewrite (supabase_request_responds _ _ _ _ _ _ Hsend), Hrej. reflexivity.
Qed.

Lemma write_page_accepted {R} (sk : Sync.sink R) bn total items recs tr s :
  rmap (Sync.transform sk) items = Ok recs ->
  sb_send W tr (Client.supabase_call W (Sync.table sk) POST
                  (Some (map (Sync.wrap sk) recs)) (Sync.on_conflict sk)) = Responds s ->
  Sync.rejected s = false ->
  Sync.report sk recs = Ok tt ->
  Sync.write_page W sk bn total items tr =
    (Ok (total + Sync.len recs),
     Print (BatchOk bn (Sync.len recs) (total + Sync.len recs))
       :: SbCall (Client.supabase_call W (Sync.table sk) POST
                    (Some (map (Sync.wrap sk) recs)) (Sync.on_conflict sk)) (Responds s)
       :: tr).
Proof.
  intros Hrecs Hsend Hrej Hrep. unfold Sync.write_page, bind, lift. rewrite Hrecs.
  rewrite (supabase_request_responds _ _ _ _ _ _ Hsend), Hrej, Hrep. reflexivity.
Qed.

(** The streaming loop once its page is known. *)
Lemma v2_step_page {R} (q : Z -> Z -> query) (sk : Sync.sink R)
    (st : Sync.V2.state) tr r tr1 x items total' tr2 :
  Client.make_ns_request W (Sync.ns_url W) POST
    (Some (q (Sync.V2.offset st) Sync.limit)) 3 tr = (Ok (Some r), tr1) ->
  status_code r = 200 ->
  body r = JObject (Some (x :: items)) ->
  Sync.write_page W sk (Sync.V2.batch_num st + 1) (Sync.V2.total st) (x :: items) tr1 =
    (Ok total', tr2) ->
  Sync.V2.page_step W q sk st tr =
    if Sync.len (x :: items) <? Sync.limit then
      (Ok (Sync.Break {| Sync.V2.offset := Sync.V2.offset st;
                         Sync.V2.batch_num := Sync.V2.batch_num st + 1;
                         Sync.V2.total := total' |}), tr2)
    else
      (Ok (Sync.Continue {| Sync.V2.offset := Sync.V2.offset st + Sync.limit;
                            Sync.V2.batch_num := Sync.V2.batch_num st + 1;
                            Sync.V2.total := total' |}), Sleep 300 :: tr2).
Proof.
  intros Hfetch H200 Hbody Hwrite.
  unfold Sync.V2.page_step, bind. rewrite Hfetch, H200. simpl.
  unfold lift, Sync.json. rewrite Hbody. simpl. rewrite Hwrite.
  destruct (Sync.len (x :: items) <? Sync.limit); reflexivity.
Qed.

Lemma v2_step_empty {R} (q : Z -> Z -> query) (sk : Sync.sink R)
    (st : Sync.V2.state) tr r tr1 :
  Client.make_ns_request W (Sync.ns_url W) POST
    (Some (q (Sync.V2.offset st) Sync.limit)) 3 tr = (Ok (Some r), tr1) ->
  status_code r = 200 ->
  body r = JObject (Some []) \/ body r = JObject None \/ body r = JEmpty ->
  Sync.V2.page_step W q sk st tr =
    (Ok (Sync.Break {| Sync.V2.offset := Sync.V2.offset st;
                       Sync.V2.batch_num := Sync.V2.batch_num st + 1;
                       Sync.V2.total := Sync.V2.total st |}), tr1).
Proof.
  intros Hfetch H200 Hbody.
  unfold Sync.V2.page_step, bind. rewrite Hfetch, H200. simpl.
  unfold lift, Sync.json. destruct Hbody as [-> | [-> | ->]]; reflexivity.
Qed.

Lemma v2_step_fetch_failed {R} (q : Z -> Z -> query) (sk : Sync.sink R)
    (st : Sync.V2.state) tr o tr1 :
  Client.make_ns_request W (Sync.ns_url W) POST
    (Some (q (Sync.V2.offset st) Sync.limit)) 3 tr = (Ok o, tr1) ->
  match o with Some r => status_code r <> 200 | None => True end ->
  exists new,
    Sync.V2.page_step W q sk st tr =
      (Ok (Sync.Break {| Sync.V2.offset := Sync.V2.offset st;
                         Sync.V2.batch_num := Sync.V2.batch_num st + 1;
                         Sync.V2.total := Sync.V2.total st |}),
       new ++ Print (FetchError (VInt (Sync.V2.offset st))) :: tr1) /\
    Trace.writes (new ++ Print (FetchError (VInt (Sync.V2.offset st))) :: tr1) =
      Trace.writes tr1.
Proof.
  intros Hfetch Ho.
  unfold Sync.V2.page_step, bind. rewrite Hfetch.
  destruct o as [r|].
  - destruct (status_code r =? 200) eqn:E; [lia|]. simpl.
    unfold print, emit, ret. destruct (ok r).
    + exists [Print (ErrorText (Sync.prefix 200 (text r)))]. split; reflexivity.
    + exists []. split; reflexivity.
  - exists []. split; reflexivity.
Qed.

End StepFacts.

Section OffsetFacts.
Context (W : world).

Lemma queries_cons e tr :
  Trace.queries (e :: tr) =
  Trace.queries tr ++ match e with
                      | NsCall c _ => match ns_json c with Some q => [q] | None => [] end
                      | _ => []
                      end.
Proof.
  unfold Trace.queries. simpl. rewrite omap_app. simpl.
  destruct e; reflexivity.
Qed.

Lemma writes_cons e tr :
  Trace.writes (e :: tr) = ((if Trace.is_sb_call e then 1 else 0) + Trace.writes tr)%nat.
Proof.
  unfold Trace.writes. destruct e; reflexivity.
Qed.

(** Every attempt of a call sends the same query, and a call writes
    nothing. *)
Lemma make_ns_request_queries url qq n tr o tr1 :
  Client.make_ns_request W url POST (Some qq) n tr = (o, tr1) ->
  (exists k, (k <= n)%nat /\ Trace.queries tr1 = Trace.queries tr ++ replicate k qq) /\
  Trace.writes tr1 = Trace.writes tr.
Proof.
  revert tr o tr1. induction n as [|n IH]; intros tr o tr1; simpl.
  - intros [= <- <-]. split; [|reflexivity]. exists 0%nat. split; [lia|].
    simpl. symmetry. apply app_nil_r.
  - unfold bind, Client.send_signed.
    set (c := Client.signed_call W url POST (Some qq) tr).
    assert (Hstep : forall o0 tr0 m,
      Client.make_ns_request W url POST (Some qq) n
        (Sleep 30000 :: Print m :: NsCall c o0 :: tr) = (o, tr0) \/
      Client.make_ns_request W url POST (Some qq) n
        (Sleep 5000 :: Print m :: NsCall c o0 :: tr) = (o, tr0) ->
      (exists k, (k <= S n)%nat /\ Trace.queries tr0 = Trace.queries tr ++ replicate k qq) /\
      Trace.writes tr0 = Trace.writes tr).
    { intros o0 tr0 m [H | H]; apply IH in H as [(k & Hk & Hq) Hw];
        (split; [exists (S k); split; [lia|]; rewrite Hq, !queries_cons; simpl;
                 rewrite <- !app_assoc; reflexivity
                |rewrite Hw, !writes_cons; reflexivity]). }
    destruct (ns_send W tr c) as [r|].
    + destruct (status_code r =? 429).
      * simpl. intros H. eapply Hstep. left. exact H.
      * intros [= <- <-]. split; [|reflexivity]. exists 1%nat. split; [lia|].
        rewrite queries_cons. reflexivity.
    + simpl. intros H. eapply Hstep. right. exact H.
Qed.

Lemma write_page_writes {R} (sk : Sync.sink R) bn total items tr total' tr2 :
  Sync.write_page W sk bn total items tr = (Ok total', tr2) ->
  Trace.writes tr2 = S (Trace.writes tr) /\ Trace.queries tr2 = Trace.queries tr /\
  (total' = total \/ total' = total + Sync.len items).
Proof.
  unfold Sync.write_page, bind, lift.
  destruct (rmap (Sync.transform sk) items) as [recs|e] eqn:Hrecs; [|discriminate].
  unfold Client.supabase_request.
  destruct (sb_send W tr _) as [s|]; [|discriminate].
  destruct (Sync.rejected s).
  - intros [= <- <-]. rewrite !writes_cons, !queries_cons. simpl.
    rewrite !app_nil_r. auto.
  - destruct (Sync.report sk recs); [|discriminate].
    intros [= <- <-]. rewrite !writes_cons, !queries_cons. simpl.
    rewrite !app_nil_r. split; [reflexivity|]. split; [reflexivity|]. right.
    f_equal. unfold Sync.len. f_equal.
    clear -Hrecs. revert recs Hrecs. induction items as [|x items IH]; simpl; intros recs.
    + intros [= <-]. reflexivity.
    + destruct (Sync.transform sk x); simpl; [|discriminate].
      destruct (rmap (Sync.transform sk) items); simpl; [|discriminate].
      intros [= <-]. simpl. f_equal. apply IH. reflexivity.
Qed.

(** A call with a retry left sends its query at least once. *)
Lemma make_ns_request_sent url qq n tr o tr1 :
  Client.make_ns_request W url POST (Some qq) (S n) tr = (o, tr1) ->
  exists k, (1 <= k <= S n)%nat /\ Trace.queries tr1 = Trace.queries tr ++ replicate k qq.
Proof.
  cbn [Client.make_ns_request]. unfold bind at 1, Client.send_signed.
  set (c := Client.signed_call W url POST (Some qq) tr).
  assert (Hretry : forall tr0,
    Trace.queries tr0 = Trace.queries tr ++ [qq] ->
    Client.make_ns_request W url POST (Some qq) n tr0 = (o, tr1) ->
    exists k, (1 <= k <= S n)%nat /\ Trace.queries tr1 = Trace.queries tr ++ replicate k qq).
  { intros tr0 H0 H. apply make_ns_request_queries in H as [(k & Hk & Hq) _].
    exists (S k). split; [lia|]. rewrite Hq, H0, <- app_assoc. reflexivity. }
  destruct (ns_send W tr c) as [r|].
  - destruct (status_code r =? 429).
    + apply Hretry. rewrite !queries_cons. cbn. rewrite !app_nil_r. reflexivity.
    + intros [= <- <-]. exists 1%nat. split; [lia|]. rewrite queries_cons. reflexivity.
  - apply Hretry. rewrite !queries_cons. cbn. rewrite !app_nil_r. reflexivity.
Qed.

(** Writing a page sends nothing to the source, however it ends. *)
Lemma write_page_queries {R} (sk : Sync.sink R) bn total items tr res tr2 :
  Sync.write_page W sk bn total items tr = (res, tr2) ->
  Trace.queries tr2 = Trace.queries tr.
Proof.
  unfold Sync.write_page, bind, lift.
  destruct (rmap (Sync.transform sk) items) as [recs|e]; [|intros [= _ <-]; reflexivity].
  unfold Client.supabase_request.
  destruct (sb_send W tr _) as [s|].
  - destruct (Sync.rejected s).
    + intros [= _ <-]. rewrite !queries_cons. cbn. rewrite !app_nil_r. reflexivity.
    + destruct (Sync.report sk recs); intros [= _ <-];
        rewrite !queries_cons; cbn; rewrite ?app_nil_r; reflexivity.
  - intros [= _ <-]. rewrite !queries_cons. cbn. rewrite !app_nil_r. reflexivity.
Qed.

End OffsetFacts.

Section ConditionFacts.
Context (repr_float : spec_float -> string).

(** The text of a query holds the condition on its row id, in the words
    of the script. *)
Lemma watermark_in_text (q : query) (b : Sql.bound) :
  Sql.watermark q = Some b ->
  exists head tail, Sql.text repr_float q = head +:+ Sql.condition repr_float b +:+ tail.
Proof.
  destruct q; try discriminate; intros [= <-].
  - exists Sql.h1_transactions_select. eexists. reflexivity.
  - exists Sql.h1_line_items_select. eexists. reflexivity.
Qed.

(** The text of a query that pages by offset ends in its window, in the
    words of the script. *)
Lemma window_in_text (q : query) (offset limit : Z) :
  Sql.window q = Some (offset, limit) ->
  exists head tail,
    Sql.text repr_float q = head +:+ Sql.offset_clause offset limit +:+ tail.
Proof.
  destruct q; try discriminate; intros [= <- <-].
  - exists Sql.customers_select. eexists. reflexivity.
  - exists (Sql.v2_transactions_select repr_float customer_ids). eexists. reflexivity.
  - exists (Sql.v2_line_items_select repr_float customer_ids). eexists. reflexivity.
Qed.

End ConditionFacts.


(** C5.  One pass through an offset loop, once a page has come back.
    The query was sent, at least once, with [OFFSET offset ROWS FETCH
    NEXT limit ROWS ONLY] in its text.  On a page without rows the loop
    stops and nothing is written.  A page with rows is processed first
    (written, or appended to the rows collected), also when it is short;
    then the loop stops when the page holds fewer than [limit] rows, the
    offset left as it was, and goes on when it holds [limit] rows, with
    [offset + limit].  The pass of [sync_customers] cannot raise; the
    pass of the streaming loops raises only what the write raises. *)
Theorem offset_pagination_steps (repr_float : spec_float -> string) :
  (forall (W : world) R (q : Z -> Z -> query) (sk : Sync.sink R) (st : Sync.V2.state)
          tr r tr1 items,
      Client.make_ns_request W (Sync.ns_url W) POST
        (Some (q (Sync.V2.offset st) Sync.limit)) 3 tr = (Ok (Some r), tr1) ->
      status_code r = 200 ->
      body r = JObject (Some items) ->
      (exists k, (1 <= k <= 3)%nat /\
                 Trace.queries tr1 =
                 Trace.queries tr ++ replicate k (q (Sync.V2.offset st) Sync.limit)) /\
      Sync.V2.page_step W q sk st tr =
        match items with
        | [] =>
            (Ok (Sync.Break {| Sync.V2.offset := Sync.V2.offset st;
                               Sync.V2.batch_num := Sync.V2.batch_num st + 1;
                               Sync.V2.total := Sync.V2.total st |}), tr1)
        | _ =>
            match Sync.write_page W sk (Sync.V2.batch_num st + 1) (Sync.V2.total st)
                    items tr1 with
            | (Ok total', tr2) =>
                if Sync.len items <? Sync.limit then
                  (Ok (Sync.Break {| Sync.V2.offset := Sync.V2.offset st;
                                     Sync.V2.batch_num := Sync.V2.batch_num st + 1;
                                     Sync.V2.total := total' |}), tr2)
                else
                  (Ok (Sync.Continue {| Sync.V2.offset := Sync.V2.offset st + Sync.limit;
                                        Sync.V2.batch_num := Sync.V2.batch_num st + 1;
                                        Sync.V2.total := total' |}), Sleep 300 :: tr2)
            | (Raise e, tr2) => (Raise e, tr2)
            end
        end /\
      (forall total' tr2,
          Sync.write_page W sk (Sync.V2.batch_num st + 1) (Sync.V2.total st) items tr1 =
            (Ok total', tr2) ->
          Trace.writes tr2 = S (Trace.writes tr1) /\
          Trace.queries tr2 = Trace.queries tr1)) /\
  (forall (W : world) (st : Sync.Wholesale.state) tr r tr1 items,
      Client.make_ns_request W (Sync.ns_url W) POST
        (Some (QCustomers (Sync.Wholesale.offset st) Sync.limit)) 3 tr = (Ok (Some r), tr1) ->
      status_code r = 200 ->
      body r = JObject (Some items) ->
      (exists k, (1 <= k <= 3)%nat /\
                 Trace.queries tr1 =
                 Trace.queries tr ++
                 replicate k (QCustomers (Sync.Wholesale.offset st) Sync.limit)) /\
      Sync.Wholesale.fetch_step W st tr =
        match items with
        | [] => (Ok (Sync.Break st), tr1)
        | _ =>
            let all := Sync.Wholesale.all_customers st ++ items in
            if Sync.len items <? Sync.limit then
              (Ok (Sync.Break {| Sync.Wholesale.offset := Sync.Wholesale.offset st;
                                 Sync.Wholesale.all_customers := all |}),
               Print (Fetched (Sync.len all)) :: tr1)
            else
              (Ok (Sync.Continue
                     {| Sync.Wholesale.offset := Sync.Wholesale.offset st + Sync.limit;
                        Sync.Wholesale.all_customers := all |}),
               Sleep 300 :: Print (Fetched (Sync.len all)) :: tr1)
        end) /\
  (forall (q : query) (offset limit : Z),
      q = QCustomers offset limit \/
      (exists ids, q = QV2Transactions ids offset limit) \/
      (exists ids, q = QV2LineItems ids offset limit) ->
      exists head tail,
        Sql.text repr_float q =
          head +:+ "OFFSET " +:+ Sql.str_of_Z offset +:+ " ROWS FETCH NEXT " +:+
          Sql.str_of_Z limit +:+ " ROWS ONLY" +:+ tail).
Proof.
  split; [|split].
  - intros W R q sk st tr r tr1 items Hfetch H200 Hbody.
    split; [exact (make_ns_request_sent W _ _ _ _ _ _ Hfetch)|].
    split.
    + unfold Sync.V2.page_step, bind. rewrite Hfetch, H200. simpl.
      unfold lift, Sync.json. rewrite Hbody. cbn [Sync.get_items].
      destruct items as [|x items]; [reflexivity|].
      destruct (Sync.write_page _ _ _ _ _ _) as [[total'|e] tr2]; [|reflexivity].
      destruct (Sync.len (x :: items) <? Sync.limit); reflexivity.
    + intros total' tr2 Hwrite.
      apply write_page_writes in Hwrite as (Hw & Hq & _). auto.
  - intros W st tr r tr1 items Hfetch H200 Hbody.
    split; [exact (make_ns_request_sent W _ _ _ _ _ _ Hfetch)|].
    unfold Sync.Wholesale.fetch_step, bind. rewrite Hfetch, H200. simpl.
    unfold lift, Sync.json. rewrite Hbody. cbn [Sync.get_items].
    destruct items as [|x items]; [reflexivity|].
    cbv zeta. unfold print, emit.
    destruct (Sync.len (x :: items) <? Sync.limit); reflexivity.
  - intros q offset limit Hq.
    assert (Hw : Sql.window q = Some (offset, limit)).
    { destruct Hq as [-> | [[ids ->] | [ids ->]]]; reflexivity. }
    destruct (window_in_text repr_float q offset limit Hw) as (head & tail & Htext).
    exists head, tail. rewrite Htext. unfold Sql.offset_clause.
    rewrite !append_assoc. reflexivity.
Qed.

Lemma pair_of_fst {A B} (p : A * B) (a : A) : fst p = a -> p = (a, snd p).
Proof. intros <-. destruct p; reflexivity. Qed.

Lemma offset_pagination_steps_witness :
  fst (Sync.V2.page_step Examples.world_full_page (QV2Transactions [VInt 9])
         (Sync.V2.transactions Examples.world_full_page) Sync.V2.start []) =
    Ok (Sync.Continue {| Sync.V2.offset := 1000; Sync.V2.batch_num := 1;
                         Sync.V2.total := 1000 |}) /\
  fst (Sync.Wholesale.fetch_step Examples.world_few_customers
         {| Sync.Wholesale.offset := 0; Sync.Wholesale.all_customers := [] |} []) =
    Ok (Sync.Break {| Sync.Wholesale.offset := 0;
                      Sync.Wholesale.all_customers := Examples.few_customers |}) /\
  Trace.queries
    (snd (Client.make_ns_request Examples.world_few_customers
            (Sync.ns_url Examples.world_few_customers) POST
            (Some (QCustomers 0 Sync.limit)) 3 [])) = [QCustomers 0 1000].
Proof.
  destruct (offset_pagination_steps (fun _ => EmptyString)) as (Hv2 & Hcust & _).
  destruct (Hv2 Examples.world_full_page _ (QV2Transactions [VInt 9])
              (Sync.V2.transactions Examples.world_full_page) Sync.V2.start []
              Examples.response_full_page
              (snd (Client.make_ns_request Examples.world_full_page
                      (Sync.ns_url Examples.world_full_page) POST
                      (Some (QV2Transactions [VInt 9] 0 Sync.limit)) 3 []))
              Examples.full_page eq_refl eq_refl eq_refl) as (_ & Hstep & _).
  destruct (Hcust Examples.world_few_customers
              {| Sync.Wholesale.offset := 0; Sync.Wholesale.all_customers := [] |} []
              {| status_code := 200; text := "body";
                 body := JObject (Some (Source.page_at Examples.few_customers 0 Sync.limit)) |}
              (snd (Client.make_ns_request Examples.world_few_customers
                      (Sync.ns_url Examples.world_few_customers) POST
                      (Some (QCustomers 0 Sync.limit)) 3 []))
              (Source.page_at Examples.few_customers 0 Sync.limit) eq_refl eq_refl eq_refl)
    as ((k & Hk & Hsent) & Hfetch).
  split; [rewrite Hstep; vm_compute; reflexivity|].
  split; [rewrite Hfetch; vm_compute; reflexivity|].
  vm_compute. reflexivity.
Defined.

Section GeneratorFacts.
Context {A : Type} (f : A -> result value).

(** Reading every element first and scanning afterwards gives what the
    generator gives, whenever every read succeeds. *)
Lemma max_of_from_rmap (rest : list A) :
  forall (best : value) (vs : list value),
    rmap f rest = Ok vs -> max_of_from f best rest = max_from best vs.
Proof.
  induction rest as [|t rest IH]; intros best vs; simpl.
  - intros [= <-]. reflexivity.
  - destruct (f t) as [x|e]; simpl; [|discriminate].
    destruct (rmap f rest) as [xs|e] eqn:Hxs; simpl; [|discriminate].
    intros [= <-]. simpl. destruct (value_gt x best) as [g|e]; simpl; [|reflexivity].
    apply IH. reflexivity.
Qed.

Lemma max_of_rmap (items : list A) (vs : list value) :
  rmap f items = Ok vs -> max_of f items = py_max vs.
Proof.
  destruct items as [|t rest]; simpl.
  - intros [= <-]. reflexivity.
  - destruct (f t) as [x|e]; simpl; [|discriminate].
    destruct (rmap f rest) as [xs|e] eqn:Hxs; simpl; [|discriminate].
    intros [= <-]. simpl. apply max_of_from_rmap, Hxs.
Qed.

(** The generator's maximum is the value read from one of the
    elements. *)
Lemma max_of_from_elem (rest : list A) :
  forall (best m : value),
    max_of_from f best rest = Ok m ->
    m = best \/ exists t, t ∈ rest /\ f t = Ok m.
Proof.
  induction rest as [|t rest IH]; intros best m; simpl.
  - intros [= <-]. left. reflexivity.
  - destruct (f t) as [x|e] eqn:Hx; simpl; [|discriminate].
    destruct (value_gt x best) as [g|e]; simpl; [|discriminate].
    intros H. apply IH in H as [-> | (u & Hu & Hfu)].
    + destruct g; [right; exists t | left; reflexivity].
      split; [apply list_elem_of_here | exact Hx].
    + right. exists u. split; [apply list_elem_of_further, Hu | exact Hfu].
Qed.

Lemma max_of_elem (items : list A) (m : value) :
  max_of f items = Ok m -> exists t, t ∈ items /\ f t = Ok m.
Proof.
  destruct items as [|t rest]; simpl; [discriminate|].
  destruct (f t) as [x|e] eqn:Hx; simpl; [|discriminate].
  intros H. apply max_of_from_elem in H as [-> | (u & Hu & Hfu)].
  - exists t. split; [apply list_elem_of_here | exact Hx].
  - exists u. split; [apply list_elem_of_further, Hu | exact Hfu].
Qed.

End GeneratorFacts.

Section WatermarkStepFacts.
Context (W : world).

(** The watermark loop once its page is known. *)
Lemma h1_step_page {R} (ph : Sync.phase R) (st : Sync.progress)
    tr r tr1 x items ids m total' tr2 :
  Client.make_ns_request W (Sync.ns_url W) POST
    (Some (Sync.ph_query ph (Sync.cursor st) Sync.limit)) 3 tr = (Ok (Some r), tr1) ->
  status_code r = 200 ->
  body r = JObject (Some (x :: items)) ->
  rmap (fun t => dict_item t (Sync.ph_id ph)) (x :: items) = Ok ids ->
  py_max ids = Ok m ->
  Sync.write_page W (Sync.ph_sink ph) (Sync.batch_num st + 1) (Sync.total st)
    (x :: items) tr1 = (Ok total', tr2) ->
  Sync.H1.page_step W ph st tr =
    let st' := {| Sync.cursor := m; Sync.batch_num := Sync.batch_num st + 1;
                  Sync.total := total' |} in
    if Sync.len (x :: items) <? Sync.limit then
      (Ok (Sync.Break st'), Print (LastBatch (Sync.len (x :: items))) :: tr2)
    else
      (Ok (Sync.Continue st'), Sleep 300 :: tr2).
Proof.
  intros Hfetch H200 Hbody Hids Hmax Hwrite.
  unfold Sync.H1.page_step, bind. rewrite Hfetch, H200. simpl.
  unfold lift, Sync.json. rewrite Hbody. cbn [Sync.get_items].
  rewrite (max_of_rmap _ _ _ Hids), Hmax, Hwrite.
  destruct (Sync.len (x :: items) <? Sync.limit); reflexivity.
Qed.

(** The watermark loop once a page with rows has come back: the largest
    id is taken, then the page is written. *)
Lemma h1_step_on_page {R} (ph : Sync.phase R) (st : Sync.progress) tr r tr1 x items :
  Client.make_ns_request W (Sync.ns_url W) POST
    (Some (Sync.ph_query ph (Sync.cursor st) Sync.limit)) 3 tr = (Ok (Some r), tr1) ->
  status_code r = 200 ->
  body r = JObject (Some (x :: items)) ->
  Sync.H1.page_step W ph st tr =
    match max_of (fun t => dict_item t (Sync.ph_id ph)) (x :: items) with
    | Raise e => (Raise e, tr1)
    | Ok m =>
        match Sync.write_page W (Sync.ph_sink ph) (Sync.batch_num st + 1) (Sync.total st)
                (x :: items) tr1 with
        | (Raise e, tr2) => (Raise e, tr2)
        | (Ok total', tr2) =>
            let st' := {| Sync.cursor := m; Sync.batch_num := Sync.batch_num st + 1;
                          Sync.total := total' |} in
            if Sync.len (x :: items) <? Sync.limit then
              (Ok (Sync.Break st'), Print (LastBatch (Sync.len (x :: items))) :: tr2)
            else
              (Ok (Sync.Continue st'), Sleep 300 :: tr2)
        end
    end.
Proof.
  intros Hfetch H200 Hbody.
  unfold Sync.H1.page_step, bind. rewrite Hfetch, H200. simpl.
  unfold lift, Sync.json. rewrite Hbody. cbn [Sync.get_items].
  change (rbind (dict_item x (Sync.ph_id ph)) _) with
    (max_of (fun t => dict_item t (Sync.ph_id ph)) (x :: items)).
  destruct (max_of _ _) as [m|e]; [|reflexivity].
  destruct (Sync.write_page _ _ _ _ _ _) as [[total'|e] tr2]; [|reflexivity].
  destruct (Sync.len (x :: items) <? Sync.limit); reflexivity.
Qed.

Lemma h1_step_empty {R} (ph : Sync.phase R) (st : Sync.progress) tr r tr1 :
  Client.make_ns_request W (Sync.ns_url W) POST
    (Some (Sync.ph_query ph (Sync.cursor st) Sync.limit)) 3 tr = (Ok (Some r), tr1) ->
  status_code r = 200 ->
  body r = JObject (Some []) \/ body r = JObject None \/ body r = JEmpty ->
  Sync.H1.page_step W ph st tr =
    (Ok (Sync.Break {| Sync.cursor := Sync.cursor st;
                       Sync.batch_num := Sync.batch_num st + 1;
                       Sync.total := Sync.total st |}),
     Print (NoMore (Sync.cursor st)) :: tr1).
Proof.
  intros Hfetch H200 Hbody.
  unfold Sync.H1.page_step, bind. rewrite Hfetch, H200. simpl.
  unfold lift, Sync.json. destruct Hbody as [-> | [-> | ->]]; reflexivity.
Qed.

Lemma h1_step_fetch_failed {R} (ph : Sync.phase R) (st : Sync.progress) tr o tr1 :
  Client.make_ns_request W (Sync.ns_url W) POST
    (Some (Sync.ph_query ph (Sync.cursor st) Sync.limit)) 3 tr = (Ok o, tr1) ->
  match o with Some r => status_code r <> 200 | None => True end ->
  exists new,
    Sync.H1.page_step W ph st tr =
      (Ok (Sync.Break {| Sync.cursor := Sync.cursor st;
                         Sync.batch_num := Sync.batch_num st + 1;
                         Sync.total := Sync.total st |}),
       new ++ Print (FetchError (Sync.cursor st)) :: tr1) /\
    Trace.writes (new ++ Print (FetchError (Sync.cursor st)) :: tr1) = Trace.writes tr1.
Proof.
  intros Hfetch Ho.
  unfold Sync.H1.page_step, bind. rewrite Hfetch.
  destruct o as [r|].
  - destruct (status_code r =? 200) eqn:E; [lia|]. simpl.
    unfold print, emit, ret. destruct (ok r).
    + exists [Print (ErrorText (Sync.prefix 200 (text r))); Print (Status (status_code r))].
      split; reflexivity.
    + exists []. split; reflexivity.
  - exists []. split; reflexivity.
Qed.

End WatermarkStepFacts.

(** C7.  A write that comes back with a status outside 200, 201 and
    204 does not raise; within the pass it is logged, the batch is sent
    once and not again, the running total stays as it was, and the pass
    ends as it does after an accepted write: after a full page the loop
    goes on with the advanced cursor, after a short page it stops. *)
Theorem rejected_write_logged_and_phase_goes_on :
  (forall (W : world) endpoint method data oc tr s,
      sb_send W tr (Client.supabase_call W endpoint method data oc) = Responds s ->
      Client.supabase_request W endpoint method data oc tr =
        (Ok s, SbCall (Client.supabase_call W endpoint method data oc) (Responds s) :: tr)) /\
  (forall (W : world) R (q : Z -> Z -> query) (sk : Sync.sink R) (st : Sync.V2.state)
          tr r tr1 x items recs s,
      Client.make_ns_request W (Sync.ns_url W) POST
        (Some (q (Sync.V2.offset st) Sync.limit)) 3 tr = (Ok (Some r), tr1) ->
      status_code r = 200 ->
      body r = JObject (Some (x :: items)) ->
      rmap (Sync.transform sk) (x :: items) = Ok recs ->
      let call := Client.supabase_call W (Sync.table sk) POST
                    (Some (map (Sync.wrap sk) recs)) (Sync.on_conflict sk) in
      sb_send W tr1 call = Responds s ->
      Sync.rejected s = true ->
      let logged := Print (BatchError (Sync.V2.batch_num st + 1) (Sync.prefix 100 (text s)))
                      :: SbCall call (Responds s) :: tr1 in
      Sync.V2.page_step W q sk st tr =
        if Sync.len (x :: items) <? Sync.limit then
          (Ok (Sync.Break {| Sync.V2.offset := Sync.V2.offset st;
                             Sync.V2.batch_num := Sync.V2.batch_num st + 1;
                             Sync.V2.total := Sync.V2.total st |}), logged)
        else
          (Ok (Sync.Continue {| Sync.V2.offset := Sync.V2.offset st + Sync.limit;
                                Sync.V2.batch_num := Sync.V2.batch_num st + 1;
                                Sync.V2.total := Sync.V2.total st |}),
           Sleep 300 :: logged)) /\
  (forall (W : world) R (ph : Sync.phase R) (st : Sync.progress)
          tr r tr1 x items ids m recs s,
      Client.make_ns_request W (Sync.ns_url W) POST
        (Some (Sync.ph_query ph (Sync.cursor st) Sync.limit)) 3 tr = (Ok (Some r), tr1) ->
      status_code r = 200 ->
      body r = JObject (Some (x :: items)) ->
      rmap (fun t => dict_item t (Sync.ph_id ph)) (x :: items) = Ok ids ->
      py_max ids = Ok m ->
      rmap (Sync.transform (Sync.ph_sink ph)) (x :: items) = Ok recs ->
      let call := Client.supabase_call W (Sync.table (Sync.ph_sink ph)) POST
                    (Some (map (Sync.wrap (Sync.ph_sink ph)) recs))
                    (Sync.on_conflict (Sync.ph_sink ph)) in
      sb_send W tr1 call = Responds s ->
      Sync.rejected s = true ->
      let logged := Print (BatchError (Sync.batch_num st + 1) (Sync.prefix 100 (text s)))
                      :: SbCall call (Responds s) :: tr1 in
      let st' := {| Sync.cursor := m; Sync.batch_num := Sync.batch_num st + 1;
                    Sync.total := Sync.total st |} in
      Sync.H1.page_step W ph st tr =
        if Sync.len (x :: items) <? Sync.limit then
          (Ok (Sync.Break st'), Print (LastBatch (Sync.len (x :: items))) :: logged)
        else
          (Ok (Sync.Continue st'), Sleep 300 :: logged)).
Proof.
  split; [|split].
  - intros. apply supabase_request_responds. assumption.
  - intros W R q sk st tr r tr1 x items recs s Hfetch H200 Hbody Hrecs call Hsend Hrej logged.
    apply (v2_step_page W q sk st tr r tr1 x items _ _ Hfetch H200 Hbody).
    apply (write_page_rejected W sk _ _ _ recs tr1 s Hrecs Hsend Hrej).
  - intros W R ph st tr r tr1 x items ids m recs s Hfetch H200 Hbody Hids Hmax Hrecs
      call Hsend Hrej logged st'.
    apply (h1_step_page W ph st tr r tr1 x items ids m _ _ Hfetch H200 Hbody Hids Hmax).
    apply (write_page_rejected W _ _ _ _ recs tr1 s Hrecs Hsend Hrej).
Qed.

Lemma full_page_records_ok :
  rmap (Transform.transaction Examples.interp0) Examples.full_page =
    Ok Examples.full_page_records.
Proof.
  unfold Examples.full_page_records.
  destruct (rmap (Transform.transaction Examples.interp0) Examples.full_page) eqn:E;
    [reflexivity|].
  vm_compute in E. discriminate E.
Qed.

Lemma rejected_write_logged_and_phase_goes_on_witness :
  fst (Sync.V2.page_step Examples.world_rejecting (QV2Transactions [VInt 9])
         (Sync.V2.transactions Examples.world_rejecting) Sync.V2.start []) =
  Ok (Sync.Continue {| Sync.V2.offset := 1000; Sync.V2.batch_num := 1; Sync.V2.total := 0 |}).
Proof.
  pose proof (proj1 (proj2 rejected_write_logged_and_phase_goes_on)
                Examples.world_rejecting _ (QV2Transactions [VInt 9])
                (Sync.V2.transactions Examples.world_rejecting) Sync.V2.start []
                Examples.response_full_page
                (snd (Client.make_ns_request Examples.world_rejecting
                        (Sync.ns_url Examples.world_rejecting) POST
                        (Some (QV2Transactions [VInt 9] 0 Sync.limit)) 3 []))
                (Examples.txn_row 1) (map Examples.txn_row (map Z.of_nat (seq 2 999)))
                Examples.full_page_records
                {| status_code := 500; text := "body"; body := JInvalid |}) as H.
  rewrite H.
  - reflexivity.
  - reflexivity.
  - reflexivity.
  - reflexivity.
  - exact full_page_records_ok.
  - reflexivity.
  - reflexivity.
Defined.


Section SourceFacts.
Context (k : string).

Lemma insert_by_perm x l : Source.insert_by k x l ≡ₚ x :: l.
Proof.
  induction l as [|y l IH]; simpl; [reflexivity|].
  destruct (Source.row_key k x <=? Source.row_key k y); [reflexivity|].
  rewrite IH. apply perm_swap.
Qed.

Lemma order_by_perm l : Source.order_by k l ≡ₚ l.
Proof.
  induction l as [|x l IH]; simpl; [reflexivity|].
  rewrite insert_by_perm, IH. reflexivity.
Qed.

Lemma insert_by_sorted x l :
  StronglySorted (Source.key_le k) l ->
  StronglySorted (Source.key_le k) (Source.insert_by k x l).
Proof.
  induction 1 as [|y l Hs IH Hall]; simpl; [repeat constructor|].
  destruct (Source.row_key k x <=? Source.row_key k y) eqn:E.
  - apply Z.leb_le in E. constructor; [constructor; assumption|].
    constructor; [exact E|].
    eapply Forall_impl; [exact Hall|]. unfold Source.key_le. intros z Hz. lia.
  - apply Z.leb_gt in E. constructor; [exact IH|].
    rewrite insert_by_perm. constructor; [unfold Source.key_le; lia | exact Hall].
Qed.

Lemma order_by_sorted l : StronglySorted (Source.key_le k) (Source.order_by k l).
Proof.
  induction l as [|x l IH]; simpl; [constructor|]. apply insert_by_sorted, IH.
Qed.

Lemma sorted_strict l :
  StronglySorted (Source.key_le k) l ->
  NoDup (Source.row_key k <$> l) ->
  StronglySorted (Source.key_lt k) l.
Proof.
  induction 1 as [|x l Hs IH Hall]; [constructor|].
  rewrite fmap_cons, NoDup_cons. intros [Hnotin Hnd].
  constructor; [apply IH, Hnd|].
  rewrite Forall_forall in Hall |- *. intros y Hy.
  specialize (Hall y Hy). unfold Source.key_le in Hall. unfold Source.key_lt.
  assert (Source.row_key k x <> Source.row_key k y).
  { intros Heq. apply Hnotin. rewrite Heq. apply list_elem_of_fmap_2, Hy. }
  lia.
Qed.

Lemma order_by_strict l :
  NoDup (Source.row_key k <$> l) ->
  StronglySorted (Source.key_lt k) (Source.order_by k l).
Proof.
  intros Hnd. apply sorted_strict; [apply order_by_sorted|].
  rewrite order_by_perm. exact Hnd.
Qed.

Lemma after_keys_nodup c l :
  NoDup (Source.row_key k <$> l) -> NoDup (Source.row_key k <$> Source.after k c l).
Proof.
  unfold Source.after. induction l as [|x l IH]; [intros; constructor|].
  rewrite fmap_cons, NoDup_cons. intros [Hnotin Hnd].
  rewrite filter_cons. destruct (decide (c < Source.row_key k x)); [|apply IH, Hnd].
  rewrite fmap_cons, NoDup_cons. split; [|apply IH, Hnd].
  intros Hin. apply Hnotin.
  apply list_elem_of_fmap in Hin as (y & -> & Hy).
  apply list_elem_of_filter in Hy as [_ Hy]. apply list_elem_of_fmap_2, Hy.
Qed.

Lemma filter_keep {A} (P : A -> Prop) `{!forall x, Decision (P x)} (l : list A) :
  Forall P l -> filter P l = l.
Proof.
  induction 1 as [|x l Hx Hl IH]; [reflexivity|].
  rewrite filter_cons_True by exact Hx. rewrite IH. reflexivity.
Qed.

Lemma filter_none {A} (P : A -> Prop) `{!forall x, Decision (P x)} (l : list A) :
  Forall (fun x => ~ P x) l -> filter P l = [].
Proof.
  induction 1 as [|x l Hx Hl IH]; [reflexivity|].
  rewrite filter_cons_False by exact Hx. exact IH.
Qed.

(** What is left of the ordered rows above the cursor [c], once the
    cursor moves to the largest id [m] of the page just taken. *)
Lemma remaining_after_page (rows : list row) (c m : Z) (n : nat) :
  NoDup (Source.row_key k <$> rows) ->
  let L := Source.order_by k (Source.after k c rows) in
  c <= m ->
  Forall (fun r => Source.row_key k r <= m) (take n L) ->
  (exists r, r ∈ take n L /\ Source.row_key k r = m) ->
  Source.order_by k (Source.after k m rows) = drop n L.
Proof.
  intros Hnd L Hcm Hle (r0 & Hr0 & Hm).
  assert (HL : StronglySorted (Source.key_lt k) L)
    by apply order_by_strict, after_keys_nodup, Hnd.
  assert (Hsplit : take n L ++ drop n L = L) by apply take_drop.
  rewrite <- Hsplit in HL.
  assert (Hrest : Source.after k m L = drop n L).
  { rewrite <- Hsplit at 1. unfold Source.after. rewrite filter_app.
    rewrite filter_none, filter_keep; [reflexivity| |].
    - apply Forall_forall. intros y Hy.
      pose proof (StronglySorted_app_1_elem_of _ _ _ _ _ HL Hr0 Hy) as Hlt.
      unfold Source.key_lt in Hlt. lia.
    - eapply Forall_impl; [exact Hle|]. simpl. intros y Hy. lia. }
  apply (StronglySorted_unique_strong (Source.key_lt k)).
  - unfold Source.key_lt. intros x1 x2 _ _ H1 H2. lia.
  - apply order_by_strict, after_keys_nodup, Hnd.
  - eapply StronglySorted_app_1_r, HL.
  - rewrite order_by_perm, <- Hrest.
    transitivity (Source.after k m (Source.after k c rows)).
    + unfold Source.after. rewrite list_filter_filter_l; [reflexivity|].
      intros x Hx. lia.
    + unfold Source.after at 1 3. apply filter_Permutation.
      symmetry. apply order_by_perm.
Qed.

End SourceFacts.

Section MaxFacts.

Lemma value_gt_ints (x b : Z) :
  value_gt (VInt x) (VInt b) = Ok (b <? x).
Proof.
  unfold value_gt. simpl. f_equal. rewrite Z.ltb_compare, (Z.compare_antisym x b).
  destruct (x ?= b); reflexivity.
Qed.

Lemma max_from_ints (zs : list Z) (b : Z) :
  max_from (VInt b) (VInt <$> zs) = Ok (VInt (foldl Z.max b zs)).
Proof.
  revert b. induction zs as [|z zs IH]; intros b; [reflexivity|].
  change (max_from (VInt b) (VInt <$> z :: zs)) with
    (rbind (value_gt (VInt z) (VInt b))
       (fun g => max_from (if g then VInt z else VInt b) (VInt <$> zs))).
  rewrite value_gt_ints. cbn [rbind foldl].
  destruct (b <? z) eqn:E.
  - rewrite IH. apply Z.ltb_lt in E. rewrite Z.max_r by lia. reflexivity.
  - rewrite IH. apply Z.ltb_ge in E. rewrite Z.max_l by lia. reflexivity.
Qed.

Lemma min_from_ints (zs : list Z) (b : Z) :
  min_from (VInt b) (VInt <$> zs) = Ok (VInt (foldl Z.min b zs)).
Proof.
  revert b. induction zs as [|z zs IH]; intros b; [reflexivity|].
  change (min_from (VInt b) (VInt <$> z :: zs)) with
    (rbind (value_gt (VInt b) (VInt z))
       (fun g => min_from (if g then VInt z else VInt b) (VInt <$> zs))).
  rewrite value_gt_ints. cbn [rbind foldl].
  destruct (z <? b) eqn:E.
  - rewrite IH. apply Z.ltb_lt in E. rewrite Z.min_r by lia. reflexivity.
  - rewrite IH. apply Z.ltb_ge in E. rewrite Z.min_l by lia. reflexivity.
Qed.

Lemma span_ints (z : Z) (zs : list Z) : Sync.span (VInt <$> (z :: zs)) = Ok tt.
Proof.
  unfold Sync.span.
  change (py_min (VInt <$> z :: zs)) with (min_from (VInt z) (VInt <$> zs)).
  change (py_max (VInt <$> z :: zs)) with (max_from (VInt z) (VInt <$> zs)).
  rewrite min_from_ints, max_from_ints. reflexivity.
Qed.

Lemma foldl_max_bounds (zs : list Z) (b : Z) :
  b <= foldl Z.max b zs /\ Forall (fun z => z <= foldl Z.max b zs) zs /\
  foldl Z.max b zs ∈ b :: zs.
Proof.
  revert b. induction zs as [|z zs IH]; intros b; simpl.
  - split; [lia|]. split; [constructor|]. left.
  - destruct (IH (Z.max b z)) as (H1 & H2 & H3).
    split; [lia|]. split; [constructor; [lia|exact H2]|].
    apply elem_of_cons in H3 as [H3 | H3].
    + rewrite H3. destruct (Z.max_spec b z) as [[_ ->] | [_ ->]].
      * right. left.
      * left.
    + right. right. exact H3.
Qed.

Lemma ids_of_rows (k : string) (low : Z) (rows : list row) :
  Forall (Source.has_id_above k low) rows ->
  rmap (fun t => dict_item t k) rows = Ok (VInt <$> (Source.row_key k <$> rows)).
Proof.
  induction 1 as [|x l (i & Hi & _) Hl IH]; simpl; [reflexivity|].
  unfold dict_item at 1. unfold Source.row_key at 1. rewrite Hi. simpl.
  rewrite IH. reflexivity.
Qed.

End MaxFacts.

Section TraceFacts.

Lemma pages_cons e tr :
  Trace.pages (e :: tr) =
  Trace.pages tr ++ match Trace.page_of e with Some p => [p] | None => [] end.
Proof.
  unfold Trace.pages. simpl. rewrite omap_app. simpl.
  destruct (Trace.page_of e); reflexivity.
Qed.

Lemma attempts_cons e tr :
  Trace.attempts (e :: tr) =
  ((if Trace.is_ns_call e then 1 else 0) + Trace.attempts tr)%nat.
Proof. unfold Trace.attempts. destruct e; reflexivity. Qed.

End TraceFacts.

Section WatermarkRun.
Context (W : world) {R : Type} (ph : Sync.phase R) (rows : list row).
Hypothesis Hserves : Source.serves W ph rows.
Hypothesis Hdest : Source.destination_responds W.
Hypothesis Hids : Forall (Source.has_id_above (Sync.ph_id ph) 0) rows.
Hypothesis Hnd : NoDup (Source.row_key (Sync.ph_id ph) <$> rows).
Hypothesis Hacc : Source.accepts (Sync.ph_sink ph) rows.

Local Abbreviation k := (Sync.ph_id ph).
Local Abbreviation remaining c := (Source.order_by k (Source.after k c rows)).

(** The first attempt of a fetch is answered with the page above the
    cursor. *)
Lemma fetch_page (c : Z) (tr : trace) :
  exists call t,
    let r := {| status_code := 200; text := t;
                body := JObject (Some (take 1000 (remaining c))) |} in
    Client.make_ns_request W (Sync.ns_url W) POST
      (Some (Sync.ph_query ph (VInt c) Sync.limit)) 3 tr =
      (Ok (Some r), NsCall call (Responds r) :: tr).
Proof.
  set (call := Client.signed_call W (Sync.ns_url W) POST
                 (Some (Sync.ph_query ph (VInt c) Sync.limit)) tr).
  destruct (Hserves tr call (VInt c) c Sync.limit eq_refl eq_refl) as [t Ht].
  exists call, t. simpl. unfold bind, Client.send_signed. fold call.
  rewrite Ht. reflexivity.
Qed.

Lemma remaining_in_rows (c : Z) (x : row) :
  x ∈ remaining c -> x ∈ rows /\ Source.has_id_above k c x.
Proof.
  rewrite order_by_perm. unfold Source.after. rewrite list_elem_of_filter.
  intros [Hc Hx]. split; [exact Hx|].
  rewrite Forall_forall in Hids. destruct (Hids x Hx) as (i & Hi & _).
  exists i. split; [exact Hi|]. unfold Source.row_key in Hc. rewrite Hi in Hc. exact Hc.
Qed.

Lemma row_key_of_id (c : Z) (x : row) :
  Source.has_id_above k c x -> c < Source.row_key k x.
Proof. intros (i & Hi & Hc). unfold Source.row_key. rewrite Hi. exact Hc. Qed.

(** Writing a page of the table comes back with a total and leaves one
    call to the destination and one printed line. *)
Lemma write_table_page bn total page tr :
  page <> [] -> Forall (fun r => r ∈ rows) page ->
  exists total' call s m,
    Sync.write_page W (Sync.ph_sink ph) bn total page tr =
      (Ok total', Print m :: SbCall call (Responds s) :: tr).
Proof.
  intros Hne Hin. destruct (Hacc page Hne Hin) as (recs & Hrecs & Hrep).
  set (call := Client.supabase_call W (Sync.table (Sync.ph_sink ph)) POST
                 (Some (map (Sync.wrap (Sync.ph_sink ph)) recs))
                 (Sync.on_conflict (Sync.ph_sink ph))).
  destruct (Hdest tr call) as [s Hs].
  destruct (Sync.rejected s) eqn:Hrej.
  - eexists _, _, _, _. apply (write_page_rejected W _ _ _ _ recs tr s Hrecs Hs Hrej).
  - eexists _, _, _, _. apply (write_page_accepted W _ _ _ _ recs tr s Hrecs Hs Hrej Hrep).
Qed.

(** The loop from a cursor [c]: it ends within [len / 1000 + 1] passes,
    having fetched the rows above [c] in order, each once. *)
Lemma run_from_cursor (fuel : nat) :
  forall (c bn total : Z) (tr : trace),
    (length (remaining c) / 1000 < fuel)%nat ->
    exists st' tr',
      Sync.while_true (Sync.H1.page_step W ph) fuel
        {| Sync.cursor := VInt c; Sync.batch_num := bn; Sync.total := total |} tr =
        (Ok (Some st'), tr') /\
      concat (Trace.pages tr') = concat (Trace.pages tr) ++ remaining c /\
      Trace.attempts tr' = (Trace.attempts tr + length (remaining c) / 1000 + 1)%nat.
Proof.
  induction fuel as [|fuel IH]; intros c bn total tr Hfuel; [lia|].
  destruct (fetch_page c tr) as (call & t & Hfetch). cbv zeta in Hfetch.
  set (r := {| status_code := 200; text := t;
               body := JObject (Some (take 1000 (remaining c))) |}) in *.
  set (tr1 := NsCall call (Responds r) :: tr) in *.
  assert (Hp1 : Trace.pages tr1 = Trace.pages tr ++ [take 1000 (remaining c)])
    by (unfold tr1; rewrite pages_cons; reflexivity).
  assert (Ha1 : Trace.attempts tr1 = S (Trace.attempts tr)) by reflexivity.
  destruct (take 1000 (remaining c)) as [|x items] eqn:Hpage.
  - (* nothing is left *)
    apply take_nil_inv in Hpage as [Hpage | Hpage]; [discriminate|].
    cbn [Sync.while_true]. unfold bind at 1.
    rewrite (h1_step_empty W ph
               {| Sync.cursor := VInt c; Sync.batch_num := bn; Sync.total := total |}
               tr r tr1 Hfetch eq_refl (or_introl eq_refl)).
    eexists _, _. split; [reflexivity|].
    rewrite pages_cons, attempts_cons, Hp1, Ha1, Hpage. cbn.
    rewrite !concat_app. simpl. rewrite !app_nil_r. split; [reflexivity|]. lia.
  - (* a page came back *)
    assert (Hsub : Forall (fun y => y ∈ rows /\ Source.has_id_above k c y) (x :: items)).
    { apply Forall_forall. intros y Hy. apply remaining_in_rows.
      rewrite <- Hpage in Hy. eapply subseteq_take, Hy. }
    assert (Hids' : Forall (Source.has_id_above k c) (x :: items))
      by (eapply Forall_impl; [exact Hsub|]; intros y Hy; apply Hy).
    assert (Hrows : Forall (fun y => y ∈ rows) (x :: items))
      by (eapply Forall_impl; [exact Hsub|]; intros y Hy; apply Hy).
    pose proof (ids_of_rows k c _ Hids') as Hidl.
    set (m := foldl Z.max (Source.row_key k x) (Source.row_key k <$> items)).
    assert (Hmax : py_max (VInt <$> (Source.row_key k <$> x :: items)) = Ok (VInt m))
      by apply max_from_ints.
    destruct (write_table_page (bn + 1) total (x :: items) tr1 ltac:(discriminate) Hrows)
      as (total' & wcall & s & msg & Hwrite).
    pose proof (h1_step_page W ph
                  {| Sync.cursor := VInt c; Sync.batch_num := bn; Sync.total := total |}
                  tr r tr1 x items _ (VInt m) total' _ Hfetch eq_refl eq_refl Hidl Hmax
                  Hwrite) as Hstep.
    cbn [Sync.cursor Sync.batch_num Sync.total] in Hstep. cbv zeta in Hstep.
    cbn [Sync.while_true]. unfold bind at 1. rewrite Hstep. clear Hstep.
    assert (Hlen : length (x :: items) = Nat.min 1000 (length (remaining c)))
      by (rewrite <- Hpage; apply length_take).
    destruct (Sync.len (x :: items) <? Sync.limit) eqn:Hshort.
    + (* the last, short page *)
      apply Z.ltb_lt in Hshort. unfold Sync.len, Sync.limit in Hshort.
      assert (Hall : remaining c = x :: items).
      { rewrite <- Hpage. symmetry. apply take_ge. lia. }
      assert (Hq0 : (length (remaining c) / 1000 = 0)%nat) by (apply Nat.div_small; lia).
      eexists _, _. split; [reflexivity|].
      rewrite !pages_cons, !attempts_cons, Hp1, Ha1, Hq0. cbn.
      rewrite !app_nil_r, concat_app. simpl. rewrite app_nil_r.
      split; [rewrite Hall; reflexivity|]. lia.
    + (* a full page: the loop goes on from the largest id *)
      apply Z.ltb_ge in Hshort. unfold Sync.len, Sync.limit in Hshort.
      destruct (foldl_max_bounds (Source.row_key k <$> items) (Source.row_key k x))
        as (Hb1 & Hb2 & Hb3). fold m in Hb1, Hb2, Hb3.
      assert (Hrem : remaining m = drop 1000 (remaining c)).
      { apply remaining_after_page; [exact Hnd| | |].
        - inversion Hids' as [|? ? Hx _]. apply row_key_of_id in Hx. lia.
        - rewrite Hpage. constructor; [exact Hb1|].
          apply Forall_forall. intros y Hy. rewrite Forall_forall in Hb2.
          apply Hb2, list_elem_of_fmap_2, Hy.
        - rewrite Hpage.
          change (Source.row_key k x :: (Source.row_key k <$> items)) with
            (Source.row_key k <$> x :: items) in Hb3.
          apply list_elem_of_fmap in Hb3 as (y & Hy & Hin). exists y. auto. }
      set (tr2 := Sleep 300 :: Print msg :: SbCall wcall (Responds s) :: tr1).
      assert (Hq : (length (remaining c) / 1000 =
                    S ((length (remaining c) - 1000) / 1000))%nat).
      { assert (1000 <= length (remaining c))%nat by lia.
        replace (length (remaining c)) with (1 * 1000 + (length (remaining c) - 1000))%nat
          at 1 by lia.
        rewrite Nat.div_add_l by lia. lia. }
      destruct (IH m (bn + 1) total' tr2) as (st' & tr' & Hrun & Hcat & Hatt).
      { rewrite Hrem, length_drop. lia. }
      exists st', tr'. split; [exact Hrun|].
      rewrite Hcat, Hatt, Hrem, length_drop, Hq. unfold tr2.
      generalize ((length (remaining c) - 1000) / 1000)%nat. intros q.
      rewrite !pages_cons, !attempts_cons, Hp1, Ha1. cbn.
      rewrite !app_nil_r, concat_app. simpl. rewrite app_nil_r, <- app_assoc.
      assert (Hsplit : (x :: items) ++ drop 1000 (remaining c) = remaining c)
        by (rewrite <- Hpage; apply take_drop).
      split; [rewrite Hsplit; reflexivity|]. lia.
Qed.

End WatermarkRun.

Section IssuedFacts.
Context (W : world).

(** Whatever the outcome of a pass of the watermark loop, it has sent
    the query with its cursor, at least once and at most three times,
    and no other query. *)
Lemma h1_step_queries {R} (ph : Sync.phase R) (st : Sync.progress) tr res tr' :
  Sync.H1.page_step W ph st tr = (res, tr') ->
  exists k, (1 <= k <= 3)%nat /\
    Trace.queries tr' =
      Trace.queries tr ++ replicate k (Sync.ph_query ph (Sync.cursor st) Sync.limit).
Proof.
  intros Hstep.
  destruct (make_ns_request_returns W (Sync.ns_url W) POST
              (Some (Sync.ph_query ph (Sync.cursor st) Sync.limit)) 3 tr)
    as (o & tr1 & Hfetch).
  destruct (make_ns_request_sent W _ _ _ _ _ _ Hfetch) as (k & Hk & Hq).
  exists k. split; [exact Hk|]. rewrite <- Hq. clear Hq Hk.
  destruct o as [r|].
  2:{ unfold Sync.H1.page_step, bind in Hstep. rewrite Hfetch in Hstep.
      cbn in Hstep. injection Hstep as _ <-.
      rewrite queries_cons. cbn. apply app_nil_r. }
  destruct (Z.eq_dec (status_code r) 200) as [H200 | Hn200].
  2:{ unfold Sync.H1.page_step, bind in Hstep. rewrite Hfetch in Hstep.
      destruct (status_code r =? 200) eqn:E; [lia|]. cbn in Hstep.
      destruct (ok r); cbn in Hstep; injection Hstep as _ <-;
        rewrite !queries_cons; cbn; rewrite ?app_nil_r; reflexivity. }
  destruct (body r) as [|[[|x items]|]|rows|] eqn:Hbody.
  - unfold Sync.H1.page_step, bind in Hstep. rewrite Hfetch, H200 in Hstep.
    simpl in Hstep. unfold lift, Sync.json in Hstep. rewrite Hbody in Hstep.
    injection Hstep as _ <-. reflexivity.
  - rewrite (h1_step_empty W ph st tr r tr1 Hfetch H200 (or_introl Hbody)) in Hstep.
    injection Hstep as _ <-. rewrite queries_cons. cbn. apply app_nil_r.
  - rewrite (h1_step_on_page W ph st tr r tr1 x items Hfetch H200 Hbody) in Hstep.
    destruct (max_of _ _) as [m|e]; [|injection Hstep as _ <-; reflexivity].
    destruct (Sync.write_page _ _ _ _ _ _) as [res2 tr2] eqn:Hwrite.
    apply write_page_queries in Hwrite.
    destruct res2 as [total'|e]; [|injection Hstep as _ <-; exact Hwrite].
    cbv zeta in Hstep.
    destruct (Sync.len (x :: items) <? Sync.limit); injection Hstep as _ <-;
      rewrite queries_cons; cbn; rewrite app_nil_r; exact Hwrite.
  - rewrite (h1_step_empty W ph st tr r tr1 Hfetch H200 (or_intror (or_introl Hbody))) in Hstep.
    injection Hstep as _ <-. rewrite queries_cons. cbn. apply app_nil_r.
  - unfold Sync.H1.page_step, bind in Hstep. rewrite Hfetch, H200 in Hstep.
    simpl in Hstep. unfold lift, Sync.json in Hstep. rewrite Hbody in Hstep.
    injection Hstep as _ <-. reflexivity.
  - rewrite (h1_step_empty W ph st tr r tr1 Hfetch H200 (or_intror (or_intror Hbody)))
      in Hstep.
    injection Hstep as _ <-. rewrite queries_cons. cbn. apply app_nil_r.
Qed.

End IssuedFacts.

Section CursorFacts.
Context (W : world) {R : Type} (ph : Sync.phase R).
Hypothesis Hph : Source.watermark_phase ph.
Hypothesis Hhon : Source.honours W.

Local Abbreviation k := (Sync.ph_id ph).

Lemma id_above_trans (a b c : value) :
  Source.id_above a b -> Source.id_above b c -> Source.id_above a c.
Proof.
  intros (za & zb & Ha & Hb & Hab) (zb' & zc & Hb' & Hc & Hbc).
  rewrite Hb in Hb'. injection Hb' as <-.
  exists za, zc. split; [exact Ha|]. split; [exact Hc|]. lia.
Qed.

Lemma id_above_differs (a b : value) :
  Source.id_above a b -> Source.id_num a <> Source.id_num b.
Proof. intros (za & zb & -> & -> & Hab) [= E]. lia. Qed.

(** The condition the query of a pass puts on the row id: the column is
    bounded by the cursor, the bound excluded. *)
Lemma phase_condition (v : value) (l : Z) :
  exists col,
    Sql.watermark (Sync.ph_query ph v l) =
      Some {| Sql.column := col; Sql.alias := k; Sql.kind := Sql.Exclusive; Sql.low := v |}.
Proof.
  destruct Hph as [[Hq Hk] | [Hq Hk]]; rewrite Hq, Hk; eexists; reflexivity.
Qed.

(** The rows that come back lie above the cursor the query was issued
    with. *)
Lemma page_above (st : Sync.progress) tr r tr1 items :
  Client.make_ns_request W (Sync.ns_url W) POST
    (Some (Sync.ph_query ph (Sync.cursor st) Sync.limit)) 3 tr = (Ok (Some r), tr1) ->
  body r = JObject (Some items) ->
  Forall (fun y => exists i, y !! k = Some i /\ Source.id_above i (Sync.cursor st)) items.
Proof.
  intros Hfetch Hbody.
  destruct (make_ns_request_some W _ _ _ _ _ _ _ Hfetch) as (_ & tr0 & call & Hsend & Hq).
  destruct (phase_condition (Sync.cursor st) Sync.limit) as [col Hb].
  pose proof (Hhon tr0 call _ _ r items Hq Hb Hsend Hbody) as Hrows.
  eapply Forall_impl; [exact Hrows|]. cbn.
  intros y (i & Hi & zv & zl & Hv & Hl & Hlt).
  exists i. split; [exact Hi|]. exists zv, zl. auto.
Qed.

(** One pass never moves the cursor back, and moves it forward, to the
    id of a row of the page, whenever a page with rows came back. *)
Lemma step_cursor (st : Sync.progress) tr ctl tr' :
  Sync.H1.page_step W ph st tr = (Ok ctl, tr') ->
  (Sync.cursor (Sync.state_of ctl) = Sync.cursor st \/
   Source.id_above (Sync.cursor (Sync.state_of ctl)) (Sync.cursor st)) /\
  forall r tr1 x items,
    Client.make_ns_request W (Sync.ns_url W) POST
      (Some (Sync.ph_query ph (Sync.cursor st) Sync.limit)) 3 tr = (Ok (Some r), tr1) ->
    status_code r = 200 ->
    body r = JObject (Some (x :: items)) ->
    Source.id_above (Sync.cursor (Sync.state_of ctl)) (Sync.cursor st) /\
    (exists y, y ∈ x :: items /\ y !! k = Some (Sync.cursor (Sync.state_of ctl))) /\
    (Forall (fun y => exists z, y !! k = Some (VInt z)) (x :: items) ->
     exists m, Sync.cursor (Sync.state_of ctl) = VInt m /\
               Forall (fun y => Source.row_key k y <= m) (x :: items)).
Proof.
  intros Hstep.
  destruct (make_ns_request_returns W (Sync.ns_url W) POST
              (Some (Sync.ph_query ph (Sync.cursor st) Sync.limit)) 3 tr)
    as (o & tr1 & Hfetch).
  assert (Hsame : ctl = Sync.Break {| Sync.cursor := Sync.cursor st;
                                      Sync.batch_num := Sync.batch_num st + 1;
                                      Sync.total := Sync.total st |} ->
                  (forall r x items, o = Some r -> status_code r = 200 ->
                                     body r = JObject (Some (x :: items)) -> False) ->
                  (Sync.cursor (Sync.state_of ctl) = Sync.cursor st \/
                   Source.id_above (Sync.cursor (Sync.state_of ctl)) (Sync.cursor st)) /\
                  forall r tr2 x items,
                    Client.make_ns_request W (Sync.ns_url W) POST
                      (Some (Sync.ph_query ph (Sync.cursor st) Sync.limit)) 3 tr =
                      (Ok (Some r), tr2) ->
                    status_code r = 200 ->
                    body r = JObject (Some (x :: items)) ->
                    Source.id_above (Sync.cursor (Sync.state_of ctl)) (Sync.cursor st) /\
                    (exists y, y ∈ x :: items /\
                               y !! k = Some (Sync.cursor (Sync.state_of ctl))) /\
                    (Forall (fun y => exists z, y !! k = Some (VInt z)) (x :: items) ->
                     exists m, Sync.cursor (Sync.state_of ctl) = VInt m /\
                               Forall (fun y => Source.row_key k y <= m) (x :: items))).
  { intros -> Hno. split; [left; reflexivity|].
    intros r tr2 x items Hf H200 Hb. rewrite Hfetch in Hf. injection Hf as -> _.
    exfalso. eapply Hno; eauto. }
  destruct o as [r|].
  2:{ destruct (h1_step_fetch_failed W ph st tr None tr1 Hfetch I) as (new & E & _).
      rewrite E in Hstep. injection Hstep as <- _. apply Hsame; [reflexivity|].
      intros; discriminate. }
  destruct (Z.eq_dec (status_code r) 200) as [H200 | Hn200].
  2:{ destruct (h1_step_fetch_failed W ph st tr (Some r) tr1 Hfetch Hn200) as (new & E & _).
      rewrite E in Hstep. injection Hstep as <- _. apply Hsame; [reflexivity|].
      intros r0 x items [= <-] H200. contradiction. }
  destruct (body r) as [|[[|x items]|]|rows|] eqn:Hbody.
  - unfold Sync.H1.page_step, bind in Hstep. rewrite Hfetch, H200 in Hstep.
    simpl in Hstep. unfold lift, Sync.json in Hstep. rewrite Hbody in Hstep.
    discriminate Hstep.
  - rewrite (h1_step_empty W ph st tr r tr1 Hfetch H200 (or_introl Hbody)) in Hstep.
    injection Hstep as <- _. apply Hsame; [reflexivity|].
    intros r0 x items [= <-] _ Hb. rewrite Hbody in Hb. discriminate Hb.
  - (* a page with rows *)
    rewrite (h1_step_on_page W ph st tr r tr1 x items Hfetch H200 Hbody) in Hstep.
    destruct (max_of (fun t => dict_item t k) (x :: items)) as [m|e] eqn:Hmax;
      [|discriminate Hstep].
    destruct (Sync.write_page _ _ _ _ _ _) as [[total'|e] tr2]; [|discriminate Hstep].
    cbv zeta in Hstep.
    assert (Hcur : Sync.cursor (Sync.state_of ctl) = m).
    { destruct (Sync.len (x :: items) <? Sync.limit);
        injection Hstep as <- _; reflexivity. }
    destruct (max_of_elem _ _ _ Hmax) as (y & Hy & Hfy).
    assert (Hyk : y !! k = Some m).
    { unfold dict_item in Hfy. destruct (y !! k); [|discriminate Hfy].
      injection Hfy as ->. reflexivity. }
    pose proof (page_above st tr r tr1 (x :: items) Hfetch Hbody) as Hrows.
    assert (Habove : Source.id_above m (Sync.cursor st)).
    { rewrite Forall_forall in Hrows. destruct (Hrows y Hy) as (i & Hi & Hi').
      rewrite Hyk in Hi. injection Hi as <-. exact Hi'. }
    rewrite Hcur. split; [right; exact Habove|].
    intros r0 tr3 x0 items0 Hf _ Hb. rewrite Hfetch in Hf. injection Hf as <- _.
    rewrite Hbody in Hb. injection Hb as <- <-.
    split; [exact Habove|]. split; [exists y; auto|].
    intros Hints.
    assert (Hidl : rmap (fun t => dict_item t k) (x :: items) =
                   Ok (VInt <$> (Source.row_key k <$> x :: items))).
    { clear -Hints. induction Hints as [|u l (z & Hz) _ IH]; [reflexivity|].
      assert (Hk : Source.row_key k u = z)
        by (unfold Source.row_key; rewrite Hz; reflexivity).
      cbn [rmap]. unfold dict_item at 1. rewrite Hz. cbn [rbind]. rewrite IH. cbn [rbind].
      rewrite !fmap_cons, Hk. reflexivity. }
    rewrite (max_of_rmap _ _ _ Hidl) in Hmax.
    change (py_max (VInt <$> (Source.row_key k <$> x :: items))) with
      (max_from (VInt (Source.row_key k x)) (VInt <$> (Source.row_key k <$> items))) in Hmax.
    rewrite max_from_ints in Hmax. injection Hmax as <-.
    destruct (foldl_max_bounds (Source.row_key k <$> items) (Source.row_key k x))
      as (Hb1 & Hb2 & _).
    eexists. split; [reflexivity|].
    constructor; [exact Hb1|].
    apply Forall_forall. intros u Hu. rewrite Forall_forall in Hb2.
    apply Hb2, list_elem_of_fmap_2, Hu.
  - rewrite (h1_step_empty W ph st tr r tr1 Hfetch H200 (or_intror (or_introl Hbody))) in Hstep.
    injection Hstep as <- _. apply Hsame; [reflexivity|].
    intros r0 x items [= <-] _ Hb. rewrite Hbody in Hb. discriminate Hb.
  - unfold Sync.H1.page_step, bind in Hstep. rewrite Hfetch, H200 in Hstep.
    simpl in Hstep. unfold lift, Sync.json in Hstep. rewrite Hbody in Hstep.
    discriminate Hstep.
  - rewrite (h1_step_empty W ph st tr r tr1 Hfetch H200 (or_intror (or_intror Hbody)))
      in Hstep.
    injection Hstep as <- _. apply Hsame; [reflexivity|].
    intros r0 x items [= <-] _ Hb. rewrite Hbody in Hb. discriminate Hb.
Qed.

(** Across the passes of a phase the cursor never goes back. *)
Lemma loop_cursor (fuel : nat) :
  forall (st : Sync.progress) tr st' tr',
    Sync.while_true (Sync.H1.page_step W ph) fuel st tr = (Ok (Some st'), tr') ->
    Sync.cursor st' = Sync.cursor st \/ Source.id_above (Sync.cursor st') (Sync.cursor st).
Proof.
  induction fuel as [|fuel IH]; intros st tr st' tr' Hrun; [discriminate|].
  cbn [Sync.while_true] in Hrun. unfold bind at 1 in Hrun.
  destruct (Sync.H1.page_step W ph st tr) as [[ctl|e] tr1] eqn:Hstep; [|discriminate].
  destruct (step_cursor st tr ctl tr1 Hstep) as [Hone _].
  destruct ctl as [s1|s1]; cbn [Sync.state_of] in Hone.
  - destruct (IH s1 tr1 st' tr' Hrun) as [Hrest | Hrest].
    + rewrite Hrest. exact Hone.
    + destruct Hone as [Hone | Hone].
      * rewrite <- Hone. right. exact Hrest.
      * right. eapply id_above_trans; eassumption.
  - injection Hrun as <- _. exact Hone.
Qed.

End CursorFacts.

Section SourceModelFacts.

Lemma page_after_above (k : string) (rows : list row) (c l : Z) (r : row) :
  r ∈ Source.page_after k rows c l -> c < Source.row_key k r /\ r ∈ rows.
Proof.
  unfold Source.page_after. intros Hin. apply subseteq_take in Hin.
  rewrite order_by_perm in Hin. unfold Source.after in Hin.
  apply list_elem_of_filter in Hin. exact Hin.
Qed.

Lemma world_lines_serves (rows : list row) :
  Source.serves (Examples.world_lines rows)
    (Sync.H1.line_items (Examples.world_lines rows)) rows.
Proof.
  intros tr c v z l Hq Hv. simpl in Hq. eexists. simpl. unfold Examples.lines_source.
  rewrite Hq, Hv. reflexivity.
Qed.

(** A source that holds rows whose ids are numbers, or strings of
    digits, returns only rows that meet the condition of the query. *)
Lemma world_lines_honours (rows : list row) :
  Forall (fun r => exists i z, r !! "line_id" = Some i /\ Source.id_num i = Some z) rows ->
  Source.honours (Examples.world_lines rows).
Proof.
  intros Hrows tr c q b r items Hq Hb Hsend Hbody.
  cbn in Hsend. unfold Examples.lines_source in Hsend. rewrite Hq in Hsend.
  destruct q; try discriminate Hb;
    try (injection Hsend as <-; discriminate Hbody).
  injection Hb as <-. cbn.
  destruct (Source.id_num last_line_id) as [z|] eqn:Hz;
    [|injection Hsend as <-; discriminate Hbody].
  injection Hsend as <-. cbn in Hbody. injection Hbody as <-.
  apply Forall_forall. intros x Hx. apply page_after_above in Hx as [Hlt Hin].
  rewrite Forall_forall in Hrows. destruct (Hrows x Hin) as (i & zi & Hi & Hzi).
  exists i. split; [exact Hi|]. exists zi, z. split; [exact Hzi|]. split; [exact Hz|].
  unfold Source.row_key in Hlt. rewrite Hi, Hzi in Hlt. exact Hlt.
Qed.

Lemma three_lines_ids :
  Forall (Source.has_id_above "line_id" 0) Examples.three_lines.
Proof.
  repeat constructor; eexists; (split; [vm_compute; reflexivity | lia]).
Qed.

Lemma string_lines_ids :
  Forall (fun r => exists i z, r !! "line_id" = Some i /\ Source.id_num i = Some z)
    Examples.string_lines.
Proof.
  repeat constructor; eexists _, _; (split; vm_compute; reflexivity).
Qed.

End SourceModelFacts.

(** C4.  While the source returns only rows that meet the condition of
    the query they answer, the cursor of a watermark phase never goes
    back, from one pass to the next and over the whole phase, whether
    the ids come as integers or as strings of digits.  A pass that got a
    page with rows leaves the cursor strictly above where it was, at the
    id of a row of that page (the largest one when the ids are
    integers).  Every pass sends the query with its own cursor as the
    bound, and in the text of the query the bound is excluded: the
    condition reads [AND column > cursor].  So no row that comes back
    carries the id the query was issued with. *)
Theorem watermark_cursor_monotone
    (W : world) R (ph : Sync.phase R) (repr_float : spec_float -> string) :
  Source.watermark_phase ph ->
  Source.honours W ->
  (forall fuel (st : Sync.progress) tr st' tr',
      Sync.while_true (Sync.H1.page_step W ph) fuel st tr = (Ok (Some st'), tr') ->
      Sync.cursor st' = Sync.cursor st \/
      Source.id_above (Sync.cursor st') (Sync.cursor st)) /\
  (forall (st : Sync.progress) tr ctl tr',
      Sync.H1.page_step W ph st tr = (Ok ctl, tr') ->
      (Sync.cursor (Sync.state_of ctl) = Sync.cursor st \/
       Source.id_above (Sync.cursor (Sync.state_of ctl)) (Sync.cursor st)) /\
      forall r tr1 x items,
        Client.make_ns_request W (Sync.ns_url W) POST
          (Some (Sync.ph_query ph (Sync.cursor st) Sync.limit)) 3 tr =
          (Ok (Some r), tr1) ->
        status_code r = 200 ->
        body r = JObject (Some (x :: items)) ->
        Source.id_above (Sync.cursor (Sync.state_of ctl)) (Sync.cursor st) /\
        (exists y, y ∈ x :: items /\
                   y !! Sync.ph_id ph = Some (Sync.cursor (Sync.state_of ctl))) /\
        (Forall (fun y => exists z, y !! Sync.ph_id ph = Some (VInt z)) (x :: items) ->
         exists m, Sync.cursor (Sync.state_of ctl) = VInt m /\
                   Forall (fun y => Source.row_key (Sync.ph_id ph) y <= m) (x :: items))) /\
  (forall (st : Sync.progress) tr res tr',
      Sync.H1.page_step W ph st tr = (res, tr') ->
      exists k b head tail,
        (1 <= k <= 3)%nat /\
        Trace.queries tr' =
          Trace.queries tr ++ replicate k (Sync.ph_query ph (Sync.cursor st) Sync.limit) /\
        Sql.watermark (Sync.ph_query ph (Sync.cursor st) Sync.limit) = Some b /\
        Sql.alias b = Sync.ph_id ph /\
        Sql.kind b = Sql.Exclusive /\
        Sql.low b = Sync.cursor st /\
        Sql.text repr_float (Sync.ph_query ph (Sync.cursor st) Sync.limit) =
          head +:+ "AND " +:+ Sql.column b +:+ " > " +:+
          Sql.str repr_float (Sync.cursor st) +:+ tail) /\
  (forall (st : Sync.progress) tr r tr1 items,
      Client.make_ns_request W (Sync.ns_url W) POST
        (Some (Sync.ph_query ph (Sync.cursor st) Sync.limit)) 3 tr = (Ok (Some r), tr1) ->
      body r = JObject (Some items) ->
      Forall (fun y => exists i, y !! Sync.ph_id ph = Some i /\
                                 Source.id_above i (Sync.cursor st) /\
                                 Source.id_num i <> Source.id_num (Sync.cursor st)) items).
Proof.
  intros Hph Hhon. split; [|split; [|split]].
  - intros fuel. apply loop_cursor; assumption.
  - intros st tr ctl tr'. apply step_cursor; assumption.
  - intros st tr res tr' Hstep.
    destruct (h1_step_queries W ph st tr res tr' Hstep) as (k & Hk & Hq).
    destruct (phase_condition ph Hph (Sync.cursor st) Sync.limit) as [col Hb].
    destruct (watermark_in_text repr_float _ _ Hb) as (head & tail & Htext).
    exists k, {| Sql.column := col; Sql.alias := Sync.ph_id ph;
                 Sql.kind := Sql.Exclusive; Sql.low := Sync.cursor st |}, head, tail.
    split; [exact Hk|]. split; [exact Hq|]. split; [exact Hb|].
    split; [reflexivity|]. split; [reflexivity|]. split; [reflexivity|].
    rewrite Htext. unfold Sql.condition. cbn [Sql.column Sql.kind Sql.low Sql.operator].
    rewrite !append_assoc. reflexivity.
  - intros st tr r tr1 items Hfetch Hbody.
    pose proof (page_above W ph Hph Hhon st tr r tr1 items Hfetch Hbody) as Hrows.
    eapply Forall_impl; [exact Hrows|]. cbn. intros y (i & Hi & Habove).
    exists i. split; [exact Hi|]. split; [exact Habove|].
    apply id_above_differs, Habove.
Qed.

Lemma watermark_cursor_monotone_witness :
  Sync.while_true
    (Sync.H1.page_step (Examples.world_lines Examples.string_lines)
       (Sync.H1.line_items (Examples.world_lines Examples.string_lines)))
    5 Sync.H1.start [] =
  (Ok (Some {| Sync.cursor := VStr "9"; Sync.batch_num := 1; Sync.total := 3 |}),
   snd (Sync.while_true
          (Sync.H1.page_step (Examples.world_lines Examples.string_lines)
             (Sync.H1.line_items (Examples.world_lines Examples.string_lines)))
          5 Sync.H1.start [])) /\
  (VStr "9" = VInt 0 \/ Source.id_above (VStr "9") (VInt 0)).
Proof.
  assert (E : Sync.while_true
    (Sync.H1.page_step (Examples.world_lines Examples.string_lines)
       (Sync.H1.line_items (Examples.world_lines Examples.string_lines)))
    5 Sync.H1.start [] =
  (Ok (Some {| Sync.cursor := VStr "9"; Sync.batch_num := 1; Sync.total := 3 |}),
   snd (Sync.while_true
          (Sync.H1.page_step (Examples.world_lines Examples.string_lines)
             (Sync.H1.line_items (Examples.world_lines Examples.string_lines)))
          5 Sync.H1.start []))).
  { apply pair_of_fst. vm_compute. reflexivity. }
  split; [exact E|].
  refine (proj1 (watermark_cursor_monotone (Examples.world_lines Examples.string_lines) _
                   (Sync.H1.line_items (Examples.world_lines Examples.string_lines))
                   (fun _ => EmptyString) _ _)
            5%nat Sync.H1.start [] _ _ E).
  - right. split; reflexivity.
  - exact (world_lines_honours Examples.string_lines string_lines_ids).
Defined.

Section LineSinkFacts.
Context (W : world).

Lemma line_item_id (I : interp) (r : row) (rec : Line.record) :
  Transform.line_item I r = Ok rec -> r !! "line_id" = Some (Line.ns_line_id rec).
Proof.
  unfold Transform.line_item, dict_item.
  destruct (r !! "line_id"); simpl; [|discriminate].
  destruct (r !! "transaction_id"); simpl; [|discriminate].
  destruct (Transform.int_or_zero I r "quantity"); simpl; [|discriminate].
  destruct (Transform.float_or_none I r "rate"); simpl; [|discriminate].
  destruct (Transform.float_or_none I r "netamount"); simpl; [|discriminate].
  destruct (Transform.float_or_none I r "foreignamount"); simpl; [|discriminate].
  intros [= <-]. reflexivity.
Qed.

Lemma line_items_transformed (page : list row) :
  Forall (Source.transformable "line_id" (Transform.line_item (the_interp W))) page ->
  exists recs,
    rmap (Transform.line_item (the_interp W)) page = Ok recs /\
    map Line.ns_line_id recs = VInt <$> (Source.row_key "line_id" <$> page).
Proof.
  induction 1 as [|x l [(i & Hi) (rec & Hrec)] Hl (recs & Hrecs & Hmap)].
  - exists []. split; reflexivity.
  - exists (rec :: recs). cbn [rmap]. rewrite Hrec, Hrecs. split; [reflexivity|].
    cbn [map fmap list_fmap]. f_equal; [|exact Hmap].
    apply line_item_id in Hrec. unfold Source.row_key. rewrite Hi in Hrec |- *.
    cbn. congruence.
Qed.

Lemma line_items_accepts (rows : list row) :
  Forall (Source.transformable "line_id" (Transform.line_item (the_interp W))) rows ->
  Source.accepts (Sync.ph_sink (Sync.H1.line_items W)) rows.
Proof.
  intros Hrows page Hne Hin.
  assert (Hpage : Forall (Source.transformable "line_id"
                            (Transform.line_item (the_interp W))) page).
  { rewrite Forall_forall in Hrows, Hin |- *. intros x Hx. apply Hrows, Hin, Hx. }
  destruct (line_items_transformed page Hpage) as (recs & Hrecs & Hmap).
  exists recs. split; [exact Hrecs|]. simpl. rewrite Hmap.
  destruct page as [|x page]; [contradiction|]. apply span_ints.
Qed.

Lemma destination_accepting_responds ns :
  Source.destination_responds (Examples.mk_world ns Examples.sb_accepts).
Proof. intros tr c. eexists. reflexivity. Qed.

Lemma three_lines_transformable :
  Forall (Source.transformable "line_id" (Transform.line_item Examples.interp0))
    Examples.three_lines.
Proof.
  repeat constructor; eexists; vm_compute; reflexivity.
Qed.

Lemma line_rows_transformable (l : list Z) :
  Forall (Source.transformable "line_id" (Transform.line_item Examples.interp0))
    (map Examples.line_row l).
Proof.
  apply List.Forall_map, List.Forall_forall. intros i _.
  split; eexists; vm_compute; reflexivity.
Qed.

Lemma line_rows_ids (n : nat) :
  Forall (Source.has_id_above "line_id" 0) (map Examples.line_row (Examples.ids n)).
Proof.
  apply List.Forall_map, List.Forall_forall. intros i Hi.
  exists i. split; [vm_compute; reflexivity|].
  unfold Examples.ids in Hi. apply in_map_iff in Hi as (j & <- & Hj).
  apply in_seq in Hj. lia.
Qed.

Lemma line_rows_keys (l : list Z) :
  Source.row_key "line_id" <$> map Examples.line_row l = l.
Proof.
  induction l as [|i l IH]; [reflexivity|].
  cbn [map]. rewrite fmap_cons, IH. f_equal.
Qed.

Lemma line_rows_length (n : nat) :
  length (map Examples.line_row (Examples.ids n)) = n.
Proof. unfold Examples.ids. rewrite !List.length_map. apply List.length_seq. Qed.

Lemma line_rows_nodup (n : nat) :
  NoDup (Source.row_key "line_id" <$> map Examples.line_row (Examples.ids n)).
Proof.
  rewrite line_rows_keys. unfold Examples.ids.
  apply (NoDup_fmap_2 Z.of_nat). apply NoDup_ListNoDup, List.seq_NoDup.
Qed.

End LineSinkFacts.

Section CeilingFacts.

Lemma fetch_count_against_ceiling (n : nat) :
  ((n mod 1000 <> 0 -> n / 1000 + 1 = (n + 999) / 1000) /\
   (n mod 1000 = 0 -> n / 1000 + 1 = (n + 999) / 1000 + 1))%nat.
Proof.
  pose proof (Nat.div_mod_eq n 1000) as Hdm.
  pose proof (Nat.mod_upper_bound n 1000 ltac:(lia)) as Hlt.
  split; intros Hm.
  - apply (Nat.div_unique _ _ _ (n mod 1000 - 1)); lia.
  - f_equal. apply (Nat.div_unique _ _ _ 999); lia.
Qed.

End CeilingFacts.




Section RecoveryFacts.
Context (W : world) {R : Type} (q : Z -> Z -> query) (sk : Sync.sink R).
Hypothesis Hwf : Source.well_formed W sk.
Hypothesis Hdest : Source.destination_responds W.

(** With well-formed responses and a destination that answers, a pass
    of the streaming loop ends without an exception. *)
Lemma v2_step_never_raises (st : Sync.V2.state) (tr : trace) :
  exists ctl tr', Sync.V2.page_step W q sk st tr = (Ok ctl, tr').
Proof.
  destruct (make_ns_request_returns W (Sync.ns_url W) POST
              (Some (q (Sync.V2.offset st) Sync.limit)) 3 tr) as (o & tr1 & Hfetch).
  destruct o as [r|].
  2:{ destruct (v2_step_fetch_failed W q sk st tr None tr1 Hfetch I) as (new & E & _).
      eexists _, _. exact E. }
  destruct (Z.eq_dec (status_code r) 200) as [H200 | Hn200].
  2:{ destruct (v2_step_fetch_failed W q sk st tr (Some r) tr1 Hfetch Hn200)
        as (new & E & _).
      eexists _, _. exact E. }
  destruct (make_ns_request_some W _ _ _ _ _ _ _ Hfetch) as (_ & tr0 & call & Hsend & _).
  destruct (Hwf tr0 call r Hsend H200) as (items & Hbody & Hrows).
  destruct items as [[|x items]|].
  - eexists _, _. apply (v2_step_empty W q sk st tr r tr1 Hfetch H200 (or_introl Hbody)).
  - destruct (Hrows (x :: items) eq_refl) as (recs & Hrecs & Hrep).
    set (call' := Client.supabase_call W (Sync.table sk) POST
                    (Some (map (Sync.wrap sk) recs)) (Sync.on_conflict sk)).
    destruct (Hdest tr1 call') as [s Hs].
    destruct (Sync.rejected s) eqn:Hrej.
    + pose proof (write_page_rejected W sk (Sync.V2.batch_num st + 1) (Sync.V2.total st)
                    _ recs tr1 s Hrecs Hs Hrej) as Hwrite.
      rewrite (v2_step_page W q sk st tr r tr1 x items _ _ Hfetch H200 Hbody Hwrite).
      destruct (Sync.len (x :: items) <? Sync.limit); eexists _, _; reflexivity.
    + pose proof (write_page_accepted W sk (Sync.V2.batch_num st + 1) (Sync.V2.total st)
                    _ recs tr1 s Hrecs Hs Hrej Hrep) as Hwrite.
      rewrite (v2_step_page W q sk st tr r tr1 x items _ _ Hfetch H200 Hbody Hwrite).
      destruct (Sync.len (x :: items) <? Sync.limit); eexists _, _; reflexivity.
  - eexists _, _. apply (v2_step_empty W q sk st tr r tr1 Hfetch H200 (or_intror (or_introl Hbody))).
Qed.

Lemma v2_loop_never_raises (fuel : nat) :
  forall (st : Sync.V2.state) (tr : trace),
    exists o tr', Sync.while_true (Sync.V2.page_step W q sk) fuel st tr = (Ok o, tr').
Proof.
  induction fuel as [|fuel IH]; intros st tr.
  - eexists _, _. reflexivity.
  - cbn [Sync.while_true]. unfold bind at 1.
    destruct (v2_step_never_raises st tr) as (ctl & tr1 & E). rewrite E.
    destruct ctl as [s1|s1]; [apply IH|]. eexists _, _. reflexivity.
Qed.

End RecoveryFacts.


Lemma world_offset_rejecting_well_formed :
  Source.well_formed Examples.world_offset_rejecting
    (Sync.V2.line_items Examples.world_offset_rejecting).
Proof.
  intros tr c r Hsend H200. simpl in Hsend. unfold Examples.offset_source in Hsend.
  destruct (ns_json c) as [[]|];
    try (injection Hsend as <-; simpl in H200; discriminate H200).
  injection Hsend as <-. eexists. split; [reflexivity|].
  intros rows [= <-].
  destruct (line_items_transformed Examples.world_offset_rejecting
              (take (Z.to_nat limit) (drop (Z.to_nat offset) Examples.three_lines)))
    as (recs & Hrecs & _).
  { apply Forall_take, Forall_drop, three_lines_transformable. }
  exists recs. split; [exact Hrecs|reflexivity].
Qed.


(** * Further properties of the scripts *)

Section ClientBounds.
Context (W : world).

Lemma attempts_app (a b : trace) :
  Trace.attempts (a ++ b) = (Trace.attempts a + Trace.attempts b)%nat.
Proof.
  induction a as [|e a IH]; [reflexivity|].
  rewrite <- app_comm_cons, !attempts_cons, IH. lia.
Qed.

Lemma writes_app (a b : trace) :
  Trace.writes (a ++ b) = (Trace.writes a + Trace.writes b)%nat.
Proof.
  induction a as [|e a IH]; [reflexivity|].
  rewrite <- app_comm_cons, !writes_cons, IH. lia.
Qed.

Lemma sleeps_app (a b : trace) : Trace.sleeps (a ++ b) = Trace.sleeps b ++ Trace.sleeps a.
Proof. unfold Trace.sleeps. rewrite rev_app_distr, omap_app. reflexivity. Qed.

(** X2.  Whatever the source does, a request with [n] retries never
    raises, makes at most [n] attempts, writes nothing, and sleeps only
    30 or 5 seconds at a time.  It returns [None] only after [n]
    attempts, each followed by a sleep; a response it returns is not a
    429, is the answer to its last attempt, and was preceded by one
    sleep for every earlier attempt. *)
Theorem request_attempts_are_bounded url method body (n : nat) :
  forall tr, exists o new,
    Client.make_ns_request W url method body n tr = (Ok o, new ++ tr) /\
    (Trace.attempts new <= n)%nat /\
    Trace.writes new = 0%nat /\
    Forall (fun ms => ms = 30000 \/ ms = 5000) (Trace.sleeps new) /\
    match o with
    | None => Trace.attempts new = n /\ length (Trace.sleeps new) = n
    | Some r =>
        status_code r <> 429 /\
        S (length (Trace.sleeps new)) = Trace.attempts new /\
        exists c older, new = NsCall c (Responds r) :: older
    end.
Proof.
  induction n as [|n IH]; intros tr.
  - exists None, []. repeat split; constructor.
  - cbn [Client.make_ns_request]. unfold bind at 1, Client.send_signed.
    set (c := Client.signed_call W url method body tr).
    assert (Hrec : forall o0 ms, ms = 30000 \/ ms = 5000 ->
      exists o new,
        Client.make_ns_request W url method body n
          (Sleep ms :: Print (if ms =? 30000 then RateLimited else RequestError)
             :: NsCall c o0 :: tr) = (Ok o, new ++ tr) /\
        (Trace.attempts new <= S n)%nat /\
        Trace.writes new = 0%nat /\
        Forall (fun ms => ms = 30000 \/ ms = 5000) (Trace.sleeps new) /\
        match o with
        | None => Trace.attempts new = S n /\ length (Trace.sleeps new) = S n
        | Some r =>
            status_code r <> 429 /\
            S (length (Trace.sleeps new)) = Trace.attempts new /\
            exists c older, new = NsCall c (Responds r) :: older
        end).
    { intros o0 ms Hms.
      set (m := if ms =? 30000 then RateLimited else RequestError).
      destruct (IH (Sleep ms :: Print m :: NsCall c o0 :: tr))
        as (o & new & E & Hatt & Hw & Hsl & Ho).
      exists o, (new ++ [Sleep ms; Print m; NsCall c o0]).
      rewrite <- app_assoc. split; [exact E|].
      rewrite attempts_app, writes_app, sleeps_app.
      change (Trace.attempts [Sleep ms; Print m; NsCall c o0]) with 1%nat.
      change (Trace.writes [Sleep ms; Print m; NsCall c o0]) with 0%nat.
      change (Trace.sleeps [Sleep ms; Print m; NsCall c o0]) with [ms].
      split; [lia|]. split; [lia|]. split; [constructor; assumption|].
      destruct o as [r|].
      - destruct Ho as (H429 & Hlen & c' & older & Hnew).
        split; [exact H429|]. split; [rewrite length_app; cbn [length]; lia|].
        rewrite Hnew. eexists _, _. reflexivity.
      - destruct Ho as [Ha Hl]. split; [lia|]. rewrite length_app. cbn [length]. lia. }
    destruct (ns_send W tr c) as [r|].
    + destruct (status_code r =? 429) eqn:E429.
      * apply (Hrec (Responds r) 30000). left. reflexivity.
      * exists (Some r), [NsCall c (Responds r)]. split; [reflexivity|].
        change (Trace.attempts [NsCall c (Responds r)]) with 1%nat.
        change (Trace.sleeps [NsCall c (Responds r)]) with (@nil Z).
        split; [lia|]. split; [reflexivity|]. split; [constructor|].
        split; [apply Z.eqb_neq, E429|]. split; [reflexivity|].
        eexists _, _. reflexivity.
    + apply (Hrec Fails 5000). right. reflexivity.
Qed.

(** X3.  Every attempt of a request is signed afresh: each call it adds
    to the trace carries the header computed from the timestamp and the
    nonce read at the moment of that attempt, not those of the first
    attempt. *)
Theorem every_attempt_is_signed_afresh url method body (n : nat) :
  forall tr o tr1,
    Trace.freshly_signed W url method body tr ->
    Client.make_ns_request W url method body n tr = (o, tr1) ->
    Trace.freshly_signed W url method body tr1.
Proof.
  induction n as [|n IH]; intros tr o tr1 Hs.
  - intros [= <- <-]. exact Hs.
  - cbn [Client.make_ns_request]. unfold bind at 1, Client.send_signed.
    set (c := Client.signed_call W url method body tr).
    assert (Hnext : forall e1 e2,
      (match e1 with NsCall _ _ => False | _ => True end) ->
      (match e2 with NsCall _ _ => False | _ => True end) ->
      Trace.freshly_signed W url method body (e1 :: e2 :: NsCall c (ns_send W tr c) :: tr)).
    { intros e1 e2 H1 H2. cbn [Trace.freshly_signed].
      destruct e1; try contradiction; destruct e2; try contradiction; auto. }
    destruct (ns_send W tr c) as [r|] eqn:Hsend.
    + destruct (status_code r =? 429).
      * apply IH. apply (Hnext (Sleep 30000) (Print RateLimited)); exact I.
      * intros [= <- <-]. cbn [Trace.freshly_signed]. rewrite Hsend. auto.
    + apply IH. apply (Hnext (Sleep 5000) (Print RequestError)); exact I.
Qed.

End ClientBounds.

(** X1.  When every call to the source fails in transport, a request
    makes exactly three attempts, sleeps five seconds after each of them
    and returns [None]; the exception never reaches the caller. *)
Theorem transport_failures_three_attempts_then_none
    (W : world) (url : string) (method : http_method) (body : option query) (tr : trace) :
  Source.always_fails W ->
  exists c1 c2 c3,
    Client.make_ns_request W url method body 3 tr =
      (Ok None,
       [ Sleep 5000; Print RequestError; NsCall c3 Fails;
         Sleep 5000; Print RequestError; NsCall c2 Fails;
         Sleep 5000; Print RequestError; NsCall c1 Fails ] ++ tr).
Proof.
  intros H. eexists _, _, _.
  simpl. unfold bind, Client.send_signed.
  rewrite H. simpl. rewrite H. simpl. rewrite H. simpl. reflexivity.
Qed.

Lemma transport_failures_three_attempts_then_none_witness :
  fst (Client.make_ns_request Examples.world_source_down Examples.url0 POST
         (Some QSelect1) 3 []) = Ok None /\
  Trace.sleeps (snd (Client.make_ns_request Examples.world_source_down Examples.url0 POST
                       (Some QSelect1) 3 [])) = [5000; 5000; 5000].
Proof.
  destruct (transport_failures_three_attempts_then_none Examples.world_source_down
              Examples.url0 POST (Some QSelect1) []) as (c1 & c2 & c3 & E).
  - intros tr c. reflexivity.
  - rewrite E. split; reflexivity.
Defined.

Lemma every_attempt_is_signed_afresh_witness :
  Trace.freshly_signed Examples.world_429_then_500 Examples.url0 POST (Some QSelect1)
    (snd (Client.make_ns_request Examples.world_429_then_500 Examples.url0 POST
            (Some QSelect1) 3 [])).
Proof.
  apply (every_attempt_is_signed_afresh Examples.world_429_then_500 Examples.url0 POST
           (Some QSelect1) 3 []
           (fst (Client.make_ns_request Examples.world_429_then_500 Examples.url0 POST
                   (Some QSelect1) 3 []))).
  - exact I.
  - apply surjective_pairing.
Defined.

Section EncodingFacts.

Lemma hex_digit_inj (x y : N) :
  (x < 16)%N -> (y < 16)%N -> Signing.hex_digit x = Signing.hex_digit y -> x = y.
Proof.
  intros Hx Hy H. apply (f_equal N_of_ascii) in H. unfold Signing.hex_digit in H.
  destruct (x <? 10)%N eqn:Ex; destruct (y <? 10)%N eqn:Ey;
    rewrite !N_ascii_embedding in H by lia;
    try apply N.ltb_lt in Ex; try apply N.ltb_lt in Ey;
    try apply N.ltb_ge in Ex; try apply N.ltb_ge in Ey; lia.
Qed.

Lemma percent_inj (a b : ascii) : Signing.percent a = Signing.percent b -> a = b.
Proof.
  unfold Signing.percent. intros H. injection H as Hhi Hlo.
  assert (Ha : (N_of_ascii a < 256)%N) by apply N_ascii_bounded.
  assert (Hb : (N_of_ascii b < 256)%N) by apply N_ascii_bounded.
  apply hex_digit_inj in Hhi;
    [|apply N.Div0.div_lt_upper_bound; lia|apply N.Div0.div_lt_upper_bound; lia].
  apply hex_digit_inj in Hlo; [|apply N.mod_lt; lia|apply N.mod_lt; lia].
  rewrite <- (ascii_N_embedding a), <- (ascii_N_embedding b). f_equal.
  rewrite (N.div_mod (N_of_ascii a) 16), (N.div_mod (N_of_ascii b) 16) by lia.
  rewrite Hhi, Hlo. reflexivity.
Qed.

Lemma quote_inj (s t : string) : Signing.quote s = Signing.quote t -> s = t.
Proof.
  revert t. induction s as [|a s IH]; intros [|b t]; simpl.
  - reflexivity.
  - destruct (Signing.always_safe b); discriminate.
  - destruct (Signing.always_safe a); discriminate.
  - destruct (Signing.always_safe a) eqn:Ha; destruct (Signing.always_safe b) eqn:Hb.
    + intros [= -> H]. f_equal. apply IH, H.
    + unfold Signing.percent. simpl. intros [= -> _]. discriminate Ha.
    + unfold Signing.percent. simpl. intros [= <- _]. discriminate Hb.
    + unfold Signing.percent at 1 2. simpl. intros [= Hhi Hlo H].
      f_equal; [|apply IH, H]. apply percent_inj. unfold Signing.percent.
      rewrite Hhi, Hlo. reflexivity.
Qed.

Lemma append_cancel_l (p x y : string) : p +:+ x = p +:+ y -> x = y.
Proof.
  induction p as [|a p IH]; simpl; [auto|]. intros [= H]. apply IH, H.
Qed.

End EncodingFacts.

(** X4.  Only the part of the URL before the first question mark is
    signed: whatever follows it, the base string is that of the bare
    URL, so a query string in the URL plays no part in the signature. *)
Theorem query_part_of_url_is_not_signed
    (method u q1 q2 : string) (params : list (string * string)) :
  Signing.string_forall (fun a => negb (Ascii.eqb a "?")) u = true ->
  Signing.before_query (u +:+ String "?" q1) = u /\
  Signing.base_string method (u +:+ String "?" q1) params =
    Signing.base_string method u params /\
  Signing.base_string method (u +:+ String "?" q1) params =
    Signing.base_string method (u +:+ String "?" q2) params.
Proof.
  intros Hu.
  assert (Hq : forall q, Signing.before_query (u +:+ String "?" q) = u).
  { intros q. induction u as [|a u IH]; [reflexivity|].
    simpl in Hu. apply andb_true_iff in Hu as [Ha Hu].
    simpl. destruct (Ascii.eqb a "?"); [discriminate Ha|]. rewrite (IH Hu). reflexivity. }
  assert (Hu' : Signing.before_query u = u).
  { clear Hq. induction u as [|a u IH]; [reflexivity|].
    simpl in Hu. apply andb_true_iff in Hu as [Ha Hu].
    simpl. destruct (Ascii.eqb a "?"); [discriminate Ha|]. rewrite (IH Hu). reflexivity. }
  split; [apply Hq|]. unfold Signing.base_string. rewrite !Hq, Hu'. split; reflexivity.
Qed.

Lemma query_part_of_url_is_not_signed_witness :
  Signing.base_string "POST" "https://h/suiteql?limit=5" [("a", "b")] =
  Signing.base_string "POST" "https://h/suiteql" [("a", "b")].
Proof.
  apply (query_part_of_url_is_not_signed "POST" "https://h/suiteql" "limit=5" "x"
           [("a", "b")]).
  reflexivity.
Defined.

Section BaseStringFacts.

Lemma append_cons (a : ascii) (s t : string) : String a s +:+ t = String a (s +:+ t).
Proof. reflexivity. Qed.

Lemma append_nil (t : string) : EmptyString +:+ t = t.
Proof. reflexivity. Qed.

Lemma string_forall_impl (p q : ascii -> bool) (s : string) :
  (forall a, p a = true -> q a = true) ->
  Signing.string_forall p s = true -> Signing.string_forall q s = true.
Proof.
  intros Hpq. induction s as [|a s IH]; [reflexivity|].
  cbn [Signing.string_forall]. intros H. apply andb_true_iff in H as [Ha Hs].
  rewrite (Hpq a Ha), (IH Hs). reflexivity.
Qed.

Lemma quote_no_amp (s : string) :
  Signing.string_forall (fun a => negb (Ascii.eqb a "&")) (Signing.quote s) = true.
Proof.
  apply (string_forall_impl Signing.safe_or_percent); [|apply quote_chars].
  intros a Ha. destruct (Ascii.eqb a "&") eqn:E; [|reflexivity].
  apply Ascii.eqb_eq in E. subst a. discriminate Ha.
Qed.

(** Two strings without ampersand, each followed by an ampersand and a
    rest, are cut at the same place. *)
Lemma cut_at_amp (x y r r' : string) :
  Signing.string_forall (fun a => negb (Ascii.eqb a "&")) x = true ->
  Signing.string_forall (fun a => negb (Ascii.eqb a "&")) y = true ->
  x +:+ String "&" r = y +:+ String "&" r' ->
  x = y /\ r = r'.
Proof.
  revert y. induction x as [|a x IH]; intros [|b y] Hx Hy;
    rewrite ?append_cons, ?append_nil.
  - intros [= H]. auto.
  - intros [= <- _]. discriminate Hy.
  - intros [= -> _]. discriminate Hx.
  - cbn [Signing.string_forall] in Hx, Hy.
    apply andb_true_iff in Hx as [_ Hx]. apply andb_true_iff in Hy as [_ Hy].
    intros [= -> H]. destruct (IH y Hx Hy H) as [-> ->]. auto.
Qed.

Lemma params_string_shape (C : Signing.credentials) (ts nonce : string) :
  Signing.params_string (Signing.oauth_params C ts nonce) =
    "oauth_consumer_key=" +:+ Signing.quote (Signing.NS_CONSUMER_KEY C) +:+
    String "&" ("oauth_nonce=" +:+ Signing.quote nonce +:+
    String "&" ("oauth_signature_method=HMAC-SHA256&oauth_timestamp=" +:+ Signing.quote ts +:+
    String "&" ("oauth_token=" +:+ Signing.quote (Signing.NS_TOKEN_ID C) +:+
    String "&" "oauth_version=1.0"))).
Proof.
  unfold Signing.params_string.
  change (Signing.sorted (Signing.oauth_params C ts nonce)) with
    [ ("oauth_consumer_key", Signing.NS_CONSUMER_KEY C); ("oauth_nonce", nonce);
      ("oauth_signature_method", "HMAC-SHA256"); ("oauth_timestamp", ts);
      ("oauth_token", Signing.NS_TOKEN_ID C); ("oauth_version", "1.0") ].
  cbn [map Signing.join fst snd]. rewrite !append_assoc. reflexivity.
Qed.

End BaseStringFacts.

(** X6.  The base string that is signed determines the signing
    parameters: for one method and URL, two base strings are equal only
    when consumer key, token, timestamp and nonce are all the same, so
    that a change of any of them changes the input of the signature. *)
Theorem base_string_determines_parameters
    (C C' : Signing.credentials) (ts ts' nonce nonce' method url : string) :
  Signing.base_string method url (Signing.oauth_params C ts nonce) =
  Signing.base_string method url (Signing.oauth_params C' ts' nonce') ->
  Signing.NS_CONSUMER_KEY C = Signing.NS_CONSUMER_KEY C' /\
  Signing.NS_TOKEN_ID C = Signing.NS_TOKEN_ID C' /\
  ts = ts' /\ nonce = nonce'.
Proof.
  unfold Signing.base_string. intros H.
  do 4 apply append_cancel_l in H. apply quote_inj in H.
  rewrite !params_string_shape in H.
  apply append_cancel_l in H.
  apply cut_at_amp in H as [Hck H]; [|apply quote_no_amp|apply quote_no_amp].
  apply append_cancel_l in H.
  apply cut_at_amp in H as [Hn H]; [|apply quote_no_amp|apply quote_no_amp].
  apply append_cancel_l in H.
  apply cut_at_amp in H as [Hts H]; [|apply quote_no_amp|apply quote_no_amp].
  apply append_cancel_l in H.
  apply cut_at_amp in H as [Htk _]; [|apply quote_no_amp|apply quote_no_amp].
  apply quote_inj in Hck, Hn, Hts, Htk. auto.
Qed.

Lemma base_string_determines_parameters_witness :
  "1750000000" = "1750000000" /\ "ab12" = "ab12".
Proof.
  destruct (base_string_determines_parameters Examples.credentials0 Examples.credentials0
              "1750000000" "1750000000" "ab12" "ab12" "POST" Examples.url0 eq_refl)
    as (_ & _ & Hts & Hn).
  split; [exact Hts | exact Hn].
Defined.

(** X7.  A row without one of the columns the transform indexes raises
    [KeyError] for the first such column, in the order the record is
    built: [line_id] then [transaction_id] for a line item,
    [transaction_id], [tranid], [transaction_type], [trandate] for a
    transaction. *)
Theorem missing_required_column_raises_key_error (I : interp) :
  (forall li : row,
      li !! "line_id" = None ->
      Transform.line_item I li = Raise (KeyError "line_id")) /\
  (forall li : row,
      is_Some (li !! "line_id") -> li !! "transaction_id" = None ->
      Transform.line_item I li = Raise (KeyError "transaction_id")) /\
  (forall t : row,
      t !! "transaction_id" = None ->
      Transform.transaction I t = Raise (KeyError "transaction_id")) /\
  (forall t : row,
      is_Some (t !! "transaction_id") -> t !! "tranid" = None ->
      Transform.transaction I t = Raise (KeyError "tranid")) /\
  (forall t : row,
      is_Some (t !! "transaction_id") -> is_Some (t !! "tranid") ->
      t !! "transaction_type" = None ->
      Transform.transaction I t = Raise (KeyError "transaction_type")) /\
  (forall t : row,
      is_Some (t !! "transaction_id") -> is_Some (t !! "tranid") ->
      is_Some (t !! "transaction_type") -> t !! "trandate" = None ->
      Transform.transaction I t = Raise (KeyError "trandate")).
Proof.
  unfold Transform.line_item, Transform.transaction, dict_item.
  repeat split.
  - intros li ->. reflexivity.
  - intros li [v ->] ->. reflexivity.
  - intros t ->. reflexivity.
  - intros t [v ->] ->. reflexivity.
  - intros t [v ->] [w ->] ->. reflexivity.
  - intros t [v ->] [w ->] [x ->] ->. reflexivity.
Qed.

(** X8.  The columns a line item reads with [get] never raise: the ids
    pass through as they are, a missing [item_id] or [itemtype] becomes
    null, and [sku] becomes ['UNKNOWN'] only when the column is missing;
    a [sku] that is present and null stays null. *)
Theorem optional_columns_pass_through (I : interp) (li : row) (r : Line.record) :
  Transform.line_item I li = Ok r ->
  li !! "line_id" = Some (Line.ns_line_id r) /\
  li !! "transaction_id" = Some (Line.ns_transaction_id r) /\
  Line.ns_item_id r = default VNone (li !! "item_id") /\
  Line.item_type r = default VNone (li !! "itemtype") /\
  (li !! "sku" = None -> Line.sku r = VStr "UNKNOWN") /\
  (forall v, li !! "sku" = Some v -> Line.sku r = v).
Proof.
  unfold Transform.line_item, dict_item, dict_get, dict_get_default.
  destruct (li !! "line_id"); simpl; [|discriminate].
  destruct (li !! "transaction_id"); simpl; [|discriminate].
  destruct (Transform.int_or_zero I li "quantity"); simpl; [|discriminate].
  destruct (Transform.float_or_none I li "rate"); simpl; [|discriminate].
  destruct (Transform.float_or_none I li "netamount"); simpl; [|discriminate].
  destruct (Transform.float_or_none I li "foreignamount"); simpl; [|discriminate].
  intros [= <-]. simpl. repeat split.
  - intros ->. reflexivity.
  - intros w ->. reflexivity.
Qed.

Lemma optional_columns_pass_through_witness :
  Line.sku (Line.mk (VInt 7) (VInt 3) VNone (VStr "UNKNOWN") 0 None None None VNone) =
    VStr "UNKNOWN".
Proof.
  refine (proj1 (proj2 (proj2 (proj2 (proj2
            (optional_columns_pass_through Examples.interp0 Examples.bare_line _ _))))) _).
  - vm_compute. reflexivity.
  - vm_compute. reflexivity.
Defined.

(** X9.  A value that tests true is converted, never nulled: a rate
    given as a non-empty string, the string ["0"] included, goes through
    [float] and the record holds the result, and the transform fails
    where [float] refuses the string; only values that test false (C10)
    become null.  The same holds for the quantity and [int]. *)
Theorem truthy_amounts_are_converted (I : interp) (li : row) (r : Line.record) (v : value) :
  truthy v = true ->
  Transform.line_item I li = Ok r ->
  (li !! "rate" = Some v ->
   exists f, py_float (float_of_string I) v = Ok f /\ Line.rate r = Some f) /\
  (li !! "netamount" = Some v ->
   exists f, py_float (float_of_string I) v = Ok f /\ Line.net_amount r = Some f) /\
  (li !! "foreignamount" = Some v ->
   exists f, py_float (float_of_string I) v = Ok f /\ Line.foreign_amount r = Some f) /\
  (li !! "quantity" = Some v ->
   py_int (int_of_string I) v = Ok (Line.quantity r)).
Proof.
  intros Hv H. apply line_item_fields in H as (Hq & Hr & Hn & Hf).
  assert (Hfloat : forall k o,
    Transform.float_or_none I li k = Ok o -> li !! k = Some v ->
    exists f, py_float (float_of_string I) v = Ok f /\ o = Some f).
  { intros k o Hk Hl. unfold Transform.float_or_none, dict_get, dict_item in Hk.
    rewrite Hl in Hk. simpl in Hk. rewrite Hv in Hk.
    destruct (py_float (float_of_string I) v) as [f|e]; [|discriminate Hk].
    injection Hk as <-. exists f. auto. }
  repeat split.
  - apply Hfloat, Hr.
  - apply Hfloat, Hn.
  - apply Hfloat, Hf.
  - intros Hl. unfold Transform.int_or_zero, dict_get, dict_item in Hq.
    rewrite Hl in Hq. simpl in Hq. rewrite Hv in Hq. exact Hq.
Qed.

Lemma truthy_amounts_are_converted_witness :
  Line.rate (Line.mk (VInt 7) (VInt 3) VNone (VStr "UNKNOWN") 0
               (Some (S754_zero false)) None None VNone) = Some (S754_zero false) /\
  Transform.line_item Examples.interp_digits Examples.string_zero_line =
    Ok (Line.mk (VInt 7) (VInt 3) VNone (VStr "UNKNOWN") 0
          (Some (S754_zero false)) None None VNone).
Proof.
  assert (E : Transform.line_item Examples.interp_digits Examples.string_zero_line =
    Ok (Line.mk (VInt 7) (VInt 3) VNone (VStr "UNKNOWN") 0
          (Some (S754_zero false)) None None VNone)) by (vm_compute; reflexivity).
  split; [|exact E].
  destruct (truthy_amounts_are_converted Examples.interp_digits Examples.string_zero_line
              _ (VStr "0") eq_refl E) as (Hrate & _).
  destruct (Hrate ltac:(vm_compute; reflexivity)) as (f & Hf & Hr).
  vm_compute in Hf. injection Hf as <-. exact Hr.
Defined.

(** X10.  Without wholesale customers there is no transaction sync: when
    the lookup of the customer ids comes back with a status other than
    200, whatever its body, or with an empty list, or with the object
    without keys, the streaming sync prints the diagnostic and returns
    [(0, 0)] at once, without raising and without a single call to the
    source. *)
Theorem no_customers_no_sync (W : world) (fuel : nat) (tr : trace) (r : response) :
  let tr0 := Print (Banner "SYNCING WHOLESALE TRANSACTIONS (STREAMING)") :: tr in
  sb_send W tr0
    (Client.supabase_call W "ns_wholesale_customers?select=ns_id" GET None None) =
    Responds r ->
  status_code r <> 200 \/ body r = JArray [] \/ body r = JEmpty ->
  exists tr',
    Sync.V2.sync_transactions_streaming W fuel tr =
      (Ok (Some (0, 0)), Print NoCustomers :: tr') /\
    Trace.attempts (Print NoCustomers :: tr') = Trace.attempts tr /\
    Trace.writes (Print NoCustomers :: tr') = S (Trace.writes tr).
Proof.
  intros tr0 Hsend Hr.
  unfold Sync.V2.sync_transactions_streaming, bind at 1, print at 1, emit.
  fold tr0. unfold bind at 1, Sync.V2.get_wholesale_customer_ids, bind at 1.
  rewrite (supabase_request_responds W _ _ _ _ _ _ Hsend).
  destruct (status_code r =? 200) eqn:E200.
  - destruct Hr as [Hr | [Hr | Hr]]; [apply Z.eqb_eq in E200; contradiction| |];
      unfold bind, lift, Sync.json; rewrite Hr; simpl;
      (eexists; split; [reflexivity|]; split; reflexivity).
  - simpl. eexists. split; [reflexivity|]. split; reflexivity.
Qed.

Lemma no_customers_no_sync_witness :
  fst (Sync.V2.sync_transactions_streaming
         (Examples.mk_world (fun _ _ => Responds Examples.response_full_page)
            (fun _ _ => Examples.reply 401 JInvalid)) 5 []) = Ok (Some (0, 0)).
Proof.
  destruct (no_customers_no_sync
              (Examples.mk_world (fun _ _ => Responds Examples.response_full_page)
                 (fun _ _ => Examples.reply 401 JInvalid)) 5 []
              {| status_code := 401; text := "body"; body := JInvalid |})
    as (tr' & E & _).
  - reflexivity.
  - left. simpl. lia.
  - rewrite E. reflexivity.
Defined.

Section MainFacts.
Context (W : world).

Lemma never_ok_test_fails url method body n tr o tr1 :
  Source.never_ok W ->
  Client.make_ns_request W url method body n tr = (Ok o, tr1) ->
  match o with Some r => status_code r <> 200 | None => True end.
Proof.
  intros Hn Hfetch. destruct o as [r|]; [|exact I].
  destruct (make_ns_request_some W _ _ _ _ _ _ _ Hfetch) as (_ & tr0 & c & Hsend & _).
  specialize (Hn tr0 c). rewrite Hsend in Hn. exact Hn.
Qed.

Lemma test_passed_status (o : option response) :
  Sync.test_passed o = true -> exists r, o = Some r /\ status_code r = 200.
Proof.
  destruct o as [r|]; [|discriminate]. simpl. intros H.
  apply andb_true_iff in H as [_ H]. apply Z.eqb_eq in H. eauto.
Qed.

(** The two tests at the head of [main], common to both scripts: what
    the trace holds when the run is given up. *)
Lemma tests_only (endpoint : string) (banner : string) (tr : trace)
    (phases : M Sync.run_result) (tr' : trace) :
  (forall trx try, phases trx <> (Ok Sync.Aborted, try)) ->
  (print (Banner banner) ;;
   test_response <- Client.make_ns_request W (Sync.ns_url W) POST (Some QSelect1) 3 ;;
   if Sync.test_passed test_response then
     print (Banner "NetSuite connection OK") ;;
     test_response <- Client.supabase_request W endpoint GET None None ;;
     if status_code test_response =? 200 then
       print (Banner "Supabase connection OK") ;; phases
     else
       print (ErrorText (Sync.prefix 200 (text test_response))) ;;
       ret Sync.Aborted
   else
     print (Banner "NetSuite connection FAILED") ;;
     ret Sync.Aborted) tr = (Ok Sync.Aborted, tr') ->
  Source.only_tested tr tr'.
Proof.
  intros Hph. unfold bind at 1, print at 1, emit. unfold bind at 1.
  destruct (Client.make_ns_request W (Sync.ns_url W) POST (Some QSelect1) 3
              (Print (Banner banner) :: tr)) as [[o|e] tr1] eqn:Hfetch.
  2:{ discriminate. }
  destruct (make_ns_request_queries W _ _ _ _ _ _ Hfetch) as [(k & Hk & Hq) Hw].
  rewrite queries_cons, app_nil_r in Hq. rewrite writes_cons in Hw. simpl in Hw.
  destruct (Sync.test_passed o).
  - unfold bind at 1, print at 1, emit. unfold bind at 1, Client.supabase_request.
    destruct (sb_send W _ _) as [s|]; [|discriminate].
    destruct (status_code s =? 200).
    + unfold bind at 1, print at 1, emit. intros H. exfalso. eapply Hph, H.
    + unfold bind, print, emit, ret. intros [= <-]. split.
      * exists k. split; [exact Hk|]. rewrite !queries_cons, !app_nil_r. exact Hq.
      * rewrite !writes_cons. simpl. lia.
  - unfold bind, print, emit, ret. intros [= <-]. split.
    + exists k. split; [exact Hk|]. rewrite !queries_cons, !app_nil_r. exact Hq.
    + rewrite !writes_cons. simpl. lia.
Qed.

End MainFacts.

(** X11.  A run that is given up has touched nothing: when [main]
    returns early, the source has only been sent the connection test, at
    most three times, the destination has been called at most once, for
    its own test, and no phase has run; and [main] does return early,
    before any call to the destination, whenever the source never
    answers with status 200. *)
Theorem aborted_run_has_only_tested :
  (forall (W : world) fuel tr tr',
      Sync.H1.main W fuel tr = (Ok Sync.Aborted, tr') -> Source.only_tested tr tr') /\
  (forall (W : world) fuel tr tr',
      Sync.V2.main W fuel tr = (Ok Sync.Aborted, tr') -> Source.only_tested tr tr') /\
  (forall (W : world) fuel tr,
      Source.never_ok W ->
      fst (Sync.H1.main W fuel tr) = Ok Sync.Aborted /\
      fst (Sync.V2.main W fuel tr) = Ok Sync.Aborted /\
      Trace.writes (snd (Sync.H1.main W fuel tr)) = Trace.writes tr /\
      Trace.writes (snd (Sync.V2.main W fuel tr)) = Trace.writes tr).
Proof.
  split; [|split].
  - intros W fuel tr tr'. unfold Sync.H1.main. apply tests_only.
    intros trx try. unfold bind.
    destruct (Sync.H1.sync_transactions W fuel trx) as [[[t|]|e] tr1]; try discriminate.
    destruct (Sync.H1.sync_line_items W fuel tr1) as [[[l|]|e] tr2]; discriminate.
  - intros W fuel tr tr'. unfold Sync.V2.main. apply tests_only.
    intros trx try. unfold bind.
    destruct (Sync.V2.sync_transactions_streaming W fuel trx) as [[[[a b]|]|e] tr1];
      discriminate.
  - intros W fuel tr Hn.
    assert (Hmain : forall banner (rest : option response -> M Sync.run_result),
      (forall o, Sync.test_passed o = false ->
                 rest o = (print (Banner "NetSuite connection FAILED") ;; ret Sync.Aborted)) ->
      fst ((print (Banner banner) ;;
            test_response <- Client.make_ns_request W (Sync.ns_url W) POST
                               (Some QSelect1) 3 ;;
            rest test_response) tr) = Ok Sync.Aborted /\
      Trace.writes (snd ((print (Banner banner) ;;
            test_response <- Client.make_ns_request W (Sync.ns_url W) POST
                               (Some QSelect1) 3 ;;
            rest test_response) tr)) = Trace.writes tr).
    { intros banner rest Hrest. unfold bind at 1 3, print at 1 2, emit. unfold bind at 1 2.
      destruct (make_ns_request_returns W (Sync.ns_url W) POST (Some QSelect1) 3
                  (Print (Banner banner) :: tr)) as (o & tr1 & Hfetch).
      rewrite Hfetch.
      assert (Hfail : Sync.test_passed o = false).
      { destruct (Sync.test_passed o) eqn:E; [|reflexivity].
        apply test_passed_status in E as (r & -> & H200).
        pose proof (never_ok_test_fails W _ _ _ _ _ _ _ Hn Hfetch) as Hno.
        simpl in Hno. contradiction. }
      rewrite (Hrest o Hfail). unfold bind, print, emit, ret. simpl.
      split; [reflexivity|].
      destruct (make_ns_request_queries W _ _ _ _ _ _ Hfetch) as [_ Hw].
      rewrite !writes_cons in *. simpl in *. exact Hw. }
    destruct (Hmain "NETSUITE WHOLESALE DATA SYNC - H1 2025"
                (fun test_response =>
                   if Sync.test_passed test_response then
                     print (Banner "NetSuite connection OK") ;;
                     test_response <- Client.supabase_request W
                                        "ns_wholesale_transactions?limit=1" GET None None ;;
                     if status_code test_response =? 200 then
                       print (Banner "Supabase connection OK") ;;
                       txn_count <- Sync.H1.sync_transactions W fuel ;;
                       match txn_count with
                       | None => ret Sync.Unfinished
                       | Some t =>
                           line_count <- Sync.H1.sync_line_items W fuel ;;
                           match line_count with
                           | None => ret Sync.Unfinished
                           | Some l =>
                               print (Banner "SYNC COMPLETE") ;;
                               ret (Sync.Finished t l)
                           end
                       end
                     else
                       print (ErrorText (Sync.prefix 200 (text test_response))) ;;
                       ret Sync.Aborted
                   else
                     print (Banner "NetSuite connection FAILED") ;;
                     ret Sync.Aborted)) as [H1 H1w].
    { intros o ->. reflexivity. }
    destruct (Hmain "NETSUITE WHOLESALE DATA SYNC V2"
                (fun test_response =>
                   if Sync.test_passed test_response then
                     print (Banner "NetSuite connection OK") ;;
                     test_response <- Client.supabase_request W
                                        "ns_wholesale_customers?limit=1" GET None None ;;
                     if status_code test_response =? 200 then
                       print (Banner "Supabase connection OK") ;;
                       counts <- Sync.V2.sync_transactions_streaming W fuel ;;
                       match counts with
                       | None => ret Sync.Unfinished
                       | Some (txn_count, line_count) =>
                           print (Banner "SYNC COMPLETE") ;;
                           ret (Sync.Finished txn_count line_count)
                       end
                     else
                       print (ErrorText (Sync.prefix 200 (text test_response))) ;;
                       ret Sync.Aborted
                   else
                     print (Banner "NetSuite connection FAILED") ;;
                     ret Sync.Aborted)) as [H2 H2w].
    { intros o ->. reflexivity. }
    split; [exact H1|]. split; [exact H2|]. split; [exact H1w|exact H2w].
Qed.

Section CounterFacts.
Context (W : world).

Lemma make_ns_request_pages url method payload (n : nat) :
  forall tr o tr1,
    Client.make_ns_request W url method payload n tr = (Ok o, tr1) ->
    Trace.pages tr1 = Trace.pages tr ++ Trace.page_in o.
Proof.
  induction n as [|n IH]; intros tr o tr1.
  - intros [= <- <-]. symmetry. apply app_nil_r.
  - cbn [Client.make_ns_request]. unfold bind at 1, Client.send_signed.
    set (c := Client.signed_call W url method payload tr).
    destruct (ns_send W tr c) as [r|].
    + destruct (status_code r =? 429) eqn:E429.
      * intros H. apply IH in H. rewrite H, !pages_cons. cbn [Trace.page_of].
        apply Z.eqb_eq in E429. rewrite E429. cbn. rewrite !app_nil_r. reflexivity.
      * intros [= <- <-]. rewrite pages_cons. unfold Trace.page_of, Trace.page_in.
        destruct (status_code r =? 200); [|reflexivity].
        destruct (body r) as [|[items|]| |]; reflexivity.
    + intros H. apply IH in H. rewrite H, !pages_cons. cbn. rewrite !app_nil_r.
      reflexivity.
Qed.

Lemma write_page_trace {R} (sk : Sync.sink R) bn total items tr total' tr2 :
  Sync.write_page W sk bn total items tr = (Ok total', tr2) ->
  exists m c s, tr2 = Print m :: SbCall c (Responds s) :: tr.
Proof.
  unfold Sync.write_page, bind, lift.
  destruct (rmap (Sync.transform sk) items) as [recs|e]; [|discriminate].
  unfold Client.supabase_request.
  destruct (sb_send W tr _) as [s|]; [|discriminate].
  destruct (Sync.rejected s).
  - intros [= <- <-]. eexists _, _, _. reflexivity.
  - destruct (Sync.report sk recs); [|discriminate].
    intros [= <- <-]. eexists _, _, _. reflexivity.
Qed.

Lemma rows_fetched_page (tr : trace) (items : list row) (tr1 : trace) :
  Trace.pages tr1 = Trace.pages tr ++ [items] ->
  Trace.rows_fetched tr1 = Trace.rows_fetched tr + Sync.len items.
Proof.
  intros H. unfold Trace.rows_fetched, Sync.len. rewrite H, concat_app, length_app.
  simpl. rewrite app_nil_r. lia.
Qed.

(** One pass of the streaming loop, by what it does to the counters. *)
Lemma v2_step_counters {R} (q : Z -> Z -> query) (sk : Sync.sink R)
    (st : Sync.V2.state) tr ctl tr' :
  Sync.V2.page_step W q sk st tr = (Ok ctl, tr') ->
  let st' := Sync.state_of ctl in
  Sync.V2.batch_num st' = Sync.V2.batch_num st + 1 /\
  Sync.V2.offset st' =
    match ctl with
    | Sync.Continue _ => Sync.V2.offset st + Sync.limit
    | Sync.Break _ => Sync.V2.offset st
    end /\
  Sync.V2.total st <= Sync.V2.total st' /\
  Sync.V2.total st' - Sync.V2.total st <= Trace.rows_fetched tr' - Trace.rows_fetched tr /\
  (Trace.writes tr' <= S (Trace.writes tr))%nat.
Proof.
  intros Hstep.
  destruct (make_ns_request_returns W (Sync.ns_url W) POST
              (Some (q (Sync.V2.offset st) Sync.limit)) 3 tr) as (o & tr1 & Hfetch).
  pose proof (make_ns_request_pages _ _ _ _ _ _ _ Hfetch) as Hpages.
  destruct (make_ns_request_queries W _ _ _ _ _ _ Hfetch) as [_ Hw].
  assert (Hfail : match o with Some r => status_code r <> 200 | None => True end ->
                  let st' := Sync.state_of ctl in
                  Sync.V2.batch_num st' = Sync.V2.batch_num st + 1 /\
                  Sync.V2.offset st' =
                    match ctl with
                    | Sync.Continue _ => Sync.V2.offset st + Sync.limit
                    | Sync.Break _ => Sync.V2.offset st
                    end /\
                  Sync.V2.total st <= Sync.V2.total st' /\
                  Sync.V2.total st' - Sync.V2.total st <=
                    Trace.rows_fetched tr' - Trace.rows_fetched tr /\
                  (Trace.writes tr' <= S (Trace.writes tr))%nat).
  { intros Ho.
    assert (Ho' : Trace.page_in o = []).
    { destruct o as [r|]; [|reflexivity]. simpl.
      destruct (status_code r =? 200) eqn:E200; [|reflexivity].
      apply Z.eqb_eq in E200. contradiction. }
    rewrite Ho', app_nil_r in Hpages.
    assert (Hdone : forall new,
              Forall (fun e => Trace.page_of e = None /\ Trace.is_sb_call e = false) new ->
              Trace.rows_fetched (new ++ tr1) = Trace.rows_fetched tr /\
              Trace.writes (new ++ tr1) = Trace.writes tr).
    { intros new Hnew. unfold Trace.rows_fetched.
      induction Hnew as [|e new [He1 He2] _ [IH1 IH2]]; cbn [app].
      - rewrite Hpages, Hw. auto.
      - rewrite pages_cons, He1, app_nil_r, writes_cons, He2. auto. }
    unfold Sync.V2.page_step, bind in Hstep. rewrite Hfetch in Hstep.
    destruct o as [r|].
    - destruct (status_code r =? 200) eqn:E200;
        [apply Z.eqb_eq in E200; contradiction|].
      simpl in Hstep. unfold print, emit, ret in Hstep.
      destruct (ok r); injection Hstep as <- <-; simpl.
      + destruct (Hdone [Print (ErrorText (Sync.prefix 200 (text r)));
                         Print (FetchError (VInt (Sync.V2.offset st)))]) as [H1 H2];
          [repeat constructor|].
        cbn [app] in H1, H2. rewrite H1, H2. repeat split; lia.
      + destruct (Hdone [Print (FetchError (VInt (Sync.V2.offset st)))]) as [H1 H2];
          [repeat constructor|].
        cbn [app] in H1, H2. rewrite H1, H2. repeat split; lia.
    - unfold print, emit, ret in Hstep. injection Hstep as <- <-. simpl.
      destruct (Hdone [Print (FetchError (VInt (Sync.V2.offset st)))]) as [H1 H2];
        [repeat constructor|].
      cbn [app] in H1, H2. rewrite H1, H2. repeat split; lia. }
  destruct o as [r|]; [|apply Hfail; exact I].
  destruct (Z.eq_dec (status_code r) 200) as [H200 | Hn200]; [|apply Hfail; exact Hn200].
  clear Hfail. simpl in Hpages. rewrite (proj2 (Z.eqb_eq _ _) H200) in Hpages.
  unfold Sync.V2.page_step, bind in Hstep. rewrite Hfetch, H200 in Hstep.
  simpl in Hstep. unfold lift, Sync.json in Hstep.
  destruct (body r) as [|[[|x items]|]|rows|] eqn:Hbody; simpl in Hstep;
    try discriminate Hstep.
  - injection Hstep as <- <-. simpl. unfold Trace.rows_fetched.
    rewrite Hpages, concat_app. simpl. rewrite !app_nil_r, Hw. repeat split; lia.
  - destruct (Sync.write_page W sk (Sync.V2.batch_num st + 1) (Sync.V2.total st)
                (x :: items) tr1) as [[total'|e] tr2] eqn:Hwrite; [|discriminate Hstep].
    destruct (write_page_trace _ _ _ _ _ _ _ Hwrite) as (m & c & s & ->).
    apply write_page_writes in Hwrite as (_ & _ & Htot).
    pose proof (rows_fetched_page tr (x :: items) tr1 Hpages) as Hrows.
    assert (Hlen : 0 <= Sync.len (x :: items)) by (unfold Sync.len; lia).
    assert (Hr2 : forall e1, Trace.page_of e1 = None ->
              Trace.rows_fetched (e1 :: Print m :: SbCall c (Responds s) :: tr1) =
              Trace.rows_fetched tr1).
    { intros e1 He1. unfold Trace.rows_fetched. rewrite !pages_cons, He1. cbn.
      rewrite !app_nil_r. reflexivity. }
    assert (Hr1 : Trace.rows_fetched (Print m :: SbCall c (Responds s) :: tr1) =
                  Trace.rows_fetched tr1).
    { unfold Trace.rows_fetched. rewrite !pages_cons. cbn.
      rewrite !app_nil_r. reflexivity. }
    destruct (Sync.len (x :: items) <? Sync.limit).
    + unfold ret in Hstep. injection Hstep as <- <-. simpl.
      rewrite Hr1, Hrows, !writes_cons, Hw. simpl. repeat split; lia.
    + unfold sleep, emit, ret in Hstep. injection Hstep as <- <-. simpl.
      rewrite (Hr2 (Sleep 300) eq_refl), Hrows, !writes_cons, Hw. simpl.
      repeat split; lia.
  - injection Hstep as <- <-. simpl. unfold Trace.rows_fetched.
    rewrite Hpages, app_nil_r, Hw. repeat split; lia.
  - injection Hstep as <- <-. simpl. unfold Trace.rows_fetched.
    rewrite Hpages, app_nil_r, Hw. repeat split; lia.
Qed.

End CounterFacts.

(** X12.  The counters of a streaming loop that ends: the written total
    never goes down and never exceeds the number of rows fetched in the
    meantime; the batch number has gone up, by one at least, and the
    offset has advanced by exactly 1000 for every step of the batch
    number but the last, the one of the pass that ended the loop. *)
Theorem streaming_counters_follow_the_pages
    (W : world) R (q : Z -> Z -> query) (sk : Sync.sink R) (fuel : nat) :
  forall (st : Sync.V2.state) tr st' tr',
    Sync.while_true (Sync.V2.page_step W q sk) fuel st tr = (Ok (Some st'), tr') ->
    Sync.V2.total st <= Sync.V2.total st' /\
    Sync.V2.total st' - Sync.V2.total st <= Trace.rows_fetched tr' - Trace.rows_fetched tr /\
    Sync.V2.batch_num st + 1 <= Sync.V2.batch_num st' /\
    Sync.V2.offset st' =
      Sync.V2.offset st + Sync.limit * (Sync.V2.batch_num st' - Sync.V2.batch_num st - 1).
Proof.
  induction fuel as [|fuel IH]; intros st tr st' tr' Hrun; [discriminate|].
  cbn [Sync.while_true] in Hrun. unfold bind at 1 in Hrun.
  destruct (Sync.V2.page_step W q sk st tr) as [[ctl|e] tr1] eqn:Hstep; [|discriminate].
  destruct (v2_step_counters W q sk st tr ctl tr1 Hstep) as (Hbn & Hoff & Hlo & Hhi & _).
  destruct ctl as [s1|s1]; simpl in Hbn, Hoff, Hlo, Hhi.
  - destruct (IH s1 tr1 st' tr' Hrun) as (H1 & H2 & H3 & H4).
    rewrite H4, Hoff, Hbn. unfold Sync.limit. repeat split; lia.
  - injection Hrun as <- <-. rewrite Hoff, Hbn. unfold Sync.limit. repeat split; lia.
Qed.

Lemma streaming_counters_follow_the_pages_witness :
  Sync.V2.total Sync.V2.start <= 0 /\
  0 - Sync.V2.total Sync.V2.start <=
    Trace.rows_fetched
      (snd (Sync.while_true
              (Sync.V2.page_step Examples.world_offset_rejecting (QV2LineItems [VInt 9])
                 (Sync.V2.line_items Examples.world_offset_rejecting))
              5 Sync.V2.start [])) - Trace.rows_fetched [].
Proof.
  destruct (streaming_counters_follow_the_pages Examples.world_offset_rejecting _
              (QV2LineItems [VInt 9]) (Sync.V2.line_items Examples.world_offset_rejecting)
              5 Sync.V2.start []
              {| Sync.V2.offset := 0; Sync.V2.batch_num := 1; Sync.V2.total := 0 |}
              (snd (Sync.while_true
                      (Sync.V2.page_step Examples.world_offset_rejecting
                         (QV2LineItems [VInt 9])
                         (Sync.V2.line_items Examples.world_offset_rejecting))
                      5 Sync.V2.start [])))
    as (H1 & H2 & _).
  - apply pair_of_fst. vm_compute. reflexivity.
  - split; [exact H1 | exact H2].
Defined.

Section PayloadFacts.

Lemma payloads_cons e tr :
  Trace.payloads (e :: tr) =
  Trace.payloads tr ++
  match e with
  | SbCall c _ =>
      match sb_method c with
      | POST => match sb_json c with Some p => [p] | None => [] end
      | _ => []
      end
  | _ => []
  end.
Proof.
  unfold Trace.payloads. simpl. rewrite omap_app. simpl.
  destruct e as [|c o| |]; try reflexivity.
  destruct (sb_method c); reflexivity.
Qed.

End PayloadFacts.

Section CustomerFacts.
Context (W : world) (rows : list row).
Hypothesis Hserves : Source.serves_customers W rows.

Lemma fetch_customers_page (n : nat) (tr : trace) :
  exists call t,
    let r := {| status_code := 200; text := t;
                body := JObject (Some (take 1000 (drop n rows))) |} in
    Client.make_ns_request W (Sync.ns_url W) POST
      (Some (QCustomers (Z.of_nat n) Sync.limit)) 3 tr =
      (Ok (Some r), NsCall call (Responds r) :: tr).
Proof.
  set (call := Client.signed_call W (Sync.ns_url W) POST
                 (Some (QCustomers (Z.of_nat n) Sync.limit)) tr).
  destruct (Hserves tr call (Z.of_nat n) Sync.limit eq_refl) as [t Ht].
  unfold Source.page_at in Ht. rewrite Nat2Z.id in Ht.
  exists call, t. simpl. unfold bind, Client.send_signed. fold call.
  rewrite Ht. reflexivity.
Qed.

(** The fetch loop of [sync_customers] from the offset [n]: it collects
    the rows from [n] on, in order, in [len / 1000 + 1] fetches. *)
Lemma collect_from_offset (fuel : nat) :
  forall (n : nat) (acc : list row) (tr : trace),
    (length (drop n rows) / 1000 < fuel)%nat ->
    exists off tr',
      Sync.while_true (Sync.Wholesale.fetch_step W) fuel
        {| Sync.Wholesale.offset := Z.of_nat n; Sync.Wholesale.all_customers := acc |} tr =
        (Ok (Some {| Sync.Wholesale.offset := off;
                     Sync.Wholesale.all_customers := acc ++ drop n rows |}), tr') /\
      Trace.attempts tr' = (Trace.attempts tr + length (drop n rows) / 1000 + 1)%nat /\
      Trace.writes tr' = Trace.writes tr /\
      Trace.payloads tr' = Trace.payloads tr.
Proof.
  induction fuel as [|fuel IH]; intros n acc tr Hfuel; [lia|].
  destruct (fetch_customers_page n tr) as (call & t & Hfetch). cbv zeta in Hfetch.
  cbn [Sync.while_true]. unfold bind at 1.
  unfold Sync.Wholesale.fetch_step, bind at 1.
  cbn [Sync.Wholesale.offset Sync.Wholesale.all_customers].
  rewrite Hfetch. cbn [status_code Z.eqb negb Pos.eqb]. unfold bind at 1, lift, Sync.json.
  cbn [body Sync.get_items]. unfold bind at 1.
  destruct (take 1000 (drop n rows)) as [|x items] eqn:Hpage.
  - apply take_nil_inv in Hpage as [Hpage | Hpage]; [discriminate|].
    rewrite Hpage, app_nil_r. eexists _, _. split; [reflexivity|].
    rewrite attempts_cons, writes_cons, payloads_cons. cbn.
    rewrite app_nil_r. split; [lia|]. split; reflexivity.
  - unfold print at 1, emit. unfold bind at 1.
    assert (Hlen : length (x :: items) = Nat.min 1000 (length (drop n rows)))
      by (rewrite <- Hpage; apply length_take).
    destruct (Sync.len (x :: items) <? Sync.limit) eqn:Hshort.
    + apply Z.ltb_lt in Hshort. unfold Sync.len, Sync.limit in Hshort.
      assert (Hall : drop n rows = x :: items)
        by (rewrite <- Hpage; symmetry; apply take_ge; lia).
      assert (Hq0 : (length (drop n rows) / 1000 = 0)%nat) by (apply Nat.div_small; lia).
      rewrite Hall in *. eexists _, _. split; [reflexivity|].
      rewrite !attempts_cons, !writes_cons, !payloads_cons, Hq0. cbn.
      rewrite !app_nil_r. split; [lia|]. split; reflexivity.
    + apply Z.ltb_ge in Hshort. unfold Sync.len, Sync.limit in Hshort.
      assert (Hq : (length (drop n rows) / 1000 =
                    S ((length (drop n rows) - 1000) / 1000))%nat).
      { assert (1000 <= length (drop n rows))%nat by lia.
        replace (length (drop n rows)) with (1 * 1000 + (length (drop n rows) - 1000))%nat
          at 1 by lia.
        rewrite Nat.div_add_l by lia. lia. }
      assert (Hdrop : drop (n + 1000) rows = drop 1000 (drop n rows))
        by (rewrite drop_drop; reflexivity).
      unfold sleep, emit, ret. unfold Sync.limit at 1.
      replace (Z.of_nat n + 1000) with (Z.of_nat (n + 1000)) by lia.
      destruct (IH (n + 1000)%nat (acc ++ x :: items)
                  (Sleep 300 :: Print (Fetched (Sync.len (acc ++ x :: items)))
                     :: NsCall call
                          (Responds {| status_code := 200; text := t;
                                       body := JObject (Some (x :: items)) |}) :: tr))
        as (off & tr' & Hrun & Hatt & Hw & Hp).
      { rewrite Hdrop, length_drop. lia. }
      rewrite Hdrop in Hrun, Hatt. rewrite length_drop in Hatt.
      assert (Hsplit : (x :: items) ++ drop 1000 (drop n rows) = drop n rows)
        by (rewrite <- Hpage; apply take_drop).
      rewrite <- app_assoc, Hsplit in Hrun.
      exists off, tr'. split; [exact Hrun|].
      rewrite Hatt, Hw, Hp, Hq. generalize ((length (drop n rows) - 1000) / 1000)%nat.
      intros q. rewrite !attempts_cons, !writes_cons, !payloads_cons. cbn.
      rewrite !app_nil_r. split; [lia|]. split; reflexivity.
Qed.

End CustomerFacts.

Section BatchFacts.
Context (W : world).
Hypothesis Hdest : Source.destination_responds W.

Lemma rmap_app {A B} (f : A -> result B) (a b : list A) (ra rb : list B) :
  rmap f a = Ok ra -> rmap f b = Ok rb -> rmap f (a ++ b) = Ok (ra ++ rb).
Proof.
  revert ra. induction a as [|x a IH]; intros ra; simpl.
  - intros [= <-] Hb. exact Hb.
  - destruct (f x) as [y|e]; simpl; [|discriminate].
    destruct (rmap f a) as [ra'|e] eqn:Ha; simpl; [|discriminate].
    intros [= <-] Hb. rewrite (IH ra' eq_refl Hb). reflexivity.
Qed.

Lemma rmap_total {A B} (f : A -> result B) (l : list A) :
  Forall (fun x => exists y, f x = Ok y) l ->
  exists recs, rmap f l = Ok recs /\ length recs = length l.
Proof.
  induction 1 as [|x l [y Hy] _ (recs & Hrecs & Hlen)]; simpl.
  - exists []. auto.
  - exists (y :: recs). rewrite Hy, Hrecs. simpl. auto.
Qed.

Lemma batches_needed (n : nat) :
  ((S n + 99) / 100 = S ((S n - 100 + 99) / 100))%nat.
Proof.
  destruct (Nat.lt_ge_cases (S n) 100) as [Hlt | Hge].
  - replace (S n - 100)%nat with 0%nat by lia.
    change ((0 + 99) / 100)%nat with 0%nat.
    symmetry. apply (Nat.div_unique _ _ _ n); lia.
  - replace (S n + 99)%nat with (1 * 100 + (S n - 100 + 99))%nat by lia.
    rewrite Nat.div_add_l by lia. lia.
Qed.

(** The upsert loop over the rows collected: batches of at most 100
    records, in order, one call each, whatever the destination
    answers. *)
Lemma upsert_batches_all (fuel : nat) :
  forall (k : Z) (rest : list row) (tr : trace),
    (length rest <= fuel)%nat ->
    Forall (fun r => exists rec, Transform.customer r = Ok rec) rest ->
    exists recs new tr',
      rmap Transform.customer rest = Ok recs /\
      Sync.Wholesale.upsert_batches W fuel k rest tr = (Ok tt, tr') /\
      Trace.payloads tr' = Trace.payloads tr ++ new /\
      concat new = map CustRecord recs /\
      Forall (fun p => 0 < length p <= 100)%nat new /\
      length new = ((length rest + 99) / 100)%nat /\
      Trace.writes tr' = (Trace.writes tr + length new)%nat /\
      Trace.attempts tr' = Trace.attempts tr.
Proof.
  induction fuel as [|fuel IH]; intros k rest tr Hfuel Hok.
  - destruct rest; [|simpl in Hfuel; lia].
    exists [], [], tr. repeat split; try reflexivity; try constructor.
    + symmetry. apply app_nil_r.
    + simpl. lia.
  - destruct rest as [|x rest].
    { exists [], [], tr. repeat split; try reflexivity; try constructor.
      + symmetry. apply app_nil_r.
      + simpl. lia. }
    remember (x :: rest) as all eqn:Hall.
    destruct (rmap_total Transform.customer (take 100 all) (Forall_take _ _ _ Hok))
      as (r1 & Hr1 & Hl1).
    assert (Hlt : (0 < length r1 <= 100)%nat).
    { rewrite Hl1, length_take, Hall. cbn [length]. lia. }
    set (call := Client.supabase_call W "ns_wholesale_customers" POST
                   (Some (map CustRecord r1)) None).
    destruct (Hdest tr call) as [s Hs].
    set (m := if Sync.rejected s
              then BatchError k (Sync.prefix 200 (text s))
              else BatchOk k (Sync.len r1) (Sync.len r1)).
    destruct (IH (k + 1) (drop 100 all) (Print m :: SbCall call (Responds s) :: tr))
      as (r2 & new & tr' & Hr2 & Hrun & Hp & Hcat & Hsz & Hn & Hw & Ha).
    { rewrite length_drop. rewrite Hall in *. simpl in *. lia. }
    { apply Forall_drop, Hok. }
    exists (r1 ++ r2), (map CustRecord r1 :: new), tr'.
    split.
    { rewrite <- (take_drop 100 all) at 1. apply rmap_app; assumption. }
    split.
    { rewrite Hall at 1. cbn [Sync.Wholesale.upsert_batches]. rewrite <- Hall.
      unfold bind at 1, lift. rewrite Hr1. unfold bind at 1.
      rewrite (supabase_request_responds W _ _ _ _ _ _ Hs). fold call.
      unfold bind at 1. fold m.
      assert (Hprint : (if Sync.rejected s
                        then print (BatchError k (Sync.prefix 200 (text s)))
                        else print (BatchOk k (Sync.len r1) (Sync.len r1)))
                         (SbCall call (Responds s) :: tr) =
                       (Ok tt, Print m :: SbCall call (Responds s) :: tr)).
      { unfold m. destruct (Sync.rejected s); reflexivity. }
      rewrite Hprint. exact Hrun. }
    split.
    { rewrite Hp, !payloads_cons. cbn. rewrite app_nil_r, <- app_assoc. reflexivity. }
    split; [cbn [concat]; rewrite Hcat, map_app; reflexivity|].
    split; [constructor; [rewrite length_map; exact Hlt|exact Hsz]|].
    split.
    { cbn [length]. rewrite Hn, length_drop, Hall. cbn [length].
      rewrite batches_needed. reflexivity. }
    split; [rewrite Hw, !writes_cons; cbn; lia|].
    rewrite Ha, !attempts_cons. reflexivity.
Qed.

End BatchFacts.

(** X13.  Over a source that holds [N] customers in a stable order, and
    with rows that carry [id], [entityid] and [companyname],
    [sync_customers] fetches the rows page by page in [N / 1000 + 1]
    calls, posts every customer exactly once, in the order of the
    source, and returns [N]; it returns [N] whatever the destination
    answered, also when every batch was turned down. *)
Theorem customer_sync_collects_and_posts_everything
    (W : world) (rows : list row) (fuel : nat) (tr : trace) :
  Source.serves_customers W rows ->
  Source.destination_responds W ->
  Forall (fun r => exists rec, Transform.customer r = Ok rec) rows ->
  (length rows / 1000 < fuel)%nat ->
  exists recs tr',
    rmap Transform.customer rows = Ok recs /\
    Sync.Wholesale.sync_customers W fuel tr = (Ok (Some (Sync.len rows)), tr') /\
    Trace.attempts tr' = (Trace.attempts tr + length rows / 1000 + 1)%nat /\
    concat (Trace.payloads tr') = concat (Trace.payloads tr) ++ map CustRecord recs /\
    Trace.writes tr' = (Trace.writes tr + (length rows + 99) / 100)%nat.
Proof.
  intros Hserves Hdest Hok Hfuel.
  set (tr0 := Print (Banner "SYNCING WHOLESALE CUSTOMERS (ALL - INCLUDING NEVER ORDERED)")
                :: tr).
  destruct (collect_from_offset W rows Hserves fuel 0 [] tr0 Hfuel)
    as (off & tr1 & Hrun & Hatt & Hw & Hp).
  rewrite drop_0 in Hrun, Hatt. cbn [app] in Hrun.
  destruct (upsert_batches_all W Hdest (length rows) 1 rows
              (Print (Fetched (Sync.len rows)) :: tr1) (Nat.le_refl _) Hok)
    as (recs & new & tr2 & Hrecs & Hup & Hp2 & Hcat & _ & Hn & Hw2 & Ha2).
  exists recs, (Print (Complete (Sync.len rows)) :: tr2).
  split; [exact Hrecs|]. split.
  { change (Z.of_nat 0) with 0 in Hrun.
    unfold Sync.Wholesale.sync_customers, bind, print, emit. fold tr0.
    rewrite Hrun. cbn [Sync.Wholesale.all_customers]. cbv beta iota.
    unfold print, emit in Hup. rewrite Hup. reflexivity. }
  rewrite attempts_cons, payloads_cons, writes_cons, Ha2, Hp2, Hw2, Hn.
  rewrite !attempts_cons, !payloads_cons, !writes_cons, Hatt, Hp, Hw.
  unfold tr0. rewrite !attempts_cons, !payloads_cons, !writes_cons. cbn.
  rewrite !app_nil_r, concat_app, Hcat. split; [lia|]. split; [reflexivity|lia].
Qed.

Section CustomerExamples.

Lemma world_customers_serves :
  Source.serves_customers Examples.world_customers Examples.customers.
Proof.
  intros tr c off l H. exists "body".
  unfold Examples.world_customers, Examples.mk_world. cbn [ns_send].
  rewrite H. reflexivity.
Qed.

Lemma world_customers_responds :
  Source.destination_responds Examples.world_customers.
Proof. intros tr c. eexists. reflexivity. Qed.

Lemma customers_transformable :
  Forall (fun r => exists rec, Transform.customer r = Ok rec) Examples.customers.
Proof.
  unfold Examples.customers. apply List.Forall_map, List.Forall_forall.
  intros i _. eexists. vm_compute. reflexivity.
Qed.

End CustomerExamples.

Lemma customer_sync_collects_and_posts_everything_witness :
  fst (Sync.Wholesale.sync_customers Examples.world_customers 1 []) = Ok (Some 250) /\
  Trace.attempts (snd (Sync.Wholesale.sync_customers Examples.world_customers 1 [])) = 1%nat /\
  Trace.writes (snd (Sync.Wholesale.sync_customers Examples.world_customers 1 [])) = 3%nat.
Proof.
  destruct (customer_sync_collects_and_posts_everything
              Examples.world_customers Examples.customers 1 []
              world_customers_serves world_customers_responds customers_transformable)
    as (recs & tr' & _ & Hrun & Ha & _ & Hw).
  - vm_compute. lia.
  - rewrite Hrun. cbn [fst snd]. rewrite Ha, Hw.
    repeat split; vm_compute; reflexivity.
Defined.

(** X14.  The upsert loop cuts the rows collected into batches of at
    most 100 records, none empty, posts them in order with one call
    each, the ceiling of [N / 100] calls in all, and sends nothing to
    the source; this whatever the destination answers: after a batch
    that is turned down the loop goes on with the next one. *)
Theorem upsert_batches_of_one_hundred
    (W : world) (k : Z) (rows : list row) (tr : trace) :
  Source.destination_responds W ->
  Forall (fun r => exists rec, Transform.customer r = Ok rec) rows ->
  exists recs new tr',
    rmap Transform.customer rows = Ok recs /\
    Sync.Wholesale.upsert_batches W (length rows) k rows tr = (Ok tt, tr') /\
    Trace.payloads tr' = Trace.payloads tr ++ new /\
    concat new = map CustRecord recs /\
    Forall (fun p => 0 < length p <= 100)%nat new /\
    length new = ((length rows + 99) / 100)%nat /\
    Trace.writes tr' = (Trace.writes tr + length new)%nat /\
    Trace.attempts tr' = Trace.attempts tr.
Proof.
  intros Hdest Hok. apply upsert_batches_all; [exact Hdest|apply Nat.le_refl|exact Hok].
Qed.

Lemma upsert_batches_of_one_hundred_witness :
  fst (Sync.Wholesale.upsert_batches Examples.world_customers
         (length Examples.customers) 1 Examples.customers []) = Ok tt /\
  map (@length dest_record)
    (Trace.payloads
       (snd (Sync.Wholesale.upsert_batches Examples.world_customers
               (length Examples.customers) 1 Examples.customers []))) = [100; 100; 50]%nat.
Proof.
  destruct (upsert_batches_of_one_hundred Examples.world_customers 1 Examples.customers []
              world_customers_responds customers_transformable)
    as (recs & new & tr' & _ & Hrun & _).
  rewrite Hrun. cbn [fst snd]. split; [reflexivity|].
  apply (f_equal snd) in Hrun. cbn [snd] in Hrun. subst tr'.
  vm_compute. reflexivity.
Defined.

Lemma missing_required_column_raises_key_error_witness :
  Transform.transaction Examples.interp0 Examples.bare_line = Raise (KeyError "tranid") /\
  Transform.line_item Examples.interp0 (delete "line_id" Examples.bare_line) =
    Raise (KeyError "line_id").
Proof.
  destruct (missing_required_column_raises_key_error Examples.interp0)
    as (Hline & _ & _ & Htranid & _).
  split.
  - apply Htranid.
    + exists (VInt 3). vm_compute. reflexivity.
    + vm_compute. reflexivity.
  - apply Hline. vm_compute. reflexivity.
Defined.

Lemma aborted_run_has_only_tested_witness :
  fst (Sync.H1.main Examples.world_429 5 []) = Ok Sync.Aborted /\
  fst (Sync.V2.main Examples.world_429 5 []) = Ok Sync.Aborted /\
  Source.only_tested [] (snd (Sync.H1.main Examples.world_429 5 [])).
Proof.
  destruct aborted_run_has_only_tested as (Hh1 & _ & Hnever).
  assert (Hw : Source.never_ok Examples.world_429).
  { intros tr c. cbn. discriminate. }
  destruct (Hnever Examples.world_429 5%nat [] Hw) as (H1 & H2 & _).
  split; [exact H1|]. split; [exact H2|].
  apply (Hh1 Examples.world_429 5%nat).
  apply pair_of_fst. exact H1.
Defined.
